(** * json_to_xlsx: usage-metric records flattened into workbook tabs

    A verification model of [cost-center-automation/json-to-xlsx/json_to_xlsx.py].

    The Python values the program handles are the ones [json.loads] builds:
    [None], [bool], [int], [float], [str], [list] and [dict].  They are
    embedded as the tree type [json]; a [dict] is an association list in
    insertion order, which is also the order pandas gives the columns of a
    [DataFrame] built from row dictionaries.  A Python exception is an explicit
    [Raise] result.  Module [Store] repeats the six builders over a store of
    mutable, aliased objects and links them with the tree-level ones. *)

From Stdlib Require Import ZArith Lia String Ascii List Bool.
From stdpp Require Import base option list strings.

#[local] Set Warnings "-register-all".

Open Scope string_scope.
Open Scope list_scope.
Open Scope Z_scope.

(** ** Python values *)

(** A float is carried as its binary64 bit pattern: the program never computes
    with one, it only copies it into a cell. *)
Inductive json : Type :=
| JNull
| JBool (b : bool)
| JInt (n : Z)
| JFloat (bits : Z)
| JStr (s : string)
| JArr (xs : list json)
| JObj (kvs : list (string * json)).

Abbreviation dict := (list (string * json)).

(** The exceptions of the program: the two a builder can raise on a value of
    the wrong shape, and those of the decoder.  [json.loads] raises
    [JSONDecodeError] on a text that is no JSON document; on an integer
    literal of more than 4300 digits it raises a plain [ValueError], and on
    a document nested too deep a [RecursionError], neither of which is a
    [JSONDecodeError]. *)
Inductive exn : Type :=
| AttributeError
| TypeError
| JSONDecodeError
| ValueError
| RecursionError.

Inductive result (A : Type) : Type :=
| Ok (a : A)
| Raise (e : exn).
Arguments Ok {A} a.
Arguments Raise {A} e.

#[global] Instance result_ret : MRet result := fun A a => Ok a.
#[global] Instance result_bind : MBind result := fun A B f m =>
  match m with
  | Ok a => f a
  | Raise e => Raise e
  end.

Definition is_ok {A} (r : result A) : bool :=
  match r with Ok _ => true | Raise _ => false end.

(** ** Dictionaries *)

Fixpoint dict_lookup (d : dict) (key : string) : option json :=
  match d with
  | [] => None
  | (k, v) :: d' => if String.eqb k key then Some v else dict_lookup d' key
  end.

(** [d[key] = v]: an existing key keeps its place, a new key goes last. *)
Fixpoint dict_set (d : dict) (key : string) (v : json) : dict :=
  match d with
  | [] => [(key, v)]
  | (k, w) :: d' =>
      if String.eqb k key then (k, v) :: d' else (k, w) :: dict_set d' key v
  end.

(** [d.update(other)] *)
Definition dict_update (d other : dict) : dict :=
  fold_left (fun acc kv => dict_set acc (fst kv) (snd kv)) other d.

(** [d.copy()]: on trees a copy is the value itself. *)
Definition dict_copy (d : dict) : dict := d.

(** A dict display [{k1: e1, k2: e2, ...}]: the values are evaluated left to
    right and the first exception ends the evaluation. *)
Fixpoint dict_literal_from (acc : dict) (items : list (string * result json))
  : result dict :=
  match items with
  | [] => Ok acc
  | (k, e) :: rest => v ← e; dict_literal_from (dict_set acc k v) rest
  end.

Definition dict_literal (items : list (string * result json)) : result dict :=
  dict_literal_from [] items.

(** [d.get(key, default)] on a dict. *)
Definition dict_get (d : dict) (key : string) (default : json) : json :=
  match dict_lookup d key with
  | Some v => v
  | None => default
  end.

(** [o.get(key, default)]: only a dict has the method. *)
Definition tree_get (o : json) (key : string) (default : json) : result json :=
  match o with
  | JObj kvs => Ok (dict_get kvs key default)
  | _ => Raise AttributeError
  end.

(** The one-character strings of a string, as iterating a [str] yields them. *)
Fixpoint chars (s : string) : list json :=
  match s with
  | EmptyString => []
  | String c s' => JStr (String c EmptyString) :: chars s'
  end.

(** [iter(o)], run to the end: a list yields its elements, a dict its keys,
    a string its characters; nothing else is iterable. *)
Definition tree_iter (o : json) : result (list json) :=
  match o with
  | JArr xs => Ok xs
  | JObj kvs => Ok (map (fun kv => JStr (fst kv)) kvs)
  | JStr s => Ok (chars s)
  | _ => Raise TypeError
  end.

(** [for x in xs: rows.append(body(x))], the rows appended in order; the first
    exception leaves the loop. *)
Fixpoint for_append {A B} (body : A -> result B) (xs : list A) : result (list B) :=
  match xs with
  | [] => Ok []
  | x :: xs' => r ← body x; rs ← for_append body xs'; Ok (r :: rs)
  end.

(** The same for a body that appends several rows. *)
Fixpoint for_extend {A B} (body : A -> result (list B)) (xs : list A)
  : result (list B) :=
  match xs with
  | [] => Ok []
  | x :: xs' => r ← body x; rs ← for_extend body xs'; Ok (r ++ rs)
  end.

(** ** pandas.DataFrame *)

(** What the type inference of pandas tells apart in a cell: [None], a
    [bool], an [int], a [float], and everything else (a [str], a [list], a
    [dict]), which makes an [object] column. *)
Inductive scalar_kind : Type :=
| KNone
| KBool
| KInt (n : Z)
| KFloat (bits : Z)
| KObject.

(** The values a frame can hold: how the inference sees one, and the float
    with a given bit pattern. *)
Class PyScalar (V : Type) : Type := {
  classify : V -> scalar_kind;
  py_float : Z -> V
}.

#[global] Instance json_scalar : PyScalar json := {|
  classify v :=
    match v with
    | JNull => KNone
    | JBool _ => KBool
    | JInt n => KInt n
    | JFloat bits => KFloat bits
    | JStr _ | JArr _ | JObj _ => KObject
    end;
  py_float := JFloat
|}.

(** NaN: the exponent bits all set and a fraction that is not zero. *)
Definition float64_nan (bits : Z) : bool :=
  (Z.land (Z.shiftr bits 52) 2047 =? 2047) && negb (Z.land bits (Z.ones 52) =? 0).

(** The bit pattern of [float(n)]: the float64 nearest to [n], ties to the
    even fraction.  Python refuses the conversion of an integer beyond the
    float64 range with an [OverflowError]; what pandas does with such an
    integer is not modelled, and the pattern given here is that of
    infinity. *)
Definition float64_of_int (n : Z) : Z :=
  if n =? 0 then 0
  else
    let sign := if n <? 0 then 2 ^ 63 else 0 in
    let m := Z.abs n in
    let e := Z.log2 m in
    let '(q, e) :=
      if e <=? 52 then (Z.shiftl m (52 - e), e)
      else
        let shift := e - 52 in
        let q := Z.shiftr m shift in
        let r := Z.land m (Z.ones shift) in
        let half := Z.shiftl 1 (shift - 1) in
        let q := if (half <? r) || ((r =? half) && Z.odd q) then q + 1 else q in
        if q =? 2 ^ 53 then (2 ^ 52, e + 1) else (q, e) in
    if 1023 <? e then sign + 2047 * 2 ^ 52
    else sign + (e + 1023) * 2 ^ 52 + (q - 2 ^ 52).

Arguments float64_nan : simpl never.
Arguments float64_of_int : simpl never.

(** The storage pandas picks for a column. *)
Inductive dtype : Type :=
| DObject
| DBool
| DInt
| DFloat.

(** What the inference loop has seen so far ([Seen] in [maybe_convert_objects]). *)
Record seen : Type := {
  null_ : bool;
  nan_ : bool;
  float_ : bool;
  int_ : bool;
  uint_ : bool;
  sint_ : bool;
  bool_ : bool
}.

Definition seen_nothing : seen :=
  {| null_ := false; nan_ := false; float_ := false; int_ := false;
     uint_ := false; sint_ := false; bool_ := false |}.

(** The loop over the cells of a column, a cell being [None] where the row
    lacks the key (pandas has put the float NaN there).  The result is [None]
    when the loop is left for an [object] column: at a string, list or dict,
    and at an integer that fits neither int64 nor uint64 or that is negative
    beside one above the int64 range; the integers are not checked once a
    [None] has been seen. *)
Fixpoint scan_column (s : seen) (col : list (option scalar_kind)) : option seen :=
  match col with
  | [] => Some s
  | cell :: col' =>
      match cell with
      | None =>
          scan_column {| null_ := null_ s; nan_ := true; float_ := true;
                         int_ := int_ s; uint_ := uint_ s; sint_ := sint_ s;
                         bool_ := bool_ s |} col'
      | Some KNone =>
          scan_column {| null_ := true; nan_ := nan_ s; float_ := float_ s;
                         int_ := int_ s; uint_ := uint_ s; sint_ := sint_ s;
                         bool_ := bool_ s |} col'
      | Some KBool =>
          scan_column {| null_ := null_ s; nan_ := nan_ s; float_ := float_ s;
                         int_ := int_ s; uint_ := uint_ s; sint_ := sint_ s;
                         bool_ := true |} col'
      | Some (KFloat bits) =>
          scan_column {| null_ := null_ s; nan_ := nan_ s || float64_nan bits;
                         float_ := true; int_ := int_ s; uint_ := uint_ s;
                         sint_ := sint_ s; bool_ := bool_ s |} col'
      | Some (KInt n) =>
          if null_ s then
            scan_column {| null_ := true; nan_ := nan_ s; float_ := float_ s;
                           int_ := true; uint_ := uint_ s; sint_ := sint_ s;
                           bool_ := bool_ s |} col'
          else
            let u := uint_ s || (2 ^ 63 <=? n) && (n <? 2 ^ 64) in
            let g := sint_ s || (- 2 ^ 63 <=? n) && (n <? 0) in
            if u && g || (2 ^ 64 <=? n) || (n <? - 2 ^ 63) then None
            else
              scan_column {| null_ := false; nan_ := nan_ s; float_ := float_ s;
                             int_ := true; uint_ := u; sint_ := g;
                             bool_ := bool_ s |} col'
      | Some KObject => None
      end
  end.

(** The storage of a column: booleans alone are kept as booleans and
    integers alone as integers; numbers with a float, a [None] or a NaN
    among them become float64; anything else stays a column of objects. *)
Definition dtype_of (col : list (option scalar_kind)) : dtype :=
  match scan_column seen_nothing col with
  | None => DObject
  | Some s =>
      if bool_ s then
        if null_ s || nan_ s || float_ s || int_ s then DObject else DBool
      else if null_ s || nan_ s then
        if float_ s || int_ s then DFloat else DObject
      else if float_ s then DFloat
      else if int_ s then DInt
      else DObject
  end.

Arguments dtype_of : simpl never.

(** What a column of storage [d] holds for a cell: nothing for an absent
    key, a [None] or a NaN, which are missing values to pandas
    ([isna]) and empty cells in a written sheet; the float64 of an integer
    in a float64 column; the value itself otherwise. *)
Definition convert {V} `{PyScalar V} (d : dtype) (cell : option V) : option V :=
  match cell with
  | None => None
  | Some v =>
      match classify v with
      | KNone => None
      | KFloat bits => if float64_nan bits then None else Some v
      | KInt n =>
          match d with
          | DFloat => Some (py_float (float64_of_int n))
          | _ => Some v
          end
      | KBool | KObject => Some v
      end
  end.

Arguments convert : simpl never.

(** A cell is [None] where the frame holds a missing value. *)
Record DataFrame : Type := {
  columns : list string;
  values : list (list (option json))
}.

Definition add_column (cols : list string) (k : string) : list string :=
  if existsb (String.eqb k) cols then cols else cols ++ [k].

(** The keys of the rows in order of first appearance, after [cols]. *)
Definition frame_columns (rows : list dict) (cols : list string) : list string :=
  fold_left (fun acc row => fold_left add_column (map fst row) acc) rows cols.

(** What the inference sees of column [c] of the rows. *)
Definition column_kinds (rows : list dict) (c : string) : list (option scalar_kind) :=
  map (fun row => classify <$> dict_lookup row c) rows.

(** [pd.DataFrame(rows)] for a list of row dicts: the columns are the keys in
    order of first appearance, row [i] of the frame is dict [i], and every
    column is stored as the inference decides from its cells. *)
Definition pd_DataFrame (rows : list dict) : DataFrame :=
  let cols := frame_columns rows [] in
  {| columns := cols;
     values :=
       map (fun row =>
              map (fun c => convert (dtype_of (column_kinds rows c))
                              (dict_lookup row c)) cols) rows |}.

(** [df.empty]: some axis has length 0. *)
Definition df_empty (df : DataFrame) : bool :=
  match columns df, values df with
  | [], _ => true
  | _, [] => true
  | _, _ => false
  end.

(** [len(df)] *)
Definition df_len (df : DataFrame) : nat := length (values df).

Fixpoint column_index (cols : list string) (c : string) : option nat :=
  match cols with
  | [] => None
  | k :: cols' =>
      if String.eqb k c then Some 0%nat else S <$> column_index cols' c
  end.

(** The cell of row [i] under the column named [c]. *)
Definition cell (df : DataFrame) (i : nat) (c : string) : option json :=
  row ← values df !! i;
  j ← column_index (columns df) c;
  mjoin (row !! j).

(** ** Sheet builders *)

(** The expressions the builders read their records with, written once for
    both models of the Python values: the trees above and the object store
    of module [Store].  [py_new_list] and [py_new_dict] are the displays
    [[]] and [{}], which make a new object at every evaluation. *)
Class PyValue (M : Type -> Type) (V : Type) : Type := {
  py_str : string -> V;
  py_int : Z -> V;
  py_bool : bool -> V;
  py_new_list : M V;
  py_new_dict : M V;
  py_get : V -> string -> V -> M V
}.

#[global] Instance tree_value : PyValue result json := {|
  py_str := JStr;
  py_int := JInt;
  py_bool := JBool;
  py_new_list := Ok (JArr []);
  py_new_dict := Ok (JObj []);
  py_get := tree_get
|}.

Section Displays.

Context {M : Type -> Type} {V : Type} `{!MBind M, !PyValue M V}.

(** The dict display of [main_row] in [create_main_metrics_sheet]. *)
Definition main_display (record : V) : list (string * M V) :=
  [ ("Report Start", py_get record "report_start_day" (py_str ""));
    ("Report End", py_get record "report_end_day" (py_str ""));
    ("Day", py_get record "day" (py_str ""));
    ("Enterprise ID", py_get record "enterprise_id" (py_str ""));
    ("User ID", py_get record "user_id" (py_str ""));
    ("User Login", py_get record "user_login" (py_str ""));
    ("User Initiated Interactions",
      py_get record "user_initiated_interaction_count" (py_int 0));
    ("Code Generation Activity",
      py_get record "code_generation_activity_count" (py_int 0));
    ("Code Acceptance Activity",
      py_get record "code_acceptance_activity_count" (py_int 0));
    ("LOC Suggested to Add", py_get record "loc_suggested_to_add_sum" (py_int 0));
    ("LOC Suggested to Delete",
      py_get record "loc_suggested_to_delete_sum" (py_int 0));
    ("LOC Added", py_get record "loc_added_sum" (py_int 0));
    ("LOC Deleted", py_get record "loc_deleted_sum" (py_int 0));
    ("Used Agent", py_get record "used_agent" (py_bool false));
    ("Used Chat", py_get record "used_chat" (py_bool false)) ].

(** The [user_info] display every breakdown builder makes from a record. *)
Definition user_info_display (record : V) : list (string * M V) :=
  [ ("User Login", py_get record "user_login" (py_str ""));
    ("Day", py_get record "day" (py_str "")) ].

(** [record.get(field, [])] *)
Definition nested_totals (field : string) (record : V) : M V :=
  d ← py_new_list; py_get record field d.

(** [entry.get(outer, {}).get(inner, "")] *)
Definition get_get (entry : V) (outer inner : string) : M V :=
  d ← py_new_dict; v ← py_get entry outer d; py_get v inner (py_str "").

(** The display [create_ide_totals_sheet] updates a row with. *)
Definition ide_display (ide_total : V) : list (string * M V) :=
  [ ("IDE", py_get ide_total "ide" (py_str ""));
    ("User Initiated Interactions",
      py_get ide_total "user_initiated_interaction_count" (py_int 0));
    ("Code Generation Activity",
      py_get ide_total "code_generation_activity_count" (py_int 0));
    ("Code Acceptance Activity",
      py_get ide_total "code_acceptance_activity_count" (py_int 0));
    ("LOC Suggested to Add",
      py_get ide_total "loc_suggested_to_add_sum" (py_int 0));
    ("LOC Suggested to Delete",
      py_get ide_total "loc_suggested_to_delete_sum" (py_int 0));
    ("LOC Added", py_get ide_total "loc_added_sum" (py_int 0));
    ("LOC Deleted", py_get ide_total "loc_deleted_sum" (py_int 0));
    ("Plugin Version",
      get_get ide_total "last_known_plugin_version" "plugin_version");
    ("IDE Version", get_get ide_total "last_known_ide_version" "ide_version") ].

(** The display of [create_feature_totals_sheet]. *)
Definition feature_display (feature_total : V) : list (string * M V) :=
  [ ("Feature", py_get feature_total "feature" (py_str ""));
    ("User Initiated Interactions",
      py_get feature_total "user_initiated_interaction_count" (py_int 0));
    ("Code Generation Activity",
      py_get feature_total "code_generation_activity_count" (py_int 0));
    ("Code Acceptance Activity",
      py_get feature_total "code_acceptance_activity_count" (py_int 0));
    ("LOC Suggested to Add",
      py_get feature_total "loc_suggested_to_add_sum" (py_int 0));
    ("LOC Suggested to Delete",
      py_get feature_total "loc_suggested_to_delete_sum" (py_int 0));
    ("LOC Added", py_get feature_total "loc_added_sum" (py_int 0));
    ("LOC Deleted", py_get feature_total "loc_deleted_sum" (py_int 0)) ].

(** The display of [create_language_feature_sheet]. *)
Definition lang_feature_display (lang_feature : V) : list (string * M V) :=
  [ ("Language", py_get lang_feature "language" (py_str ""));
    ("Feature", py_get lang_feature "feature" (py_str ""));
    ("Code Generation Activity",
      py_get lang_feature "code_generation_activity_count" (py_int 0));
    ("Code Acceptance Activity",
      py_get lang_feature "code_acceptance_activity_count" (py_int 0));
    ("LOC Suggested to Add",
      py_get lang_feature "loc_suggested_to_add_sum" (py_int 0));
    ("LOC Suggested to Delete",
      py_get lang_feature "loc_suggested_to_delete_sum" (py_int 0));
    ("LOC Added", py_get lang_feature "loc_added_sum" (py_int 0));
    ("LOC Deleted", py_get lang_feature "loc_deleted_sum" (py_int 0)) ].

(** The display of [create_language_model_sheet]. *)
Definition lang_model_display (lang_model : V) : list (string * M V) :=
  [ ("Language", py_get lang_model "language" (py_str ""));
    ("Model", py_get lang_model "model" (py_str ""));
    ("Code Generation Activity",
      py_get lang_model "code_generation_activity_count" (py_int 0));
    ("Code Acceptance Activity",
      py_get lang_model "code_acceptance_activity_count" (py_int 0));
    ("LOC Suggested to Add",
      py_get lang_model "loc_suggested_to_add_sum" (py_int 0));
    ("LOC Suggested to Delete",
      py_get lang_model "loc_suggested_to_delete_sum" (py_int 0));
    ("LOC Added", py_get lang_model "loc_added_sum" (py_int 0));
    ("LOC Deleted", py_get lang_model "loc_deleted_sum" (py_int 0)) ].

(** The display of [create_model_feature_sheet]. *)
Definition model_feature_display (model_feature : V) : list (string * M V) :=
  [ ("Model", py_get model_feature "model" (py_str ""));
    ("Feature", py_get model_feature "feature" (py_str ""));
    ("User Initiated Interactions",
      py_get model_feature "user_initiated_interaction_count" (py_int 0));
    ("Code Generation Activity",
      py_get model_feature "code_generation_activity_count" (py_int 0));
    ("Code Acceptance Activity",
      py_get model_feature "code_acceptance_activity_count" (py_int 0));
    ("LOC Suggested to Add",
      py_get model_feature "loc_suggested_to_add_sum" (py_int 0));
    ("LOC Suggested to Delete",
      py_get model_feature "loc_suggested_to_delete_sum" (py_int 0));
    ("LOC Added", py_get model_feature "loc_added_sum" (py_int 0));
    ("LOC Deleted", py_get model_feature "loc_deleted_sum" (py_int 0)) ].

End Displays.

Definition main_row (record : json) : result dict :=
  dict_literal (main_display record).

Definition create_main_metrics_sheet (data : list json) : result DataFrame :=
  main_data ← for_append main_row data;
  Ok (pd_DataFrame main_data).

Definition user_info_of (record : json) : result dict :=
  dict_literal (user_info_display record).

(** The loop nest the five breakdown builders share: per record the
    [user_info] dict, then one row per element of the nested list under
    [field], each row a copy of [user_info] updated with the dict display
    [display] of the element. *)
Definition breakdown_rows (field : string)
    (display : json -> list (string * result json)) (data : list json)
  : result (list dict) :=
  for_extend (fun record =>
    user_info ← user_info_of record;
    totals ← nested_totals field record;
    entries ← tree_iter totals;
    for_append (fun entry =>
      upd ← dict_literal (display entry);
      Ok (dict_update (dict_copy user_info) upd)) entries) data.

Definition create_ide_totals_sheet (data : list json) : result DataFrame :=
  ide_data ← breakdown_rows "totals_by_ide" ide_display data;
  Ok (pd_DataFrame ide_data).

Definition create_feature_totals_sheet (data : list json) : result DataFrame :=
  feature_data ← breakdown_rows "totals_by_feature" feature_display data;
  Ok (pd_DataFrame feature_data).

Definition create_language_feature_sheet (data : list json) : result DataFrame :=
  lang_feature_data ←
    breakdown_rows "totals_by_language_feature" lang_feature_display data;
  Ok (pd_DataFrame lang_feature_data).

Definition create_language_model_sheet (data : list json) : result DataFrame :=
  lang_model_data ←
    breakdown_rows "totals_by_language_model" lang_model_display data;
  Ok (pd_DataFrame lang_model_data).

Definition create_model_feature_sheet (data : list json) : result DataFrame :=
  model_feature_data ←
    breakdown_rows "totals_by_model_feature" model_feature_display data;
  Ok (pd_DataFrame model_feature_data).

(** ** Text *)

(** File text is a [string] whose characters are the code points below 256.
    [isspace] is [str.isspace] on that range. *)
Definition isspace (c : ascii) : bool :=
  let n := N_of_ascii c in
  ((9 <=? n) && (n <=? 13) || (28 <=? n) && (n <=? 32) || (n =? 133) || (n =? 160))%N.

Fixpoint lstrip (s : string) : string :=
  match s with
  | EmptyString => EmptyString
  | String c s' => if isspace c then lstrip s' else s
  end.

Fixpoint rstrip (s : string) : string :=
  match s with
  | EmptyString => EmptyString
  | String c s' =>
      match rstrip s' with
      | EmptyString => if isspace c then EmptyString else String c EmptyString
      | r => String c r
      end
  end.

(** [s.strip()] *)
Definition strip (s : string) : string := rstrip (lstrip s).

Definition newline : ascii := ascii_of_N 10.

(** [s.split("\n")]: the pieces between line feeds, at least one. *)
Fixpoint split_lines (s : string) : list string :=
  match s with
  | EmptyString => [EmptyString]
  | String c s' =>
      if Ascii.eqb c newline then EmptyString :: split_lines s'
      else match split_lines s' with
           | [] => [String c EmptyString]
           | l :: ls => String c l :: ls
           end
  end.

(** The truth value of a string: it is not empty. *)
Definition str_truthy (s : string) : bool :=
  match s with EmptyString => false | _ => true end.

(** ** The loader and the conversion *)

(** What [open(path).read()] does: the text, [FileNotFoundError], or another
    exception (no permission, a directory, bytes that are not UTF-8). *)
Inductive read_result : Type :=
| Content (raw : string)
| FileNotFound
| ReadError.

(** The exceptions that leave the outer [try] block of [load_json_data]. *)
Inductive load_exn : Type :=
| LoadFileNotFoundError
| LoadException.

(** One written tab: [df.to_excel(writer, sheet_name=..., index=False)] writes
    the column names as the header row and the rows below it. *)
Record tab : Type := {
  tab_name : string;
  header : list string;
  body : list (list (option json))
}.

Abbreviation workbook := (list tab).

Definition to_excel (writer : workbook) (sheet_name : string) (df : DataFrame)
  : workbook :=
  writer ++ [ {| tab_name := sheet_name; header := columns df; body := values df |} ].

(** What a call of [convert_json_to_xlsx] leaves behind.  Console output is
    not modelled. *)
Inductive outcome : Type :=
| Aborted                                   (* [return] before any sheet *)
| Uncaught (e : exn)                        (* a builder raised *)
| WriteError                                (* the [except] around the writer *)
| Written (path : string) (book : workbook) (* the file saved at [path] *).

Section Pipeline.

(** The environment: the file system as [open] sees it, the [json] module's
    decoder with the exception it raises when it returns no value, the
    output path derived from the input path and the clock, and whether the
    workbook library saves a given workbook at a given path. *)
Variable read_text : string -> read_result.
Variable json_loads : string -> result json.
Variable default_output_path : string -> string.
Variable excel_saves : string -> workbook -> bool.

(** The JSONL loop: every line with a non-blank strip is decoded; a line the
    decoder rejects with [JSONDecodeError] is reported and skipped, and any
    other exception of the decoder leaves the loop. *)
Fixpoint load_lines (lines : list string) : result (list json) :=
  match lines with
  | [] => Ok []
  | line :: rest =>
      if str_truthy (strip line) then
        match json_loads line with
        | Ok v => data ← load_lines rest; Ok (v :: data)
        | Raise JSONDecodeError => load_lines rest
        | Raise e => Raise e
        end
      else load_lines rest
  end.

(** The inner [try]: one JSON document, else JSONL when the decoder raises
    [JSONDecodeError]; no other exception is handled here. *)
Definition load_content (content : string) : result (list json) :=
  match json_loads content with
  | Ok single_json =>
      match single_json with
      | JArr xs => Ok xs
      | _ => Ok [single_json]
      end
  | Raise JSONDecodeError => load_lines (split_lines content)
  | Raise e => Raise e
  end.

(** The outer [try] block: whatever is raised inside it reaches one of the
    two handlers. *)
Definition load_json_try (json_file_path : string) : load_exn + list json :=
  match read_text json_file_path with
  | Content raw =>
      match load_content (strip raw) with
      | Ok data => inr data
      | Raise _ => inl LoadException
      end
  | FileNotFound => inl LoadFileNotFoundError
  | ReadError => inl LoadException
  end.

Definition load_json_data (json_file_path : string) : list json :=
  match load_json_try json_file_path with
  | inr data => data
  | inl LoadFileNotFoundError => []
  | inl LoadException => []
  end.

(** The [sheets] dict, in insertion order. *)
Definition build_sheets (data : list json) : result (list (string * DataFrame)) :=
  main ← create_main_metrics_sheet data;
  ide ← create_ide_totals_sheet data;
  feature ← create_feature_totals_sheet data;
  lang_feature ← create_language_feature_sheet data;
  lang_model ← create_language_model_sheet data;
  model_feature ← create_model_feature_sheet data;
  Ok [ ("Main_Metrics", main); ("IDE_Totals", ide);
       ("Feature_Totals", feature); ("Language_Feature", lang_feature);
       ("Language_Model", lang_model); ("Model_Feature", model_feature) ].

(** The loop over [sheets.items()] inside the [ExcelWriter] block. *)
Fixpoint write_sheets (writer : workbook) (sheets : list (string * DataFrame))
  : workbook :=
  match sheets with
  | [] => writer
  | (sheet_name, df) :: rest =>
      if negb (df_empty df) then write_sheets (to_excel writer sheet_name df) rest
      else write_sheets writer rest
  end.

Definition convert_json_to_xlsx (json_file_path : string)
    (output_file_path : option string) : outcome :=
  let data := load_json_data json_file_path in
  match data with
  | [] => Aborted
  | _ =>
      let output_file_path :=
        match output_file_path with
        | Some p => p
        | None => default_output_path json_file_path
        end in
      match build_sheets data with
      | Raise e => Uncaught e
      | Ok sheets =>
          let book := write_sheets [] sheets in
          if excel_saves output_file_path book
          then Written output_file_path book
          else WriteError
      end
  end.

End Pipeline.

(** ** A reference decoder

    [json.loads] belongs to the Python library, so the pipeline above takes
    the decoder as a parameter.  The examples instantiate it with this
    decoder of the JSON grammar without string escapes, fractions and
    exponents; it rejects what it does not cover with [JSONDecodeError].
    It has the limit of 4300 digits on an integer literal, past which
    [json.loads] raises [ValueError]; the recursion limit is not modelled. *)
Module Decoder.

Definition is_ws (c : ascii) : bool :=
  let n := N_of_ascii c in ((n =? 32) || (n =? 9) || (n =? 10) || (n =? 13))%N.

Fixpoint skip_ws (s : string) : string :=
  match s with
  | String c s' => if is_ws c then skip_ws s' else s
  | EmptyString => EmptyString
  end.

Definition is_digit (c : ascii) : bool :=
  let n := N_of_ascii c in ((48 <=? n) && (n <=? 57))%N.

Fixpoint digits (acc : Z) (s : string) : Z * string :=
  match s with
  | String c s' =>
      if is_digit c then digits (10 * acc + Z.of_N (N_of_ascii c) - 48) s'
      else (acc, s)
  | EmptyString => (acc, s)
  end.

(** The number of digits [s] starts with. *)
Fixpoint digit_count (s : string) : nat :=
  match s with
  | String c s' => if is_digit c then S (digit_count s') else O
  | EmptyString => O
  end.

(** [sys.get_int_max_str_digits()], as it is by default. *)
Definition int_max_str_digits : nat := 4300.

Definition reject {A} : result A := Raise JSONDecodeError.

(** An integer: digits without a leading zero unless it is [0] alone. *)
Definition number (s : string) : result (Z * string) :=
  match s with
  | String c s' =>
      if is_digit c then
        if Ascii.eqb c "0" then
          match s' with
          | String d _ => if is_digit d then reject else Ok (0, s')
          | EmptyString => Ok (0, s')
          end
        else if (int_max_str_digits <? digit_count s)%nat then Raise ValueError
        else Ok (digits 0 s)
      else reject
  | EmptyString => reject
  end.

Definition quote : ascii := ascii_of_N 34.

(** The characters up to the closing quote. *)
Fixpoint chars_to_quote (s : string) : result (string * string) :=
  match s with
  | EmptyString => reject
  | String c s' =>
      if Ascii.eqb c quote then Ok (EmptyString, s')
      else if Ascii.eqb c "\" then reject
      else if (N_of_ascii c <? 32)%N then reject
      else '(str, rest) ← chars_to_quote s'; Ok (String c str, rest)
  end.

Definition keyword (kw : string) (v : json) (s : string) : result (json * string) :=
  if String.prefix kw s
  then Ok (v, String.substring (String.length kw) (String.length s - String.length kw) s)
  else reject.

Fixpoint value (fuel : nat) (s : string) : result (json * string) :=
  match fuel with
  | O => reject
  | S fuel =>
      match skip_ws s with
      | EmptyString => reject
      | String c r as t =>
          if Ascii.eqb c "n" then keyword "null" JNull t
          else if Ascii.eqb c "t" then keyword "true" (JBool true) t
          else if Ascii.eqb c "f" then keyword "false" (JBool false) t
          else if Ascii.eqb c quote then
            '(str, rest) ← chars_to_quote r; Ok (JStr str, rest)
          else if Ascii.eqb c "-" then
            '(n, rest) ← number r; Ok (JInt (- n), rest)
          else if Ascii.eqb c "[" then
            match skip_ws r with
            | String "]" rest => Ok (JArr [], rest)
            | _ => '(xs, rest) ← elements fuel r; Ok (JArr xs, rest)
            end
          else if Ascii.eqb c "{" then
            match skip_ws r with
            | String "}" rest => Ok (JObj [], rest)
            | _ => '(kvs, rest) ← members fuel [] r; Ok (JObj kvs, rest)
            end
          else '(n, rest) ← number t; Ok (JInt n, rest)
      end
  end
with elements (fuel : nat) (s : string) : result (list json * string) :=
  match fuel with
  | O => reject
  | S fuel =>
      '(v, rest) ← value fuel s;
      match skip_ws rest with
      | String "," rest' => '(vs, rest'') ← elements fuel rest'; Ok (v :: vs, rest'')
      | String "]" rest' => Ok ([v], rest')
      | _ => reject
      end
  end
with members (fuel : nat) (acc : dict) (s : string) : result (dict * string) :=
  match fuel with
  | O => reject
  | S fuel =>
      match skip_ws s with
      | String c r =>
          if Ascii.eqb c quote then
            '(key, rest) ← chars_to_quote r;
            match skip_ws rest with
            | String ":" rest' =>
                '(v, rest'') ← value fuel rest';
                match skip_ws rest'' with
                | String "," more => members fuel (dict_set acc key v) more
                | String "}" more => Ok (dict_set acc key v, more)
                | _ => reject
                end
            | _ => reject
            end
          else reject
      | EmptyString => reject
      end
  end.

Definition loads (s : string) : result json :=
  '(v, rest) ← value (S (String.length s)) s;
  match skip_ws rest with
  | EmptyString => Ok v
  | _ => reject
  end.

(** Examples write a JSON text with apostrophes where JSON has double
    quotes; [dq] puts the double quotes back. *)
Fixpoint dq (s : string) : string :=
  match s with
  | EmptyString => EmptyString
  | String c s' => String (if Ascii.eqb c "'" then quote else c) (dq s')
  end.

End Decoder.

Definition example_data : list json :=
  [ JObj [ ("day", JStr "2024-01-01"); ("user_login", JStr "alice");
           ("totals_by_ide",
             JArr [ JObj [ ("ide", JStr "vscode"); ("loc_added_sum", JInt 5) ] ]) ] ].

Definition example_text : string :=
  Decoder.dq "[{'day':'2024-01-01','user_login':'alice','totals_by_ide':[{'ide':'vscode','loc_added_sum':5}]}]".

(** Two records: one with every nested list, one with none. *)
Definition example_week : list json :=
  [ JObj [ ("day", JStr "2024-01-01"); ("user_login", JStr "alice");
           ("loc_added_sum", JInt 7); ("used_chat", JBool true);
           ("totals_by_ide",
             JArr [ JObj [ ("ide", JStr "vscode"); ("loc_added_sum", JInt 5);
                           ("last_known_plugin_version",
                             JObj [ ("plugin_version", JStr "1.2.3") ]);
                           ("last_known_ide_version", JObj []) ];
                    JObj [ ("ide", JStr "vim") ] ]);
           ("totals_by_feature", JArr [ JObj [ ("feature", JStr "chat") ] ]);
           ("totals_by_language_feature",
             JArr [ JObj [ ("language", JStr "go"); ("feature", JStr "chat") ] ]);
           ("totals_by_language_model",
             JArr [ JObj [ ("language", JStr "go"); ("model", JStr "m1") ] ]);
           ("totals_by_model_feature",
             JArr [ JObj [ ("model", JStr "m1"); ("feature", JStr "chat") ] ]) ];
    JObj [ ("day", JStr "2024-01-02"); ("user_login", JStr "bob") ] ].

Definition line_feed : string := String newline EmptyString.

(** Three lines of JSONL around a blank line; the second does not decode. *)
Definition example_jsonl : string :=
  String.concat line_feed
    [ Decoder.dq "{'user_login':'alice'}";
      Decoder.dq "{'user_login':";
      "  ";
      Decoder.dq "{'user_login':'bob'}" ].

(** Two lines of spaces. *)
Definition example_blank : string := String.concat line_feed ["  "; " "].

(** A directory for the examples. *)
Definition example_files (path : string) : read_result :=
  if String.eqb path "alice.json" then Content example_text
  else if String.eqb path "week.jsonl" then Content example_jsonl
  else if String.eqb path "blank.json" then Content example_blank
  else if String.eqb path "locked.json" then ReadError
  else FileNotFound.

Definition example_default_output (path : string) : string :=
  String.append path ".xlsx".

Definition example_saves (path : string) (book : workbook) : bool := true.

(** ** The builders over an object store

    Python dicts and lists are mutable objects reached through references,
    and a builder could change the records it is given.  This module runs the
    builders on a store of objects: a reference is a location, [get] hands
    out the stored value itself (an alias when it is a reference), [copy]
    makes a new object, [update] and [append] write in place. *)
Module Store.

Inductive val : Type :=
| VNone
| VBool (b : bool)
| VInt (n : Z)
| VFloat (bits : Z)
| VStr (s : string)
| VRef (l : nat).

Inductive obj : Type :=
| ODict (kvs : list (string * val))
| OList (xs : list val).

Abbreviation store := (list obj).

(** A run ends with a value, with a Python exception, or goes [Wrong]: it
    follows a reference to no object, or calls [copy], [update] or [append]
    on something that is not the dict or list the call is written for.  The
    builders call these three only on objects they made themselves, and
    [pure_builder] below excludes [Wrong]. *)
Inductive outcome (A : Type) : Type :=
| Ret (a : A) (h : store)
| Exn (e : exn) (h : store)
| Wrong.
Arguments Ret {A} a h.
Arguments Exn {A} e h.
Arguments Wrong {A}.

Definition M (A : Type) : Type := store -> outcome A.

#[global] Instance M_ret : MRet M := fun A a h => Ret a h.
#[global] Instance M_bind : MBind M := fun A B f m h =>
  match m h with
  | Ret a h' => f a h'
  | Exn e h' => Exn e h'
  | Wrong => Wrong
  end.

(** A new object, at the first free location. *)
Definition alloc (o : obj) : M val :=
  fun h => Ret (VRef (length h)) (h ++ [o]).

Fixpoint lookup (d : list (string * val)) (key : string) : option val :=
  match d with
  | [] => None
  | (k, v) :: d' => if String.eqb k key then Some v else lookup d' key
  end.

Fixpoint set (d : list (string * val)) (key : string) (v : val)
  : list (string * val) :=
  match d with
  | [] => [(key, v)]
  | (k, w) :: d' =>
      if String.eqb k key then (k, v) :: d' else (k, w) :: set d' key v
  end.

(** [o.get(key, default)] *)
Definition get (o : val) (key : string) (default : val) : M val :=
  fun h =>
    match o with
    | VRef l =>
        match h !! l with
        | Some (ODict kvs) =>
            Ret (match lookup kvs key with Some v => v | None => default end) h
        | Some (OList _) => Exn AttributeError h
        | None => Wrong
        end
    | _ => Exn AttributeError h
    end.

Fixpoint chars (s : string) : list val :=
  match s with
  | EmptyString => []
  | String c s' => VStr (String c EmptyString) :: chars s'
  end.

(** The elements [for x in o] visits.  They are read when the loop starts;
    that is what the loop visits as long as its body leaves [o] alone, which
    the frame theorem below shows of every loop of the builders. *)
Definition iter (o : val) : M (list val) :=
  fun h =>
    match o with
    | VRef l =>
        match h !! l with
        | Some (OList xs) => Ret xs h
        | Some (ODict kvs) => Ret (map (fun kv => VStr (fst kv)) kvs) h
        | None => Wrong
        end
    | VStr s => Ret (chars s) h
    | _ => Exn TypeError h
    end.

#[global] Instance store_value : PyValue M val := {|
  py_str := VStr;
  py_int := VInt;
  py_bool := VBool;
  py_new_list := alloc (OList []);
  py_new_dict := alloc (ODict []);
  py_get := get
|}.

(** The values of a dict display, left to right. *)
Fixpoint display_items (acc : list (string * val)) (items : list (string * M val))
  : M (list (string * val)) :=
  match items with
  | [] => mret acc
  | (k, e) :: rest => v ← e; display_items (set acc k v) rest
  end.

(** [{k1: e1, ...}]: a new dict. *)
Definition dict_display (items : list (string * M val)) : M val :=
  kvs ← display_items [] items; alloc (ODict kvs).

(** [d.copy()]: a new dict with the same items. *)
Definition dict_copy (d : val) : M val :=
  fun h =>
    match d with
    | VRef l =>
        match h !! l with
        | Some (ODict kvs) => alloc (ODict kvs) h
        | _ => Wrong
        end
    | _ => Wrong
    end.

(** [d.update(other)]: [d] is overwritten in place. *)
Definition dict_update (d other : val) : M unit :=
  fun h =>
    match d, other with
    | VRef l, VRef l' =>
        match h !! l, h !! l' with
        | Some (ODict kvs), Some (ODict kvs') =>
            Ret tt (<[l := ODict (fold_left (fun acc kv => set acc (fst kv) (snd kv))
                                    kvs' kvs)]> h)
        | _, _ => Wrong
        end
    | _, _ => Wrong
    end.

(** [lst.append(x)]: [lst] is overwritten in place. *)
Definition list_append (lst x : val) : M unit :=
  fun h =>
    match lst with
    | VRef l =>
        match h !! l with
        | Some (OList xs) => Ret tt (<[l := OList (xs ++ [x])]> h)
        | _ => Wrong
        end
    | _ => Wrong
    end.

Fixpoint for_each (xs : list val) (body : val -> M unit) : M unit :=
  match xs with
  | [] => mret tt
  | x :: xs' => body x;; for_each xs' body
  end.

(** [for x in o: body] *)
Definition for_in (o : val) (body : val -> M unit) : M unit :=
  xs ← iter o; for_each xs body.

#[global] Instance val_scalar : PyScalar val := {|
  classify v :=
    match v with
    | VNone => KNone
    | VBool _ => KBool
    | VInt n => KInt n
    | VFloat bits => KFloat bits
    | VStr _ | VRef _ => KObject
    end;
  py_float := VFloat
|}.

(** A frame whose cells are store values. *)
Record Frame : Type := {
  fcolumns : list string;
  fvalues : list (list (option val))
}.

(** The dicts a list of references points to. *)
Fixpoint read_rows (h : store) (refs : list val)
  : option (list (list (string * val))) :=
  match refs with
  | [] => Some []
  | VRef l :: refs' =>
      match h !! l with
      | Some (ODict kvs) => cons kvs <$> read_rows h refs'
      | _ => None
      end
  | _ :: _ => None
  end.

Definition frame_of (rows : list (list (string * val))) : Frame :=
  let cols :=
    fold_left (fun acc row => fold_left add_column (map fst row) acc) rows [] in
  {| fcolumns := cols;
     fvalues :=
       map (fun row =>
              map (fun c =>
                     convert (dtype_of (map (fun r => classify <$> lookup r c) rows))
                       (lookup row c)) cols) rows |}.

(** [pd.DataFrame(rows)] for a list object of row dicts. *)
Definition pd_DataFrame (rows : val) : M Frame :=
  fun h =>
    match rows with
    | VRef l =>
        match h !! l with
        | Some (OList refs) =>
            match read_rows h refs with
            | Some dicts => Ret (frame_of dicts) h
            | None => Wrong
            end
        | _ => Wrong
        end
    | _ => Wrong
    end.

Definition create_main_metrics_sheet (data : val) : M Frame :=
  main_data ← py_new_list;
  for_in data (fun record =>
    main_row ← dict_display (main_display record);
    list_append main_data main_row);;
  pd_DataFrame main_data.

(** The body the five breakdown builders share, for the nested list [field]
    and the display [display] of an entry. *)
Definition breakdown_sheet (field : string)
    (display : val -> list (string * M val)) (data : val) : M Frame :=
  rows ← py_new_list;
  for_in data (fun record =>
    user_info ← dict_display (user_info_display record);
    totals ← nested_totals field record;
    for_in totals (fun entry =>
      row ← dict_copy user_info;
      upd ← dict_display (display entry);
      dict_update row upd;;
      list_append rows row));;
  pd_DataFrame rows.

Definition create_ide_totals_sheet : val -> M Frame :=
  breakdown_sheet "totals_by_ide" ide_display.

Definition create_feature_totals_sheet : val -> M Frame :=
  breakdown_sheet "totals_by_feature" feature_display.

Definition create_language_feature_sheet : val -> M Frame :=
  breakdown_sheet "totals_by_language_feature" lang_feature_display.

Definition create_language_model_sheet : val -> M Frame :=
  breakdown_sheet "totals_by_language_model" lang_model_display.

Definition create_model_feature_sheet : val -> M Frame :=
  breakdown_sheet "totals_by_model_feature" model_feature_display.

(** The objects of a tree, made as a decoder makes them: the parts first. *)
Fixpoint alloc_tree (j : json) : M val :=
  match j with
  | JNull => mret VNone
  | JBool b => mret (VBool b)
  | JInt n => mret (VInt n)
  | JFloat bits => mret (VFloat bits)
  | JStr s => mret (VStr s)
  | JArr js =>
      vs ← (fix parts (js : list json) : M (list val) :=
              match js with
              | [] => mret []
              | j :: js' => v ← alloc_tree j; vs ← parts js'; mret (v :: vs)
              end) js;
      alloc (OList vs)
  | JObj kvs =>
      vkvs ← (fix parts (kvs : dict) : M (list (string * val)) :=
                match kvs with
                | [] => mret []
                | (k, j) :: kvs' =>
                    v ← alloc_tree j; vkvs ← parts kvs'; mret ((k, v) :: vkvs)
                end) kvs;
      alloc (ODict vkvs)
  end.

(** The example input in an empty store: the entry, the nested list, the
    record, the record list. *)
Definition example_store : store :=
  [ ODict [ ("ide", VStr "vscode"); ("loc_added_sum", VInt 5) ];
    OList [ VRef 0 ];
    ODict [ ("day", VStr "2024-01-01"); ("user_login", VStr "alice");
            ("totals_by_ide", VRef 1) ];
    OList [ VRef 2 ] ].

(** *** Reading the store as trees *)

(** [repr P h v j]: in [h] the value [v] is the tree [j], and every object
    of it lies at a location in [P]. *)
Inductive repr (P : nat -> Prop) (h : store) : val -> json -> Prop :=
| repr_none : repr P h VNone JNull
| repr_bool b : repr P h (VBool b) (JBool b)
| repr_int n : repr P h (VInt n) (JInt n)
| repr_float bits : repr P h (VFloat bits) (JFloat bits)
| repr_str s : repr P h (VStr s) (JStr s)
| repr_list l vs js :
    P l -> h !! l = Some (OList vs) ->
    Forall2 (repr P h) vs js ->
    repr P h (VRef l) (JArr js)
| repr_dict l vkvs kvs :
    P l -> h !! l = Some (ODict vkvs) ->
    Forall2 (fun vkv kv => fst vkv = fst kv /\ repr P h (snd vkv) (snd kv))
      vkvs kvs ->
    repr P h (VRef l) (JObj kvs).

(** The locations of [h] outside [X]. *)
Definition away (X : list nat) (h : store) (l : nat) : Prop :=
  (l < length h)%nat /\ l ∉ X.

(** [v] is the tree [j] in [h], clear of the locations [X]. *)
Definition rep (X : list nat) (h : store) (v : val) (j : json) : Prop :=
  repr (away X h) h v j.

(** The items of a store dict are those of a tree dict. *)
Definition rep_items (X : list nat) (h : store)
    (vkvs : list (string * val)) (kvs : dict) : Prop :=
  Forall2 (fun vkv kv => fst vkv = fst kv /\ rep X h (snd vkv) (snd kv)) vkvs kvs.

(** [h'] extends [h] and agrees with it except perhaps at [W]. *)
Definition ext (W : list nat) (h h' : store) : Prop :=
  (length h <= length h')%nat
  /\ forall l, (l < length h)%nat -> l ∉ W -> h' !! l = h !! l.

(** The run [m] from [h] ends as the result [r] does: with values related by
    [R] in the final store, or with the same exception; the final store
    extends [h] and differs from it at most at [W]. *)
Definition sim {A B} (W : list nat) (R : store -> A -> B -> Prop) (h : store)
    (m : M A) (r : result B) : Prop :=
  match m h, r with
  | Ret a h', Ok b => ext W h h' /\ R h' a b
  | Exn e h', Raise e' => e = e' /\ ext W h h'
  | _, _ => False
  end.

(** Item by item the displays have the same keys, and the value
    expressions agree in every store that extends [h]. *)
Definition items_sim (X : list nat) (h : store)
    (sitems : list (string * M val)) (titems : list (string * result json))
  : Prop :=
  Forall2 (fun si ti =>
             fst si = fst ti
             /\ forall h', ext [] h h' -> sim [] (rep X) h' (snd si) (snd ti))
    sitems titems.

(** The two readings of a display agree on every value they are given. *)
Definition display_sim (sdisplay : val -> list (string * M val))
    (tdisplay : json -> list (string * result json)) : Prop :=
  forall X h v j,
    Forall (fun x => (x < length h)%nat) X ->
    rep X h v j -> items_sim X h (sdisplay v) (tdisplay j).

(** The list object at [ld] holds references to the row dicts [rows]. *)
Definition holds_rows (ld : nat) (h : store) (rows : list dict) : Prop :=
  exists refs,
    h !! ld = Some (OList refs)
    /\ Forall2 (rep [ld] h) refs (map JObj rows).

(** A loop that appends to the list at [ld] the rows its tree counterpart
    returns. *)
Definition appends (ld : nat) (h : store) (acc : list dict) (m : M unit)
    (r : result (list dict)) : Prop :=
  sim [ld] (fun h' _ rows => holds_rows ld h' (acc ++ rows)) h m r.

(** Every object of [h] is still in [h'], unchanged. *)
Definition unchanged (h h' : store) : Prop :=
  forall l o, h !! l = Some o -> h' !! l = Some o.

(** A store frame is a tree frame: the same columns, and cell by cell the
    same trees, the same cells missing. *)
Definition rep_frame (h : store) (f : Frame) (df : DataFrame) : Prop :=
  fcolumns f = columns df
  /\ Forall2 (Forall2 (option_Forall2 (rep [] h))) (fvalues f) (values df).

(** The store builder [run] agrees with the tree builder [builder] and keeps
    its input: started in any store where [data] is the list of trees [js],
    it ends as [builder js] does, with a frame that reads as the frame of
    [builder js] or with the same exception, and in either case every object
    the store held at the start is unchanged, so that [data] still is the
    list of trees [js]. *)
Definition pure_builder (run : val -> M Frame)
    (builder : list json -> result DataFrame) : Prop :=
  forall (h : store) (data : val) (js : list json),
    rep [] h data (JArr js) ->
    match run data h, builder js with
    | Ret f h', Ok df =>
        unchanged h h' /\ rep [] h' data (JArr js) /\ rep_frame h' f df
    | Exn e h', Raise e' =>
        e = e' /\ unchanged h h' /\ rep [] h' data (JArr js)
    | _, _ => False
    end.

End Store.

(** ** Vocabulary of the statements *)

Definition is_object (j : json) : bool :=
  match j with JObj _ => true | _ => false end.

(** The field of a record, or the default when the record lacks it. *)
Definition field_or (record : json) (key : string) (default : json) : json :=
  match record with
  | JObj kvs => dict_get kvs key default
  | _ => default
  end.

(** The nested list of a record under [field]; empty when the field is absent. *)
Definition nested_list (field : string) (record : json) : list json :=
  match record with
  | JObj kvs =>
      match dict_lookup kvs field with
      | Some (JArr es) => es
      | _ => []
      end
  | _ => []
  end.

(** The pairs (record, nested entry) of a grouping, in input order. *)
Definition entries (field : string) (data : list json) : list (json * json) :=
  flat_map (fun record => map (pair record) (nested_list field record)) data.

(** [o] is a dict in which [key] is absent or bound to a value passing [p]. *)
Definition absent_or (p : json -> bool) (o : json) (key : string) : bool :=
  match o with
  | JObj kvs =>
      match dict_lookup kvs key with
      | None => true
      | Some v => p v
      end
  | _ => false
  end.

Definition list_of (p : json -> bool) (v : json) : bool :=
  match v with
  | JArr es => forallb p es
  | _ => false
  end.

(** A record a breakdown builder can flatten: a dict whose [field], when
    present, is a list of dicts. *)
Definition breakdown_ready (field : string) (record : json) : bool :=
  absent_or (list_of is_object) record field.

(** An entry of [totals_by_ide] whose two version fields, when present, are
    dicts. *)
Definition ide_entry_ready (e : json) : bool :=
  absent_or is_object e "last_known_plugin_version"
  && absent_or is_object e "last_known_ide_version".

Definition ide_ready (record : json) : bool :=
  absent_or (list_of ide_entry_ready) record "totals_by_ide".

(** A record as the data model has it: a dict whose five nested lists, when
    present, are lists of dicts, the per-IDE entries with version fields that
    are dicts when present. *)
Definition record_ready (record : json) : bool :=
  ide_ready record
  && breakdown_ready "totals_by_feature" record
  && breakdown_ready "totals_by_language_feature" record
  && breakdown_ready "totals_by_language_model" record
  && breakdown_ready "totals_by_model_feature" record.

(** A value pandas takes for missing: [None] or a NaN. *)
Definition isna (v : json) : bool :=
  match v with
  | JNull => true
  | JFloat bits => float64_nan bits
  | _ => false
  end.

Definition is_str (v : json) : bool :=
  match v with JStr _ => true | _ => false end.




(** What a frame holds for the value [v] in a column made of the values
    [col]. *)
Definition held (col : list json) (v : json) : option json :=
  convert (dtype_of (map (fun x => Some (classify x)) col)) (Some v).


(** The values the main frame is given in the column read from [key]. *)
Definition column (key : string) (default : json) (data : list json)
  : list json :=
  map (fun record => field_or record key default) data.

(** The values a breakdown frame is given in a carry-over column, and in a
    column its display reads from the entry. *)
Definition carried (key : string) (default : json) (es : list (json * json))
  : list json :=
  map (fun re => field_or (fst re) key default) es.


(** What a breakdown builder owes on [data] for the nested list [field]: a
    frame with as many rows as the nested lists have entries in all, row [i]
    holding what pandas holds for the user login and the day of the record
    that entry [i] is from: the login and the day themselves when they are
    strings. *)
Definition flattens (builder : list json -> result DataFrame) (field : string)
    (data : list json) : Prop :=
  exists df,
    builder data = Ok df
    /\ df_len df
       = sum_list_with (fun record => length (nested_list field record)) data
    /\ df_len df = length (entries field data)
    /\ (forall i record e,
          entries field data !! i = Some (record, e) ->
          let login := field_or record "user_login" (JStr "") in
          let day := field_or record "day" (JStr "") in
          cell df i "User Login"
            = held (carried "user_login" (JStr "") (entries field data)) login
          /\ cell df i "Day"
             = held (carried "day" (JStr "") (entries field data)) day
          /\ (is_str login = true -> cell df i "User Login" = Some login)
          /\ (is_str day = true -> cell df i "Day" = Some day)).



(** The columns of the main sheet with the record field and the default each
    one is read from. *)
Definition main_fields : list (string * (string * json)) :=
  [ ("Report Start", ("report_start_day", JStr ""));
    ("Report End", ("report_end_day", JStr ""));
    ("Day", ("day", JStr ""));
    ("Enterprise ID", ("enterprise_id", JStr ""));
    ("User ID", ("user_id", JStr ""));
    ("User Login", ("user_login", JStr ""));
    ("User Initiated Interactions", ("user_initiated_interaction_count", JInt 0));
    ("Code Generation Activity", ("code_generation_activity_count", JInt 0));
    ("Code Acceptance Activity", ("code_acceptance_activity_count", JInt 0));
    ("LOC Suggested to Add", ("loc_suggested_to_add_sum", JInt 0));
    ("LOC Suggested to Delete", ("loc_suggested_to_delete_sum", JInt 0));
    ("LOC Added", ("loc_added_sum", JInt 0));
    ("LOC Deleted", ("loc_deleted_sum", JInt 0));
    ("Used Agent", ("used_agent", JBool false));
    ("Used Chat", ("used_chat", JBool false)) ].

(** The two carry-over columns of every breakdown row. *)
Definition carry_fields : list (string * (string * json)) :=
  [ ("User Login", ("user_login", JStr ""));
    ("Day", ("day", JStr "")) ].

(** The value of a result that is known to be [Ok]. *)
Definition ok_or {A} (default : A) (r : result A) : A :=
  match r with Ok a => a | Raise _ => default end.

(** The columns the dict displays of the five breakdown builders add. *)
Definition ide_columns : list string :=
  [ "IDE"; "User Initiated Interactions"; "Code Generation Activity";
    "Code Acceptance Activity"; "LOC Suggested to Add";
    "LOC Suggested to Delete"; "LOC Added"; "LOC Deleted"; "Plugin Version";
    "IDE Version" ].

Definition feature_columns : list string :=
  [ "Feature"; "User Initiated Interactions"; "Code Generation Activity";
    "Code Acceptance Activity"; "LOC Suggested to Add";
    "LOC Suggested to Delete"; "LOC Added"; "LOC Deleted" ].

Definition lang_feature_columns : list string :=
  [ "Language"; "Feature"; "Code Generation Activity";
    "Code Acceptance Activity"; "LOC Suggested to Add";
    "LOC Suggested to Delete"; "LOC Added"; "LOC Deleted" ].

Definition lang_model_columns : list string :=
  [ "Language"; "Model"; "Code Generation Activity";
    "Code Acceptance Activity"; "LOC Suggested to Add";
    "LOC Suggested to Delete"; "LOC Added"; "LOC Deleted" ].

Definition model_feature_columns : list string :=
  [ "Model"; "Feature"; "User Initiated Interactions";
    "Code Generation Activity"; "Code Acceptance Activity";
    "LOC Suggested to Add"; "LOC Suggested to Delete"; "LOC Added";
    "LOC Deleted" ].







(** The row a table of fields reads from a dict. *)
Definition project (fields : list (string * (string * json))) (kvs : dict) : dict :=
  map (fun cf => (fst cf, dict_get kvs (fst (snd cf)) (snd (snd cf)))) fields.

(** The row of a (record, entry) pair in a breakdown frame. *)
Definition breakdown_row (display : json -> list (string * result json))
    (re : json * json) : dict :=
  dict_update (project carry_fields (match fst re with JObj kvs => kvs | _ => [] end))
    (ok_or [] (dict_literal (display (snd re)))).

(** A string of whitespace only. *)
Fixpoint all_space (s : string) : bool :=
  match s with
  | EmptyString => true
  | String c s' => isspace c && all_space s'
  end.

(** A decoder that reads a text it accepts the same once the whitespace
    around it is stripped.  [json.loads] is one: it skips the blanks, tabs,
    line feeds and carriage returns around a document, all of which [strip]
    removes, and a document neither starts nor ends with whitespace. *)
Definition accepts_stripped (json_loads : string -> result json) : Prop :=
  forall s v, json_loads s = Ok v -> json_loads (strip s) = Ok v.

(** The values of the lines that are not blank and that the decoder accepts,
    in line order. *)
Definition decoded_lines (json_loads : string -> result json)
    (lines : list string) : list json :=
  omap (fun line =>
          if all_space line then None
          else match json_loads line with Ok v => Some v | Raise _ => None end)
    lines.

(** Lines on which the decoder raises nothing but [JSONDecodeError]: no
    line that is not blank holds an integer of more than 4300 digits, or is
    nested too deep. *)
Definition rejects_only (json_loads : string -> result json)
    (lines : list string) : Prop :=
  Forall (fun line =>
            all_space line = false ->
            forall e, json_loads line = Raise e -> e = JSONDecodeError) lines.

(** The tab [to_excel] writes for a frame. *)
Definition tab_of (sheet : string * DataFrame) : tab :=
  {| tab_name := fst sheet; header := columns (snd sheet); body := values (snd sheet) |}.

(** The tabs of the sheets that are not empty, in sheet order. *)
Definition nonempty_tabs (sheets : list (string * DataFrame)) : workbook :=
  omap (fun sheet => if df_empty (snd sheet) then None else Some (tab_of sheet)) sheets.

(** ** The output path and the command line

    [os.path] is taken as it is on a POSIX system ([posixpath]): the
    separator is the slash and the extension separator the dot. *)

Definition is_sep (c : ascii) : bool := Ascii.eqb c "/".

Definition is_dot (c : ascii) : bool := Ascii.eqb c ".".

(** [(p[:i], p[i:])] for [i = p.rfind("/") + 1]. *)
Fixpoint split_last_sep (p : string) : string * string :=
  match p with
  | EmptyString => (EmptyString, EmptyString)
  | String c p' =>
      let (head, tail) := split_last_sep p' in
      match head with
      | EmptyString =>
          if is_sep c then (String c EmptyString, tail)
          else (EmptyString, String c tail)
      | _ => (String c head, tail)
      end
  end.

(** [os.path.basename(p)] *)
Definition basename (p : string) : string := snd (split_last_sep p).

Fixpoint all_sep (s : string) : bool :=
  match s with
  | EmptyString => true
  | String c s' => is_sep c && all_sep s'
  end.

(** [s.rstrip("/")] *)
Fixpoint rstrip_sep (s : string) : string :=
  match s with
  | EmptyString => EmptyString
  | String c s' =>
      match rstrip_sep s' with
      | EmptyString => if is_sep c then EmptyString else String c EmptyString
      | r => String c r
      end
  end.

(** [os.path.dirname(p)]: the head, without its trailing slashes unless it
    is made of slashes only. *)
Definition dirname (p : string) : string :=
  let head := fst (split_last_sep p) in
  if str_truthy head && negb (all_sep head) then rstrip_sep head else head.

(** [(b[:d], b[d:])] for the last dot [d] of [b], when [b] has a dot. *)
Fixpoint split_last_dot (b : string) : option (string * string) :=
  match b with
  | EmptyString => None
  | String c b' =>
      match split_last_dot b' with
      | Some (root, ext) => Some (String c root, ext)
      | None => if is_dot c then Some (EmptyString, b) else None
      end
  end.

Fixpoint all_dots (s : string) : bool :=
  match s with
  | EmptyString => true
  | String c s' => is_dot c && all_dots s'
  end.

(** [os.path.splitext(p)]: the split is at the last dot of the last
    component, unless only dots come before it in that component. *)
Definition splitext (p : string) : string * string :=
  let (head, tail) := split_last_sep p in
  match split_last_dot tail with
  | Some (root, ext) =>
      if all_dots root then (p, EmptyString) else (String.append head root, ext)
  | None => (p, EmptyString)
  end.

Fixpoint ends_with_sep (s : string) : bool :=
  match s with
  | EmptyString => false
  | String c EmptyString => is_sep c
  | String _ s' => ends_with_sep s'
  end.

(** [os.path.join(a, b)] *)
Definition path_join (a b : string) : string :=
  match b with
  | String c _ =>
      if is_sep c then b
      else if negb (str_truthy a) || ends_with_sep a then String.append a b
      else String.append a (String "/" b)
  | EmptyString =>
      if negb (str_truthy a) || ends_with_sep a then a
      else String.append a (String "/" EmptyString)
  end.

(** The output path [convert_json_to_xlsx] derives when it is given none;
    [timestamp] is [datetime.now().strftime("%Y%m%d_%H%M%S")]. *)
Definition derived_output_path (timestamp json_file_path : string) : string :=
  let base_name := fst (splitext (basename json_file_path)) in
  let output_dir := dirname json_file_path in
  path_join output_dir
    (String.append base_name
       (String.append "_converted_" (String.append timestamp ".xlsx"))).

(** What a run of [main] comes to: the usage text, or a conversion. *)
Inductive main_outcome : Type :=
| UsageShown
| Converted (o : outcome).

Section Program.

(** The environment of [main]: that of the conversion, the clock reading the
    derived output path uses, the directory of the script
    ([os.path.dirname(os.path.abspath(__file__))]) and [os.path.exists]. *)
Variable read_text : string -> read_result.
Variable json_loads : string -> result json.
Variable timestamp : string.
Variable excel_saves : string -> workbook -> bool.
Variable script_dir : string.
Variable path_exists : string -> bool.

(** [main] with [sys.argv = argv]. *)
Definition main (argv : list string) : main_outcome :=
  let '(json_file_path, output_path) :=
    match argv with
    | _ :: input :: rest =>
        (input, match rest with output :: _ => Some output | [] => None end)
    | _ => (path_join script_dir "json_file.json", None)
    end in
  if negb (path_exists json_file_path) then UsageShown
  else Converted (convert_json_to_xlsx read_text json_loads
                    (derived_output_path timestamp) excel_saves
                    json_file_path output_path).

End Program.

(** ** Vocabulary of the further statements *)


(** A frame whose rows are all as wide as its header. *)
Definition rectangular (df : DataFrame) : Prop :=
  Forall (fun row => length row = length (columns df)) (values df).

(** In the breakdown frame [df] a carry-over cell is missing exactly where the
    record has a missing value for login or day. *)
Definition carry_gaps (df : DataFrame) (field : string) (data : list json)
  : Prop :=
  forall i record e,
    entries field data !! i = Some (record, e) ->
    (cell df i "User Login" = None
     <-> isna (field_or record "user_login" (JStr "")) = true)
    /\ (cell df i "Day" = None
        <-> isna (field_or record "day" (JStr "")) = true).

(** The names of the six sheets, in the order of the [sheets] dict. *)
Definition sheet_names : list string :=
  [ "Main_Metrics"; "IDE_Totals"; "Feature_Totals"; "Language_Feature";
    "Language_Model"; "Model_Feature" ].

(** A string without a slash. *)
Fixpoint no_sep (s : string) : bool :=
  match s with
  | EmptyString => true
  | String c s' => negb (is_sep c) && no_sep s'
  end.



(** A record whose user login and day are strings, or absent. *)
Definition keyed (record : json) : bool :=
  is_str (field_or record "user_login" (JStr ""))
  && is_str (field_or record "day" (JStr "")).

(** Every row of the breakdown frame [df] has the user login and the day of
    some row of the main frame [main]. *)
Definition joins (main df : DataFrame) : Prop :=
  forall i, (i < df_len df)%nat ->
    exists k login day,
      (k < df_len main)%nat
      /\ cell df i "User Login" = Some login
      /\ cell main k "User Login" = Some login
      /\ cell df i "Day" = Some day
      /\ cell main k "Day" = Some day.

(** A record list the loader can return that the builders were not written
    for: a nested list of the first record is an empty dict, one of the
    second an empty string. *)
Definition example_odd : list json :=
  [ JObj [ ("user_login", JStr "carol"); ("totals_by_ide", JObj []);
           ("totals_by_feature", JArr [ JObj [ ("feature", JStr "chat") ] ]) ];
    JObj [ ("user_login", JStr "dave"); ("totals_by_feature", JStr "") ] ].

Definition example_exists (path : string) : bool :=
  match example_files path with
  | FileNotFound => false
  | _ => true
  end.

(** An integer literal of 4301 digits. *)
Definition example_long_integer : string :=
  String.concat EmptyString (replicate 4301 "7").

(** Files the loader does not read into records: a number, JSONL whose
    second line is an array, and JSONL whose second line is an integer of
    4301 digits. *)
Definition example_stray_files (path : string) : read_result :=
  if String.eqb path "number.json" then Content "42"
  else if String.eqb path "pairs.jsonl"
  then Content (String.concat line_feed
                  [ Decoder.dq "{'user_login':'alice'}"; "[1, 2]" ])
  else if String.eqb path "long.jsonl"
  then Content (String.concat line_feed
                  [ Decoder.dq "{'user_login':'alice'}"; example_long_integer ])
  else FileNotFound.

(** The float 0.5, and the integer [2 ^ 53 + 1], which no float64 is. *)
Definition example_half : json := JFloat 4602678819172646912.

Definition example_odd_integer : json := JInt (2 ^ 53 + 1).

(** Two records with numbers for logins and a number in a metric, each with
    one per-IDE entry whose plugin version is a number. *)
Definition example_numbers : list json :=
  [ JObj [ ("user_login", example_odd_integer);
           ("loc_added_sum", example_odd_integer);
           ("totals_by_ide",
             JArr [ JObj [ ("last_known_plugin_version",
                             JObj [ ("plugin_version", example_odd_integer) ]) ] ]) ];
    JObj [ ("user_login", example_half);
           ("loc_added_sum", example_half);
           ("totals_by_ide",
             JArr [ JObj [ ("last_known_plugin_version",
                             JObj [ ("plugin_version", example_half) ]) ] ]) ] ].



(** A written tab with at least one row, every row as wide as the header. *)
Definition filled (t : tab) : Prop :=
  body t <> []
  /\ Forall (fun row => length row = length (header t)) (body t).

(** ** Facts about dictionaries *)

Lemma dict_lookup_set (d : dict) (k k' : string) (v : json) :
  dict_lookup (dict_set d k v) k' =
  if String.eqb k k' then Some v else dict_lookup d k'.
Proof.
  induction d as [|[k0 w] d IH]; simpl.
  - reflexivity.
  - destruct (String.eqb k0 k) eqn:E0; simpl.
    + apply String.eqb_eq in E0; subst k0.
      destruct (String.eqb k k'); reflexivity.
    + rewrite IH.
      destruct (String.eqb k0 k') eqn:E1; [|reflexivity].
      apply String.eqb_eq in E1; subst k0.
      rewrite String.eqb_sym, E0. reflexivity.
Qed.

Lemma dict_lookup_update_other (d other : dict) (k : string) :
  k ∉ map fst other ->
  dict_lookup (dict_update d other) k = dict_lookup d k.
Proof.
  unfold dict_update. revert d.
  induction other as [|[k0 v] other IH]; intros d Hk; simpl.
  - reflexivity.
  - rewrite IH.
    + rewrite dict_lookup_set.
      destruct (String.eqb k0 k) eqn:E; [|reflexivity].
      apply String.eqb_eq in E; subst k0.
      exfalso. apply Hk. simpl. left.
    + intros Hin. apply Hk. simpl. right. exact Hin.
Qed.


Lemma dict_lookup_Some_key (d : dict) (k : string) (v : json) :
  dict_lookup d k = Some v -> k ∈ map fst d.
Proof.
  induction d as [|[k0 w] d IH]; simpl; [discriminate|].
  destruct (String.eqb k0 k) eqn:E.
  - apply String.eqb_eq in E; subst. intros _. left.
  - intros H. right. auto.
Qed.

Lemma dict_lookup_map_fields (f : string * json -> json)
    (fields : list (string * (string * json))) (c : string) (kd : string * json) :
  NoDup (map fst fields) -> (c, kd) ∈ fields ->
  dict_lookup (map (fun cf => (fst cf, f (snd cf))) fields) c = Some (f kd).
Proof.
  induction fields as [|[c0 kd0] fields IH]; intros Hnd Hin; simpl in *.
  - inversion Hin.
  - apply NoDup_cons in Hnd as [Hc0 Hnd].
    apply elem_of_cons in Hin as [Heq|Hin].
    + inversion Heq; subst. rewrite String.eqb_refl. reflexivity.
    + destruct (String.eqb c0 c) eqn:E.
      * apply String.eqb_eq in E; subst c0. exfalso. apply Hc0.
        apply (list_elem_of_fmap_2 fst _ _ Hin).
      * apply IH; assumption.
Qed.

(** ** Facts about the loops *)

Lemma is_ok_for_append {A B} (body : A -> result B) (xs : list A) :
  is_ok (for_append body xs) = forallb (fun x => is_ok (body x)) xs.
Proof.
  induction xs as [|x xs IH]; simpl; [reflexivity|].
  destruct (body x); simpl; [|reflexivity].
  rewrite <- IH. destruct (for_append body xs); reflexivity.
Qed.


Lemma for_append_map {A B} (body : A -> result B) (f : A -> B) (xs : list A) :
  Forall (fun x => body x = Ok (f x)) xs ->
  for_append body xs = Ok (map f xs).
Proof.
  induction 1 as [|x xs Hx _ IH]; simpl; [reflexivity|].
  rewrite Hx, IH. reflexivity.
Qed.


(** ** Facts about data frames *)

Lemma existsb_eqb_elem_of (k : string) (cols : list string) :
  existsb (String.eqb k) cols = true <-> k ∈ cols.
Proof.
  rewrite existsb_exists. split.
  - intros (x & Hx & E). apply String.eqb_eq in E; subst x.
    apply list_elem_of_In. exact Hx.
  - intros H. exists k. split; [apply list_elem_of_In, H|apply String.eqb_refl].
Qed.

Lemma add_column_old (cols : list string) (k c : string) :
  c ∈ cols -> c ∈ add_column cols k.
Proof.
  unfold add_column. destruct (existsb _ _); [auto|].
  intros H. apply elem_of_app. left. exact H.
Qed.

Lemma add_column_new (cols : list string) (k : string) : k ∈ add_column cols k.
Proof.
  unfold add_column. destruct (existsb _ _) eqn:E.
  - apply existsb_eqb_elem_of, E.
  - apply elem_of_app. right. left.
Qed.

Lemma add_columns_old (ks cols : list string) (c : string) :
  c ∈ cols -> c ∈ fold_left add_column ks cols.
Proof.
  revert cols. induction ks as [|k ks IH]; intros cols H; simpl; [exact H|].
  apply IH, add_column_old, H.
Qed.

Lemma add_columns_new (ks cols : list string) (c : string) :
  c ∈ ks -> c ∈ fold_left add_column ks cols.
Proof.
  revert cols. induction ks as [|k ks IH]; intros cols H; simpl.
  - inversion H.
  - apply elem_of_cons in H as [->|H].
    + apply add_columns_old, add_column_new.
    + apply IH, H.
Qed.

Lemma add_columns_known (ks cols : list string) :
  Forall (fun k => k ∈ cols) ks -> fold_left add_column ks cols = cols.
Proof.
  induction 1 as [|k ks Hk _ IH]; simpl; [reflexivity|].
  unfold add_column at 2.
  apply existsb_eqb_elem_of in Hk. rewrite Hk. exact IH.
Qed.

Lemma add_columns_fresh (ks cols : list string) :
  NoDup (cols ++ ks) -> fold_left add_column ks cols = cols ++ ks.
Proof.
  revert cols. induction ks as [|k ks IH]; intros cols Hnd; simpl.
  - symmetry. apply app_nil_r.
  - assert (Hk : existsb (String.eqb k) cols = false).
    { destruct (existsb _ _) eqn:E; [|reflexivity].
      apply existsb_eqb_elem_of in E.
      apply NoDup_app in Hnd as (_ & Hdis & _).
      exfalso. apply (Hdis k E). left. }
    unfold add_column at 2. rewrite Hk.
    rewrite IH; rewrite <- app_assoc; [reflexivity|exact Hnd].
Qed.

Lemma frame_columns_old (rows : list dict) (cols : list string) (c : string) :
  c ∈ cols -> c ∈ frame_columns rows cols.
Proof.
  revert cols. induction rows as [|row rows IH]; intros cols H; simpl; [exact H|].
  apply IH, add_columns_old, H.
Qed.

Lemma frame_columns_key (rows : list dict) (cols : list string) (row : dict)
    (c : string) :
  row ∈ rows -> c ∈ map fst row -> c ∈ frame_columns rows cols.
Proof.
  revert cols. induction rows as [|row0 rows IH]; intros cols Hrow Hc; simpl.
  - inversion Hrow.
  - apply elem_of_cons in Hrow as [<-|Hrow].
    + apply frame_columns_old, add_columns_new, Hc.
    + apply IH; assumption.
Qed.

Lemma frame_columns_uniform (rows : list dict) (K : list string) :
  Forall (fun row => map fst row = K) rows ->
  frame_columns rows K = K.
Proof.
  induction 1 as [|row rows Hrow _ IH]; simpl; [reflexivity|].
  rewrite Hrow, add_columns_known; [exact IH|].
  apply Forall_forall. auto.
Qed.

Lemma columns_uniform (row : dict) (rows : list dict) (K : list string) :
  NoDup K -> Forall (fun row => map fst row = K) (row :: rows) ->
  columns (pd_DataFrame (row :: rows)) = K.
Proof.
  intros Hnd Hall. apply Forall_cons in Hall as [Hrow Hall].
  unfold pd_DataFrame, frame_columns. simpl. rewrite Hrow.
  rewrite (add_columns_fresh K []) by exact Hnd. simpl.
  apply (frame_columns_uniform rows K Hall).
Qed.

Lemma df_len_pd (rows : list dict) : df_len (pd_DataFrame rows) = length rows.
Proof. unfold df_len, pd_DataFrame. simpl. apply length_map. Qed.

Lemma column_index_elem_of (cols : list string) (c : string) :
  c ∈ cols -> exists j, column_index cols c = Some j /\ cols !! j = Some c.
Proof.
  induction cols as [|k cols IH]; intros H; simpl.
  - inversion H.
  - destruct (String.eqb k c) eqn:E.
    + apply String.eqb_eq in E; subst k. exists 0%nat. split; reflexivity.
    + apply elem_of_cons in H as [->|H].
      * rewrite String.eqb_refl in E. discriminate.
      * destruct (IH H) as (j & Hj & Hlk). exists (S j).
        rewrite Hj. split; [reflexivity|exact Hlk].
Qed.

(** A key a row dict binds is read back from the frame at that row, as its
    column stores it. *)
Lemma cell_pd (rows : list dict) (i : nat) (d : dict) (c : string) (v : json) :
  rows !! i = Some d -> dict_lookup d c = Some v ->
  cell (pd_DataFrame rows) i c
  = convert (dtype_of (column_kinds rows c)) (Some v).
Proof.
  intros Hi Hc. unfold cell, pd_DataFrame. simpl.
  rewrite list_lookup_fmap, Hi. simpl.
  assert (Hin : c ∈ frame_columns rows []).
  { apply (frame_columns_key rows [] d).
    - apply list_elem_of_lookup. eauto.
    - eapply dict_lookup_Some_key, Hc. }
  destruct (column_index_elem_of _ _ Hin) as (j & Hj & Hlk).
  rewrite Hj. simpl. rewrite list_lookup_fmap, Hlk. simpl. rewrite Hc.
  destruct (convert _ _); reflexivity.
Qed.

(** The same for rows made one by one from a list, each binding [c]. *)
Lemma cell_pd_held {A} (xs : list A) (row_of : A -> dict) (val_of : A -> json)
    (c : string) (i : nat) (x : A) :
  Forall (fun x => dict_lookup (row_of x) c = Some (val_of x)) xs ->
  xs !! i = Some x ->
  cell (pd_DataFrame (map row_of xs)) i c = held (map val_of xs) (val_of x).
Proof.
  intros Hall Hi.
  rewrite (cell_pd _ i (row_of x) c (val_of x)).
  - unfold held, column_kinds. rewrite !map_map. f_equal. f_equal.
    apply map_ext_Forall. eapply Forall_impl; [exact Hall|].
    intros y Hy. simpl in *. rewrite Hy. reflexivity.
  - rewrite list_lookup_fmap, Hi. reflexivity.
  - rewrite Forall_forall in Hall. apply Hall.
    apply list_elem_of_lookup. eauto.
Qed.

(** ** Facts about the inference of the column storage *)






Lemma held_str (col : list json) (v : json) :
  is_str v = true -> held col v = Some v.
Proof. destruct v; try discriminate; reflexivity. Qed.


(** A cell is missing exactly for a missing value. *)
Lemma held_None (col : list json) (v : json) :
  held col v = None <-> isna v = true.
Proof.
  unfold held, convert. destruct v; cbn [classify json_scalar isna];
    try (split; discriminate); try tauto.
  - destruct (dtype_of _); split; discriminate.
  - destruct (float64_nan bits); split; congruence.
Qed.

Lemma df_empty_pd (rows : list dict) :
  Forall (fun row => row <> []) rows ->
  df_empty (pd_DataFrame rows) = match rows with [] => true | _ => false end.
Proof.
  intros Hall. destruct rows as [|row rows]; [reflexivity|].
  unfold df_empty. simpl.
  change (frame_columns (row :: rows) [])
    with (frame_columns rows (fold_left add_column (map fst row) [])).
  apply Forall_cons in Hall as [Hrow _].
  destruct row as [|[k v] row]; [congruence|].
  assert (Hk : k ∈ frame_columns rows (fold_left add_column (map fst ((k, v) :: row)) [])).
  { apply frame_columns_old, add_columns_new. left. }
  destruct (frame_columns _ _); [inversion Hk|reflexivity].
Qed.

(** ** Facts about the main-metrics builder *)

Lemma main_fields_NoDup : NoDup (map fst main_fields).
Proof. apply (bool_decide_unpack _). vm_compute. reflexivity. Qed.

Lemma main_row_obj (kvs : dict) :
  main_row (JObj kvs) = Ok (project main_fields kvs).
Proof. reflexivity. Qed.

Lemma main_row_not_obj (record : json) :
  is_object record = false -> main_row record = Raise AttributeError.
Proof. destruct record; simpl; intros H; try discriminate; reflexivity. Qed.

Lemma is_ok_main_row (record : json) : is_ok (main_row record) = is_object record.
Proof. destruct record; reflexivity. Qed.

Lemma is_ok_bind_Ok {A B} (m : result A) (f : A -> B) :
  is_ok (m ≫= fun a => Ok (f a)) = is_ok m.
Proof. destruct m; reflexivity. Qed.

Lemma is_ok_create_main_metrics_sheet (data : list json) :
  is_ok (create_main_metrics_sheet data) = forallb is_object data.
Proof.
  unfold create_main_metrics_sheet.
  rewrite (is_ok_bind_Ok _ pd_DataFrame), is_ok_for_append.
  induction data as [|record data IH]; simpl; [reflexivity|].
  rewrite is_ok_main_row, IH. reflexivity.
Qed.

Lemma forallb_lookup {A} (p : A -> bool) (xs : list A) (i : nat) (x : A) :
  forallb p xs = true -> xs !! i = Some x -> p x = true.
Proof.
  intros Hall Hi. rewrite forallb_forall in Hall.
  apply Hall, list_elem_of_In, list_elem_of_lookup. eauto.
Qed.

Lemma map_fst_project (fields : list (string * (string * json))) (kvs : dict) :
  map fst (project fields kvs) = map fst fields.
Proof. unfold project. rewrite map_map. reflexivity. Qed.

Lemma create_main_metrics_sheet_objects (data : list json) :
  forallb is_object data = true ->
  create_main_metrics_sheet data =
    Ok (pd_DataFrame (map (fun record =>
          project main_fields (match record with JObj kvs => kvs | _ => [] end))
        data)).
Proof.
  intros Hall. unfold create_main_metrics_sheet.
  rewrite (for_append_map _
    (fun record => project main_fields (match record with JObj kvs => kvs | _ => [] end))).
  - reflexivity.
  - apply Forall_forall. intros record Hin.
    rewrite forallb_forall in Hall.
    specialize (Hall record (proj1 (list_elem_of_In _ _) Hin)).
    destruct record; try discriminate. apply main_row_obj.
Qed.

Lemma main_frame_cell (data : list json) (i : nat) (record : json)
    (c key : string) (default : json) :
  forallb is_object data = true ->
  data !! i = Some record -> (c, (key, default)) ∈ main_fields ->
  cell (pd_DataFrame (map (fun record =>
          project main_fields (match record with JObj kvs => kvs | _ => [] end))
        data)) i c
  = held (column key default data) (field_or record key default).
Proof.
  intros Hall Hi Hin.
  apply (cell_pd_held data
           (fun record =>
              project main_fields (match record with JObj kvs => kvs | _ => [] end))
           (fun record => field_or record key default) c i record); [|exact Hi].
  apply Forall_forall. intros r Hr.
  rewrite forallb_forall in Hall.
  specialize (Hall r (proj1 (list_elem_of_In _ _) Hr)).
  destruct r as [| | | | | |kvs]; try discriminate.
  apply (dict_lookup_map_fields
           (fun kd => dict_get kvs (fst kd) (snd kd)) main_fields c (key, default));
    [apply main_fields_NoDup|exact Hin].
Qed.

Lemma main_frame_columns (data : list json) :
  data <> [] ->
  columns (pd_DataFrame (map (fun record =>
             project main_fields (match record with JObj kvs => kvs | _ => [] end))
           data)) = map fst main_fields.
Proof.
  intros Hne. destruct data as [|record data]; [congruence|].
  apply columns_uniform; [apply main_fields_NoDup|].
  apply Forall_forall. intros row Hrow.
  change (row ∈ map (fun record =>
            project main_fields (match record with JObj kvs => kvs | _ => [] end))
          (record :: data)) in Hrow.
  apply list_elem_of_fmap in Hrow as (r & -> & _). apply map_fst_project.
Qed.



(** ** Facts about the breakdown builders *)

Lemma map_fst_dict_set (d : dict) (k : string) (v : json) :
  map fst (dict_set d k v) = add_column (map fst d) k.
Proof.
  unfold add_column. induction d as [|[k0 w] d IH]; simpl; [reflexivity|].
  rewrite (String.eqb_sym k k0).
  destruct (String.eqb k0 k); simpl; [reflexivity|].
  rewrite IH. destruct (existsb _ _); reflexivity.
Qed.

Lemma map_fst_dict_literal_from (items : list (string * result json))
    (acc d : dict) :
  dict_literal_from acc items = Ok d ->
  map fst d = fold_left add_column (map fst items) (map fst acc).
Proof.
  revert acc. induction items as [|[k e] items IH]; intros acc H; simpl in *.
  - inversion H. reflexivity.
  - destruct e as [v|]; simpl in H; [|discriminate].
    rewrite (IH _ H), map_fst_dict_set. reflexivity.
Qed.

Lemma map_fst_dict_literal (items : list (string * result json)) (d : dict) :
  dict_literal items = Ok d ->
  map fst d = fold_left add_column (map fst items) [].
Proof. apply map_fst_dict_literal_from. Qed.

Lemma user_info_of_obj (kvs : dict) :
  user_info_of (JObj kvs) = Ok (project carry_fields kvs).
Proof. reflexivity. Qed.

Lemma is_ok_user_info_of (record : json) :
  is_ok (user_info_of record) = is_object record.
Proof. destruct record; reflexivity. Qed.


Lemma length_entries (field : string) (data : list json) :
  length (entries field data)
  = sum_list_with (fun record => length (nested_list field record)) data.
Proof.
  unfold entries. induction data as [|record data IH]; simpl; [reflexivity|].
  rewrite length_app, length_map, IH. reflexivity.
Qed.


Lemma breakdown_row_carry (display : json -> list (string * result json)) (K : list string)
    (record e : json) (c key : string) (default : json) :
  (forall e upd, dict_literal (display e) = Ok upd -> map fst upd = K) ->
  c ∉ K -> (c, (key, default)) ∈ carry_fields ->
  is_object record = true ->
  dict_lookup (breakdown_row display (record, e)) c
  = Some (field_or record key default).
Proof.
  intros Hkeys Hc Hin Hobj. destruct record as [| | | | | |kvs]; try discriminate.
  unfold breakdown_row. simpl.
  rewrite dict_lookup_update_other.
  - apply (dict_lookup_map_fields
             (fun kd => dict_get kvs (fst kd) (snd kd)) carry_fields c (key, default)).
    + apply (bool_decide_unpack _). vm_compute. reflexivity.
    + exact Hin.
  - destruct (dict_literal (display e)) as [upd|] eqn:E; simpl.
    + rewrite (Hkeys _ _ E). exact Hc.
    + intros H. inversion H.
Qed.

(** Only a dict has entries. *)
Lemma entries_objects (field : string) (data : list json) :
  Forall (fun re => is_object (fst re) = true) (entries field data).
Proof.
  apply Forall_forall. intros [record e] Hin. unfold entries in Hin.
  apply list_elem_of_In, in_flat_map in Hin as (r & _ & Hre).
  apply in_map_iff in Hre as (e' & Heq & He'). inversion Heq; subst.
  destruct record; simpl in He'; try contradiction. reflexivity.
Qed.

(** A carry-over cell of a frame of breakdown rows. *)
Lemma breakdown_frame_carry (display : json -> list (string * result json))
    (K : list string) (es : list (json * json)) (i : nat) (record e : json)
    (c key : string) (default : json) :
  (forall e upd, dict_literal (display e) = Ok upd -> map fst upd = K) ->
  c ∉ K -> (c, (key, default)) ∈ carry_fields ->
  Forall (fun re => is_object (fst re) = true) es ->
  es !! i = Some (record, e) ->
  cell (pd_DataFrame (map (breakdown_row display) es)) i c
  = held (carried key default es) (field_or record key default).
Proof.
  intros Hkeys Hc Hin Hobj Hi.
  apply (cell_pd_held es (breakdown_row display)
           (fun re => field_or (fst re) key default) c i (record, e)); [|exact Hi].
  eapply Forall_impl; [exact Hobj|]. intros [r e'] Hr.
  apply (breakdown_row_carry display K); assumption.
Qed.

(** What a frame of the rows of all entries gives a builder. *)
Lemma rows_flatten (field : string) (display : json -> list (string * result json))
    (K : list string) (data : list json) :
  (forall e upd, dict_literal (display e) = Ok upd -> map fst upd = K) ->
  "User Login" ∉ K -> "Day" ∉ K ->
  breakdown_rows field display data
  = Ok (map (breakdown_row display) (entries field data)) ->
  flattens (fun data => rows ← breakdown_rows field display data;
                        Ok (pd_DataFrame rows)) field data.
Proof.
  intros Hkeys Hlogin Hday Hrows. unfold flattens. rewrite Hrows.
  eexists. split; [reflexivity|]. split; [|split].
  - rewrite df_len_pd, length_map. apply length_entries.
  - rewrite df_len_pd. apply length_map.
  - intros i record e Hi.
    set (login := field_or record "user_login" (JStr "")).
    set (day := field_or record "day" (JStr "")).
    assert (Hl : cell (pd_DataFrame (map (breakdown_row display) (entries field data)))
                   i "User Login"
                 = held (carried "user_login" (JStr "") (entries field data)) login).
    { apply (breakdown_frame_carry display K _ i record e); try assumption.
      - left.
      - apply entries_objects. }
    assert (Hd : cell (pd_DataFrame (map (breakdown_row display) (entries field data)))
                   i "Day"
                 = held (carried "day" (JStr "") (entries field data)) day).
    { apply (breakdown_frame_carry display K _ i record e); try assumption.
      - right. left.
      - apply entries_objects. }
    split; [exact Hl|]. split; [exact Hd|]. split.
    + intros Hs. rewrite Hl. apply held_str, Hs.
    + intros Hs. rewrite Hd. apply held_str, Hs.
Qed.


Lemma ide_display_columns (e : json) (upd : dict) :
  dict_literal (ide_display e) = Ok upd -> map fst upd = ide_columns.
Proof. intros H. apply map_fst_dict_literal in H. exact H. Qed.

Lemma feature_display_columns (e : json) (upd : dict) :
  dict_literal (feature_display e) = Ok upd -> map fst upd = feature_columns.
Proof. intros H. apply map_fst_dict_literal in H. exact H. Qed.

Lemma lang_feature_display_columns (e : json) (upd : dict) :
  dict_literal (lang_feature_display e) = Ok upd -> map fst upd = lang_feature_columns.
Proof. intros H. apply map_fst_dict_literal in H. exact H. Qed.

Lemma lang_model_display_columns (e : json) (upd : dict) :
  dict_literal (lang_model_display e) = Ok upd -> map fst upd = lang_model_columns.
Proof. intros H. apply map_fst_dict_literal in H. exact H. Qed.

Lemma model_feature_display_columns (e : json) (upd : dict) :
  dict_literal (model_feature_display e) = Ok upd -> map fst upd = model_feature_columns.
Proof. intros H. apply map_fst_dict_literal in H. exact H. Qed.

Lemma is_ok_feature_display (e : json) :
  is_ok (dict_literal (feature_display e)) = is_object e.
Proof. destruct e; reflexivity. Qed.

Lemma is_ok_lang_feature_display (e : json) :
  is_ok (dict_literal (lang_feature_display e)) = is_object e.
Proof. destruct e; reflexivity. Qed.

Lemma is_ok_lang_model_display (e : json) :
  is_ok (dict_literal (lang_model_display e)) = is_object e.
Proof. destruct e; reflexivity. Qed.

Lemma is_ok_model_feature_display (e : json) :
  is_ok (dict_literal (model_feature_display e)) = is_object e.
Proof. destruct e; reflexivity. Qed.


(** Closed facts about lists of column names, by evaluation. *)
Ltac all_different := apply (bool_decide_unpack _); vm_compute; reflexivity.






Lemma entries_lookup (field : string) (data : list json) (i : nat)
    (record e : json) :
  entries field data !! i = Some (record, e) ->
  record ∈ data /\ e ∈ nested_list field record.
Proof.
  intros Hi. apply list_elem_of_lookup_2 in Hi. unfold entries in Hi.
  apply list_elem_of_In, in_flat_map in Hi as (r & Hr & Hre).
  apply in_map_iff in Hre as (e' & Heq & He'). inversion Heq; subst.
  split; apply list_elem_of_In; assumption.
Qed.







(** C7.  The example input gives a main frame of one row whose LOC Added is 0
    and an IDE frame of one row with IDE vscode, LOC Added 5, User Login
    alice and Day 2024-01-01. *)
Theorem example_alice_vscode :
  exists main ide,
    create_main_metrics_sheet example_data = Ok main
    /\ df_len main = 1%nat
    /\ cell main 0 "LOC Added" = Some (JInt 0)
    /\ create_ide_totals_sheet example_data = Ok ide
    /\ df_len ide = 1%nat
    /\ cell ide 0 "IDE" = Some (JStr "vscode")
    /\ cell ide 0 "LOC Added" = Some (JInt 5)
    /\ cell ide 0 "User Login" = Some (JStr "alice")
    /\ cell ide 0 "Day" = Some (JStr "2024-01-01").
Proof. do 2 eexists. repeat split; reflexivity. Qed.

(** The example input is what the reference decoder reads from its text. *)
Example example_text_decodes : Decoder.loads example_text = Ok (JArr example_data).
Proof. reflexivity. Qed.

(** ** The cells and the headers of the breakdown sheets *)

Lemma map_fst_dict_update (d other : dict) :
  map fst (dict_update d other) = fold_left add_column (map fst other) (map fst d).
Proof.
  unfold dict_update. revert d.
  induction other as [|[k v] other IH]; intros d; simpl; [reflexivity|].
  rewrite IH, map_fst_dict_set. reflexivity.
Qed.

Lemma dict_lookup_Some_in (d : dict) (k : string) (v : json) :
  dict_lookup d k = Some v -> (k, v) ∈ d.
Proof.
  induction d as [|[k0 w] d IH]; simpl; [discriminate|].
  destruct (String.eqb k0 k) eqn:E.
  - apply String.eqb_eq in E. intros H. inversion H; subst. left.
  - intros H. right. apply IH, H.
Qed.







(** ** Facts about text *)

Lemma lstrip_all_space (s : string) : all_space s = true -> lstrip s = EmptyString.
Proof.
  induction s as [|c s IH]; simpl; [reflexivity|].
  intros H. apply andb_true_iff in H as [Hc Hs]. rewrite Hc. apply IH, Hs.
Qed.

Lemma strip_all_space (s : string) : all_space s = true -> strip s = EmptyString.
Proof. intros H. unfold strip. rewrite lstrip_all_space by exact H. reflexivity. Qed.

Lemma rstrip_empty (s : string) : rstrip s = EmptyString -> all_space s = true.
Proof.
  induction s as [|c s IH]; simpl; [reflexivity|].
  destruct (rstrip s) eqn:E; [|discriminate].
  destruct (isspace c); [|discriminate]. intros _. apply IH. reflexivity.
Qed.

Lemma all_space_lstrip (s : string) : all_space (lstrip s) = all_space s.
Proof.
  induction s as [|c s IH]; simpl; [reflexivity|].
  destruct (isspace c) eqn:E; simpl; [exact IH|]. rewrite E. reflexivity.
Qed.

(** A stripped string is empty exactly when the string is blank. *)
Lemma str_truthy_strip (s : string) : str_truthy (strip s) = negb (all_space s).
Proof.
  unfold strip. rewrite <- (all_space_lstrip s).
  destruct (rstrip (lstrip s)) eqn:E; simpl.
  - rewrite (rstrip_empty _ E). reflexivity.
  - destruct (all_space (lstrip s)) eqn:Hs; [|reflexivity].
    pose proof (lstrip_all_space _ Hs) as Hl.
    rewrite all_space_lstrip in Hs.
    assert (Hr : rstrip (lstrip s) = EmptyString).
    { clear E Hl. rewrite <- all_space_lstrip in Hs.
      induction (lstrip s) as [|c t IH]; simpl; [reflexivity|].
      simpl in Hs. apply andb_true_iff in Hs as [Hc Ht].
      rewrite (IH Ht), Hc. reflexivity. }
    rewrite Hr in E. discriminate.
Qed.

Lemma rstrip_idempotent (s : string) : rstrip (rstrip s) = rstrip s.
Proof.
  induction s as [|c s IH]; simpl; [reflexivity|].
  destruct (rstrip s) as [|d r] eqn:E.
  - destruct (isspace c) eqn:Hc; simpl; [reflexivity|]. rewrite Hc. reflexivity.
  - change (rstrip (String c (String d r)))
      with (match rstrip (String d r) with
            | EmptyString => if isspace c then EmptyString else String c EmptyString
            | r' => String c r'
            end).
    rewrite IH. reflexivity.
Qed.

Lemma lstrip_rstrip (s : string) :
  lstrip s = s -> lstrip (rstrip s) = rstrip s.
Proof.
  destruct s as [|c s]; [reflexivity|]. simpl.
  destruct (isspace c) eqn:Hc.
  - intros H. exfalso.
    assert (Hlen : (String.length (lstrip s) <= String.length s)%nat).
    { clear. induction s as [|d s IH]; simpl; [lia|].
      destruct (isspace d); simpl; lia. }
    rewrite H in Hlen. simpl in Hlen. lia.
  - intros _. destruct (rstrip s); simpl; rewrite Hc; reflexivity.
Qed.

Lemma lstrip_idempotent (s : string) : lstrip (lstrip s) = lstrip s.
Proof.
  induction s as [|c s IH]; simpl; [reflexivity|].
  destruct (isspace c) eqn:Hc; [exact IH|]. simpl. rewrite Hc. reflexivity.
Qed.

Lemma strip_idempotent (s : string) : strip (strip s) = strip s.
Proof.
  unfold strip. rewrite lstrip_rstrip by apply lstrip_idempotent.
  apply rstrip_idempotent.
Qed.

(** A decoder that strips its text first reads the stripped text alike. *)
Lemma accepts_stripped_after_strip (decode : string -> result json) :
  accepts_stripped (fun s => decode (strip s)).
Proof. intros s v H. rewrite strip_idempotent. exact H. Qed.

(** ** Facts about the loader *)

Section LoaderFacts.

Variable read_text : string -> read_result.
Variable json_loads : string -> result json.
Variable default_output_path : string -> string.
Variable excel_saves : string -> workbook -> bool.

(** The JSONL loop on lines that make the decoder raise nothing but
    [JSONDecodeError]. *)
Lemma load_lines_decoded (lines : list string) :
  rejects_only json_loads lines ->
  load_lines json_loads lines = Ok (decoded_lines json_loads lines).
Proof.
  unfold decoded_lines.
  induction 1 as [|line lines Hline _ IH]; simpl; [reflexivity|].
  rewrite str_truthy_strip.
  destruct (all_space line); simpl; [exact IH|].
  destruct (json_loads line) as [v|e] eqn:Hv; simpl.
  - rewrite IH. reflexivity.
  - rewrite (Hline eq_refl e eq_refl). exact IH.
Qed.

(** The JSONL loop is left by the first exception that is no
    [JSONDecodeError]. *)
Lemma load_lines_raises (lines : list string) (i : nat) (line : string) (e : exn) :
  lines !! i = Some line -> all_space line = false ->
  json_loads line = Raise e -> e <> JSONDecodeError ->
  exists e', load_lines json_loads lines = Raise e'.
Proof.
  revert i. induction lines as [|line0 lines IH]; intros i Hi Hblank He Hne;
    [discriminate|].
  simpl. rewrite str_truthy_strip.
  destruct i as [|i].
  - injection Hi as ->. rewrite Hblank, He. simpl.
    destruct e; first [congruence|eexists; reflexivity].
  - simpl in Hi. destruct (IH i Hi Hblank He Hne) as [e' He'].
    destruct (all_space line0); simpl; [eexists; exact He'|].
    destruct (json_loads line0) as [v|e0]; simpl.
    + rewrite He'. eexists. reflexivity.
    + destruct e0; first [eexists; exact He'|eexists; reflexivity].
Qed.

(** Lines of which none decodes give no record. *)
Lemma load_lines_no_value (lines : list string) :
  Forall (fun line => all_space line = false -> is_ok (json_loads line) = false)
    lines ->
  load_lines json_loads lines = Ok []
  \/ exists e, load_lines json_loads lines = Raise e.
Proof.
  induction 1 as [|line lines Hline _ IH]; simpl; [left; reflexivity|].
  rewrite str_truthy_strip.
  destruct (all_space line); simpl; [exact IH|].
  specialize (Hline eq_refl).
  destruct (json_loads line) as [v|e]; [discriminate|].
  destruct e; first [exact IH|right; eexists; reflexivity].
Qed.

(** [rejects_only], decided line by line. *)
Lemma rejects_only_decide (lines : list string) :
  forallb (fun line =>
             all_space line
             || match json_loads line with
                | Raise JSONDecodeError | Ok _ => true
                | Raise _ => false
                end) lines = true ->
  rejects_only json_loads lines.
Proof.
  intros H. apply Forall_forall. intros line Hin Hblank e He.
  rewrite forallb_forall in H.
  specialize (H line (proj1 (list_elem_of_In _ _) Hin)).
  rewrite Hblank, He in H. destruct e; first [reflexivity|discriminate].
Qed.

Lemma decoded_lines_app (l1 l2 : list string) :
  decoded_lines json_loads (l1 ++ l2)
  = decoded_lines json_loads l1 ++ decoded_lines json_loads l2.
Proof. apply omap_app. Qed.

(** An exception of the inner block gives no record. *)
Lemma load_content_raises (path raw : string) (e : exn) :
  read_text path = Content raw ->
  load_content json_loads (strip raw) = Raise e ->
  load_json_data read_text json_loads path = [].
Proof.
  intros Hread Hraise. unfold load_json_data, load_json_try.
  rewrite Hread, Hraise. reflexivity.
Qed.

Lemma load_content_returns (path raw : string) (data : list json) :
  read_text path = Content raw ->
  load_content json_loads (strip raw) = Ok data ->
  load_json_data read_text json_loads path = data.
Proof.
  intros Hread Hdata. unfold load_json_data, load_json_try.
  rewrite Hread, Hdata. reflexivity.
Qed.

Lemma convert_no_data (path : string) (out : option string) :
  load_json_data read_text json_loads path = [] ->
  convert_json_to_xlsx read_text json_loads default_output_path excel_saves path out
  = Aborted.
Proof. intros H. unfold convert_json_to_xlsx. rewrite H. reflexivity. Qed.

End LoaderFacts.

Lemma loader_wraps_non_array (read_text : string -> read_result)
    (json_loads : string -> result json) (path raw : string) (v : json) :
  read_text path = Content raw ->
  json_loads (strip raw) = Ok v ->
  (forall xs, v <> JArr xs) ->
  load_json_data read_text json_loads path = [v].
Proof.
  intros Hread Hdoc Hne.
  apply (load_content_returns _ _ _ raw); [exact Hread|].
  unfold load_content. rewrite Hdoc.
  destruct v; try reflexivity. exfalso. eapply Hne. reflexivity.
Qed.

(** C3.  The loader decodes the file's text stripped of surrounding
    whitespace.  When that text is one JSON document, the loader returns the
    array itself, elements in order, if the document is an array, and the
    one-element list of the document if it is anything else, a single object
    in particular.  The same holds of a file whose text as it stands is one
    JSON document, for a decoder that reads the stripped text alike. *)
Theorem loader_single_document (read_text : string -> read_result)
    (json_loads : string -> result json) (path raw : string) (v : json) :
  read_text path = Content raw ->
  json_loads (strip raw) = Ok v
  \/ (accepts_stripped json_loads /\ json_loads raw = Ok v) ->
  (forall xs, v = JArr xs -> load_json_data read_text json_loads path = xs)
  /\ (forall kvs, v = JObj kvs ->
        load_json_data read_text json_loads path = [JObj kvs])
  /\ ((forall xs, v <> JArr xs) -> load_json_data read_text json_loads path = [v]).
Proof.
  intros Hread Hdoc.
  assert (Hstrip : json_loads (strip raw) = Ok v).
  { destruct Hdoc as [H|[Hacc H]]; [exact H|apply Hacc, H]. }
  unfold load_json_data, load_json_try, load_content. rewrite Hread, Hstrip.
  repeat split.
  - intros xs ->. reflexivity.
  - intros kvs ->. reflexivity.
  - intros Hne. destruct v; try reflexivity. exfalso. eapply Hne. reflexivity.
Qed.

(** C4.  When the decoder rejects the stripped text as one JSON document, and
    raises nothing but [JSONDecodeError] on its lines, the loader returns the
    values of exactly the lines that are not blank and that decode, in line
    order.  A line that does not decode is absent: the result is the one for
    the lines before it followed by the one for the lines after it; and the
    value of every line that decodes is in the result.  When the decoder
    raises another exception on a line that is not blank, the loader
    returns the empty list, whatever the other lines hold. *)
Theorem loader_jsonl (read_text : string -> read_result)
    (json_loads : string -> result json) (path raw : string) :
  read_text path = Content raw ->
  json_loads (strip raw) = Raise JSONDecodeError ->
  let lines := split_lines (strip raw) in
  let data := load_json_data read_text json_loads path in
  (rejects_only json_loads lines ->
     data = decoded_lines json_loads lines
     /\ (forall before bad after,
           lines = before ++ bad :: after -> is_ok (json_loads bad) = false ->
           data = decoded_lines json_loads before
                  ++ decoded_lines json_loads after)
     /\ (forall i line v,
           lines !! i = Some line -> all_space line = false ->
           json_loads line = Ok v -> v ∈ data))
  /\ (forall i line e,
        lines !! i = Some line -> all_space line = false ->
        json_loads line = Raise e -> e <> JSONDecodeError ->
        data = []).
Proof.
  intros Hread Hdoc lines data. split.
  - intros Hlines.
    assert (Hdata : data = decoded_lines json_loads lines).
    { apply (load_content_returns _ _ _ raw); [exact Hread|].
      unfold load_content. rewrite Hdoc. apply load_lines_decoded, Hlines. }
    split; [exact Hdata|]. split.
    + intros before bad after Hsplit Hbad.
      rewrite Hdata, Hsplit, decoded_lines_app.
      change (bad :: after) with ([bad] ++ after).
      rewrite decoded_lines_app. unfold decoded_lines at 2. simpl.
      destruct (json_loads bad); [discriminate|].
      destruct (all_space bad); reflexivity.
    + intros i line v Hi Hblank Hv. rewrite Hdata. unfold decoded_lines.
      apply list_elem_of_omap. exists line. split.
      * apply list_elem_of_lookup. eauto.
      * rewrite Hblank, Hv. reflexivity.
  - intros i line e Hi Hblank He Hne.
    destruct (load_lines_raises json_loads lines i line e Hi Hblank He Hne)
      as [e' He'].
    apply (load_content_raises _ _ _ raw e'); [exact Hread|].
    unfold load_content. rewrite Hdoc. exact He'.
Qed.

(** The value of a line that decodes is not in the result when a later line
    is an integer of 4301 digits: the decoder raises [ValueError] there,
    and the loader returns the empty list. *)
Lemma long_integer_line_drops_the_rest :
  exists raw line,
    example_stray_files "long.jsonl" = Content raw
    /\ Decoder.loads (strip raw) = Raise JSONDecodeError
    /\ split_lines (strip raw) !! 0%nat = Some line
    /\ all_space line = false
    /\ Decoder.loads line = Ok (JObj [("user_login", JStr "alice")])
    /\ split_lines (strip raw) !! 1%nat = Some example_long_integer
    /\ Decoder.loads example_long_integer = Raise ValueError
    /\ load_json_data example_stray_files Decoder.loads "long.jsonl" = [].
Proof.
  eexists _, _. split; [reflexivity|].
  repeat split; vm_compute; reflexivity.
Qed.

(** C5.  The loader returns the empty list, and the conversion stops before
    any sheet is built and writes no file, when the file is missing, when
    reading it fails, when neither the stripped text nor any of its lines
    decodes, and in particular when the file is empty or blank (the decoder
    rejecting the empty text).  No exception leaves the loader: each one the
    [try] block raises is turned into the empty list. *)
Theorem loader_failures_abort (read_text : string -> read_result)
    (json_loads : string -> result json)
    (default_output_path : string -> string)
    (excel_saves : string -> workbook -> bool)
    (path : string) (out : option string) :
  let data := load_json_data read_text json_loads path in
  let run := convert_json_to_xlsx read_text json_loads default_output_path
               excel_saves path out in
  (read_text path = FileNotFound -> data = [] /\ run = Aborted)
  /\ (read_text path = ReadError -> data = [] /\ run = Aborted)
  /\ (forall raw,
        read_text path = Content raw ->
        is_ok (json_loads (strip raw)) = false ->
        Forall (fun line => all_space line = false ->
                  is_ok (json_loads line) = false)
          (split_lines (strip raw)) ->
        data = [] /\ run = Aborted)
  /\ (forall raw,
        read_text path = Content raw ->
        all_space raw = true ->
        is_ok (json_loads EmptyString) = false ->
        data = [] /\ run = Aborted)
  /\ (forall e, load_json_try read_text json_loads path = inl e -> data = []).
Proof.
  intros data run.
  assert (Hrun : data = [] -> data = [] /\ run = Aborted).
  { intros H. split; [exact H|]. apply convert_no_data, H. }
  assert (Hnone : forall raw,
            read_text path = Content raw ->
            is_ok (json_loads (strip raw)) = false ->
            Forall (fun line => all_space line = false ->
                      is_ok (json_loads line) = false)
              (split_lines (strip raw)) ->
            data = []).
  { intros raw Hread Hdoc Hlines.
    unfold data, load_json_data, load_json_try, load_content. rewrite Hread.
    destruct (json_loads (strip raw)) as [v|e]; [discriminate|].
    destruct (load_lines_no_value json_loads _ Hlines) as [H|[e' H]];
      destruct e; rewrite ?H; reflexivity. }
  split; [|split; [|split; [|split]]].
  - intros Hread. apply Hrun.
    unfold data, load_json_data, load_json_try. rewrite Hread. reflexivity.
  - intros Hread. apply Hrun.
    unfold data, load_json_data, load_json_try. rewrite Hread. reflexivity.
  - intros raw Hread Hdoc Hlines. apply Hrun. exact (Hnone raw Hread Hdoc Hlines).
  - intros raw Hread Hblank Hempty. apply Hrun.
    apply (Hnone raw Hread); rewrite (strip_all_space _ Hblank); [exact Hempty|].
    constructor; [|constructor]. intros H. discriminate.
  - intros e He. unfold data, load_json_data. rewrite He. destruct e; reflexivity.
Qed.

(** ** Facts about the writer *)

Lemma write_sheets_nonempty_tabs (writer : workbook)
    (sheets : list (string * DataFrame)) :
  write_sheets writer sheets = writer ++ nonempty_tabs sheets.
Proof.
  unfold nonempty_tabs. revert writer.
  induction sheets as [|[name df] sheets IH]; intros writer; simpl.
  - symmetry. apply app_nil_r.
  - destruct (df_empty df); simpl.
    + apply IH.
    + rewrite IH. unfold to_excel, tab_of. simpl. rewrite <- app_assoc. reflexivity.
Qed.

Lemma main_frame_not_empty (data : list json) (main : DataFrame) :
  data <> [] -> create_main_metrics_sheet data = Ok main -> df_empty main = false.
Proof.
  intros Hne Hmain.
  assert (Hobj : forallb is_object data = true).
  { rewrite <- is_ok_create_main_metrics_sheet, Hmain. reflexivity. }
  rewrite (create_main_metrics_sheet_objects data Hobj) in Hmain.
  inversion Hmain as [Heq]. rewrite df_empty_pd.
  - destruct data; [congruence|reflexivity].
  - apply Forall_forall. intros row Hrow.
    apply list_elem_of_fmap in Hrow as (r & -> & _). discriminate.
Qed.

(** C6.  For a non-empty record list on which the six builders return their
    frames, and a workbook the library saves, the conversion writes the tabs
    of exactly the sheets whose frame is not empty, in sheet order; a tab
    holds the frame's columns as its header and the frame's rows as its
    body, in the frame's order.  The main sheet is never empty. *)
Theorem writer_tabs_are_nonempty_sheets (read_text : string -> read_result)
    (json_loads : string -> result json)
    (default_output_path : string -> string)
    (excel_saves : string -> workbook -> bool)
    (path : string) (out : option string) (data : list json)
    (main ide feature lang_feature lang_model model_feature : DataFrame) :
  load_json_data read_text json_loads path = data ->
  data <> [] ->
  create_main_metrics_sheet data = Ok main ->
  create_ide_totals_sheet data = Ok ide ->
  create_feature_totals_sheet data = Ok feature ->
  create_language_feature_sheet data = Ok lang_feature ->
  create_language_model_sheet data = Ok lang_model ->
  create_model_feature_sheet data = Ok model_feature ->
  let sheets :=
    [ ("Main_Metrics", main); ("IDE_Totals", ide); ("Feature_Totals", feature);
      ("Language_Feature", lang_feature); ("Language_Model", lang_model);
      ("Model_Feature", model_feature) ] in
  let target :=
    match out with Some p => p | None => default_output_path path end in
  excel_saves target (nonempty_tabs sheets) = true ->
  convert_json_to_xlsx read_text json_loads default_output_path excel_saves path out
    = Written target (nonempty_tabs sheets)
  /\ (forall name,
        name ∈ map tab_name (nonempty_tabs sheets)
        <-> exists df, (name, df) ∈ sheets /\ df_empty df = false)
  /\ (forall t,
        t ∈ nonempty_tabs sheets ->
        exists df, (tab_name t, df) ∈ sheets
                   /\ header t = columns df /\ body t = values df)
  /\ df_empty main = false.
Proof.
  intros Hload Hne Hmain Hide Hfeature Hlf Hlm Hmf sheets target Hsave.
  split; [|split; [|split]].
  - unfold convert_json_to_xlsx, build_sheets. rewrite Hload.
    destruct data as [|record data']; [congruence|].
    rewrite Hmain, Hide, Hfeature, Hlf, Hlm, Hmf.
    cbv beta iota delta [mbind result_bind].
    fold sheets. fold target.
    rewrite (write_sheets_nonempty_tabs [] sheets), app_nil_l.
    rewrite Hsave. reflexivity.
  - intros name. unfold nonempty_tabs. split.
    + intros Hin. apply list_elem_of_fmap in Hin as (t & -> & Ht).
      apply list_elem_of_omap in Ht as ([n df] & Hs & Hsome). simpl in Hsome.
      destruct (df_empty df) eqn:E; [discriminate|].
      inversion Hsome; subst t. simpl. exists df. split; [exact Hs|exact E].
    + intros (df & Hs & E).
      apply list_elem_of_fmap. exists (tab_of (name, df)). split; [reflexivity|].
      apply list_elem_of_omap. exists (name, df). split; [exact Hs|].
      simpl. rewrite E. reflexivity.
  - intros t Ht. unfold nonempty_tabs in Ht.
    apply list_elem_of_omap in Ht as ([n df] & Hs & Hsome). simpl in Hsome.
    destruct (df_empty df); [discriminate|].
    inversion Hsome; subst t. simpl. exists df. repeat split. exact Hs.
  - apply (main_frame_not_empty data); assumption.
Qed.

(** ** Totality of the builders *)







(** ** Facts about the builders over the store *)

Lemma json_ind' (P : json -> Prop) :
  P JNull -> (forall b, P (JBool b)) -> (forall n, P (JInt n)) ->
  (forall bits, P (JFloat bits)) -> (forall s, P (JStr s)) ->
  (forall xs, Forall P xs -> P (JArr xs)) ->
  (forall kvs, Forall (fun kv => P (snd kv)) kvs -> P (JObj kvs)) ->
  forall j, P j.
Proof.
  intros Hnull Hbool Hint Hfloat Hstr Harr Hobj.
  fix IH 1. intros [| b | n | bits | s | xs | kvs].
  - exact Hnull.
  - apply Hbool.
  - apply Hint.
  - apply Hfloat.
  - apply Hstr.
  - apply Harr. induction xs as [|x xs IHxs]; constructor; [apply IH|exact IHxs].
  - apply Hobj. induction kvs as [|[k v] kvs IHkvs]; constructor;
      [apply IH|exact IHkvs].
Qed.

Lemma Forall2_Forall_r {A B} (R R' : A -> B -> Prop) (xs : list A) (ys : list B) :
  Forall (fun y => forall x, R x y -> R' x y) ys ->
  Forall2 R xs ys -> Forall2 R' xs ys.
Proof.
  intros Hall H. induction H as [|x y xs ys Hxy _ IH]; constructor.
  - apply Forall_cons in Hall as [H1 _]. apply H1, Hxy.
  - apply IH. apply Forall_cons in Hall as [_ H2]. exact H2.
Qed.

(** A tree read at the locations [P] is read the same in any store that
    agrees on [P], as a tree at locations [Q] when [P] lies in [Q]. *)
Lemma repr_mono (P Q : nat -> Prop) (h h' : Store.store) (j : json) :
  (forall l, P l -> Q l /\ h' !! l = h !! l) ->
  forall v, Store.repr P h v j -> Store.repr Q h' v j.
Proof.
  intros HPQ. induction j as [| | | | |xs IH|kvs IH] using json_ind';
    intros v Hv; inversion Hv; subst; try constructor.
  - destruct (HPQ l) as [Hq Hl]; [assumption|].
    apply (Store.repr_list Q h' l vs); [exact Hq|congruence|].
    eapply Forall2_Forall_r; [exact IH|assumption].
  - destruct (HPQ l) as [Hq Hl]; [assumption|].
    apply (Store.repr_dict Q h' l vkvs); [exact Hq|congruence|].
    eapply Forall2_Forall_r; [|eassumption].
    eapply Forall_impl; [exact IH|].
    intros kv Hkv vkv [Hk Hr]. split; [exact Hk|apply Hkv, Hr].
Qed.

Lemma rep_move (X X' : list nat) (h h' : Store.store) (v : Store.val) (j : json) :
  (forall l, (l < length h)%nat -> l ∉ X ->
             ((l < length h')%nat /\ l ∉ X') /\ h' !! l = h !! l) ->
  Store.rep X h v j -> Store.rep X' h' v j.
Proof.
  intros Hmove. unfold Store.rep. apply repr_mono.
  intros l [Hl HX]. apply Hmove; assumption.
Qed.

Lemma ext_refl (W : list nat) (h : Store.store) : Store.ext W h h.
Proof. split; [lia|auto]. Qed.

Lemma ext_trans (W : list nat) (h1 h2 h3 : Store.store) :
  Store.ext W h1 h2 -> Store.ext W h2 h3 -> Store.ext W h1 h3.
Proof.
  intros [Hlen12 H12] [Hlen23 H23]. split; [lia|].
  intros l Hl HW. rewrite H23, H12; auto with lia.
Qed.

Lemma ext_weaken (W W' : list nat) (h h' : Store.store) :
  (forall l, l ∈ W -> l ∈ W') -> Store.ext W h h' -> Store.ext W' h h'.
Proof. intros Hsub [Hlen H]. split; [exact Hlen|]. intros l Hl HW. apply H; auto. Qed.

Lemma ext_alloc (W : list nat) (h : Store.store) (o : Store.obj) :
  Store.ext W h (h ++ [o]).
Proof.
  split; [rewrite length_app; lia|].
  intros l Hl _. apply lookup_app_l, Hl.
Qed.

Lemma ext_insert (W : list nat) (h : Store.store) (l : nat) (o : Store.obj) :
  l ∈ W -> Store.ext W h (<[l := o]> h).
Proof.
  intros Hin. split; [rewrite length_insert; lia|].
  intros l' Hl' HW. apply list_lookup_insert_ne. intros ->. contradiction.
Qed.

(** A tree clear of [X] stays the same tree along a run that writes only
    inside [X]. *)
Lemma rep_ext (W X : list nat) (h h' : Store.store) (v : Store.val) (j : json) :
  (forall l, l ∈ W -> l ∈ X) ->
  Store.ext W h h' -> Store.rep X h v j -> Store.rep X h' v j.
Proof.
  intros Hsub [Hlen H]. apply rep_move. intros l Hl HX.
  repeat split; [lia|exact HX|]. apply H; auto.
Qed.

Lemma rep_less (X X' : list nat) (h : Store.store) (v : Store.val) (j : json) :
  (forall l, l ∈ X' -> l ∈ X) -> Store.rep X h v j -> Store.rep X' h v j.
Proof.
  intros Hsub. apply rep_move. intros l Hl HX. repeat split; auto.
Qed.

(** A location that is not allocated yet is in no tree. *)
Lemma rep_fresh (X : list nat) (x : nat) (h : Store.store) (v : Store.val) (j : json) :
  (length h <= x)%nat -> Store.rep X h v j -> Store.rep (x :: X) h v j.
Proof.
  intros Hx. apply rep_move. intros l Hl HX. repeat split; [exact Hl|].
  intros Hin. apply elem_of_cons in Hin as [->|Hin]; [lia|contradiction].
Qed.

Lemma result_bind_Ok {A} (r : result A) : (r ≫= Ok) = r.
Proof. destruct r; reflexivity. Qed.

Lemma sim_bind {A B A' B'} (W : list nat)
    (R : Store.store -> A -> B -> Prop) (S : Store.store -> A' -> B' -> Prop)
    (h : Store.store) (m : Store.M A) (r : result B)
    (f : A -> Store.M A') (g : B -> result B') :
  Store.sim W R h m r ->
  (forall h' a b, Store.ext W h h' -> R h' a b -> Store.sim W S h' (f a) (g b)) ->
  Store.sim W S h (m ≫= f) (r ≫= g).
Proof.
  unfold Store.sim, mbind, Store.M_bind, result_bind.
  destruct (m h) as [a h1|e h1|], r as [b|e']; try contradiction.
  - intros [Hext HR] Hk. specialize (Hk h1 a b Hext HR).
    destruct (f a h1) as [a' h2|e2 h2|], (g b) as [b'|e2']; try contradiction.
    + destruct Hk as [Hext2 HS]. split; [eapply ext_trans; eassumption|exact HS].
    + destruct Hk as [-> Hext2]. split; [reflexivity|eapply ext_trans; eassumption].
  - intros [-> Hext] _. split; [reflexivity|exact Hext].
Qed.

(** The same when the first run writes nowhere: what follows it may rely on
    the store having only grown. *)
Lemma sim_bind_pure {A B A' B'} (W : list nat)
    (R : Store.store -> A -> B -> Prop) (S : Store.store -> A' -> B' -> Prop)
    (h : Store.store) (m : Store.M A) (r : result B)
    (f : A -> Store.M A') (g : B -> result B') :
  Store.sim [] R h m r ->
  (forall h' a b, Store.ext [] h h' -> R h' a b -> Store.sim W S h' (f a) (g b)) ->
  Store.sim W S h (m ≫= f) (r ≫= g).
Proof.
  assert (Hnil : forall l : nat, l ∈ @nil nat -> l ∈ W)
    by (intros l Hl; inversion Hl).
  unfold Store.sim, mbind, Store.M_bind, result_bind.
  destruct (m h) as [a h1|e h1|], r as [b|e']; try contradiction.
  - intros [Hext HR] Hk. specialize (Hk h1 a b Hext HR).
    apply (ext_weaken [] W _ _ Hnil) in Hext.
    destruct (f a h1) as [a' h2|e2 h2|], (g b) as [b'|e2']; try contradiction.
    + destruct Hk as [Hext2 HS]. split; [eapply ext_trans; eassumption|exact HS].
    + destruct Hk as [-> Hext2]. split; [reflexivity|eapply ext_trans; eassumption].
  - intros [-> Hext] _. split; [reflexivity|].
    apply (ext_weaken [] W _ _ Hnil), Hext.
Qed.

Lemma sim_weaken {A B} (W W' : list nat)
    (R R' : Store.store -> A -> B -> Prop) (h : Store.store)
    (m : Store.M A) (r : result B) :
  (forall l, l ∈ W -> l ∈ W') ->
  (forall h' a b, Store.ext W h h' -> R h' a b -> R' h' a b) ->
  Store.sim W R h m r -> Store.sim W' R' h m r.
Proof.
  unfold Store.sim. intros Hsub HR.
  destruct (m h) as [a h1|e h1|], r as [b|e']; try contradiction.
  - intros [Hext Hr]. split; [eapply ext_weaken; eassumption|apply HR; assumption].
  - intros [-> Hext]. split; [reflexivity|eapply ext_weaken; eassumption].
Qed.

Lemma lookup_rep (X : list nat) (h : Store.store)
    (vkvs : list (string * Store.val)) (kvs : dict) (key : string) :
  Store.rep_items X h vkvs kvs ->
  option_Forall2 (Store.rep X h) (Store.lookup vkvs key) (dict_lookup kvs key).
Proof.
  induction 1 as [|[k v] [k' j] vkvs kvs [Hk Hv] _ IH]; simpl in *.
  - constructor.
  - subst k'. destruct (String.eqb k key); [constructor; exact Hv|exact IH].
Qed.

Lemma set_rep (X : list nat) (h : Store.store)
    (vkvs : list (string * Store.val)) (kvs : dict) (key : string)
    (v : Store.val) (j : json) :
  Store.rep_items X h vkvs kvs -> Store.rep X h v j ->
  Store.rep_items X h (Store.set vkvs key v) (dict_set kvs key j).
Proof.
  intros Hitems Hv.
  induction Hitems as [|[k w] [k' jw] vkvs kvs [Hk Hw] Hrest IH]; simpl in *.
  - constructor; [split; [reflexivity|exact Hv]|constructor].
  - subst k'. destruct (String.eqb k key).
    + constructor; [split; [reflexivity|exact Hv]|exact Hrest].
    + constructor; [split; [reflexivity|exact Hw]|exact IH].
Qed.

Lemma update_rep (X : list nat) (h : Store.store)
    (vkvs vother : list (string * Store.val)) (kvs other : dict) :
  Store.rep_items X h vkvs kvs -> Store.rep_items X h vother other ->
  Store.rep_items X h
    (fold_left (fun acc kv => Store.set acc (fst kv) (snd kv)) vother vkvs)
    (dict_update kvs other).
Proof.
  intros Hd Ho. unfold dict_update. revert vkvs kvs Hd.
  induction Ho as [|[k v] [k' j] vother other [Hk Hv] _ IH];
    intros vkvs kvs Hd; simpl in *.
  - exact Hd.
  - subst k'. apply IH, set_rep; assumption.
Qed.

Lemma rep_items_ext (W X : list nat) (h h' : Store.store)
    (vkvs : list (string * Store.val)) (kvs : dict) :
  (forall l, l ∈ W -> l ∈ X) -> Store.ext W h h' ->
  Store.rep_items X h vkvs kvs -> Store.rep_items X h' vkvs kvs.
Proof.
  intros Hsub Hext H. eapply Forall2_impl; [exact H|].
  intros vkv kv [Hk Hv]. split; [exact Hk|eapply rep_ext; eassumption].
Qed.

Lemma rep_items_less (X X' : list nat) (h : Store.store)
    (vkvs : list (string * Store.val)) (kvs : dict) :
  (forall l, l ∈ X' -> l ∈ X) ->
  Store.rep_items X h vkvs kvs -> Store.rep_items X' h vkvs kvs.
Proof.
  intros Hsub H. eapply Forall2_impl; [exact H|].
  intros vkv kv [Hk Hv]. split; [exact Hk|eapply rep_less; eassumption].
Qed.

Lemma rep_dict_inv (X : list nat) (h : Store.store) (v : Store.val) (kvs : dict) :
  Store.rep X h v (JObj kvs) ->
  exists l vkvs,
    v = Store.VRef l /\ Store.away X h l /\ h !! l = Some (Store.ODict vkvs)
    /\ Store.rep_items X h vkvs kvs.
Proof. intros H. inversion H; subst. eauto 10. Qed.

Lemma rep_list_inv (X : list nat) (h : Store.store) (v : Store.val) (js : list json) :
  Store.rep X h v (JArr js) ->
  exists l vs,
    v = Store.VRef l /\ Store.away X h l /\ h !! l = Some (Store.OList vs)
    /\ Forall2 (Store.rep X h) vs js.
Proof. intros H. inversion H; subst. eauto 10. Qed.

Lemma rep_dict_intro (X : list nat) (h : Store.store) (l : nat)
    (vkvs : list (string * Store.val)) (kvs : dict) :
  Store.away X h l -> h !! l = Some (Store.ODict vkvs) ->
  Store.rep_items X h vkvs kvs -> Store.rep X h (Store.VRef l) (JObj kvs).
Proof. intros. eapply Store.repr_dict; eassumption. Qed.

(** [get] agrees with [tree_get] and leaves the store as it is. *)
Lemma get_sim (X : list nat) (h : Store.store) (o d : Store.val) (j dj : json)
    (key : string) :
  Store.rep X h o j -> Store.rep X h d dj ->
  Store.sim [] (Store.rep X) h (Store.get o key d) (tree_get j key dj).
Proof.
  intros Ho Hd. unfold Store.sim, Store.get.
  destruct j; inversion Ho; subst; simpl;
    try (split; [reflexivity|apply ext_refl]).
  - match goal with H : h !! _ = Some _ |- _ => rewrite H end.
    split; [reflexivity|apply ext_refl].
  - match goal with H : h !! _ = Some _ |- _ => rewrite H end.
    split; [apply ext_refl|]. unfold dict_get.
    match goal with H : Forall2 _ vkvs kvs |- _ =>
      pose proof (lookup_rep X h vkvs kvs key H) as Hlk end.
    inversion Hlk; [assumption|exact Hd].
Qed.

Lemma chars_rep (X : list nat) (h : Store.store) (s : string) :
  Forall2 (Store.rep X h) (Store.chars s) (chars s).
Proof. induction s; simpl; constructor; [constructor|assumption]. Qed.

Lemma keys_rep (X : list nat) (h : Store.store)
    (vkvs : list (string * Store.val)) (kvs : dict) :
  Store.rep_items X h vkvs kvs ->
  Forall2 (Store.rep X h) (map (fun kv => Store.VStr (fst kv)) vkvs)
    (map (fun kv => JStr (fst kv)) kvs).
Proof.
  induction 1 as [|vkv kv vkvs kvs [Hk _] _ IH]; simpl; constructor.
  - rewrite Hk. constructor.
  - exact IH.
Qed.

(** [iter] agrees with [tree_iter] and leaves the store as it is. *)
Lemma iter_sim (X : list nat) (h : Store.store) (o : Store.val) (j : json) :
  Store.rep X h o j ->
  Store.sim [] (fun h' vs js => Forall2 (Store.rep X h') vs js) h
    (Store.iter o) (tree_iter j).
Proof.
  intros Ho. unfold Store.sim, Store.iter.
  destruct j; inversion Ho; subst; simpl;
    try (split; [reflexivity|apply ext_refl]).
  - split; [apply ext_refl|apply chars_rep].
  - match goal with H : h !! _ = Some _ |- _ => rewrite H end.
    split; [apply ext_refl|assumption].
  - match goal with H : h !! _ = Some _ |- _ => rewrite H end.
    split; [apply ext_refl|]. apply keys_rep. assumption.
Qed.

Lemma away_alloc (X : list nat) (h : Store.store) (o : Store.obj) :
  Forall (fun x => (x < length h)%nat) X -> Store.away X (h ++ [o]) (length h).
Proof.
  intros Hbelow. split; [rewrite length_app; simpl; lia|].
  intros Hin. rewrite Forall_forall in Hbelow. specialize (Hbelow _ Hin). lia.
Qed.

Lemma lookup_alloc (h : Store.store) (o : Store.obj) :
  (h ++ [o]) !! length h = Some o.
Proof. apply list_lookup_middle. reflexivity. Qed.

(** A new dict is a tree clear of any set of older locations. *)
Lemma alloc_dict_sim (X : list nat) (h : Store.store)
    (vkvs : list (string * Store.val)) (kvs : dict) :
  Forall (fun x => (x < length h)%nat) X ->
  Store.rep_items X h vkvs kvs ->
  Store.sim [] (Store.rep X) h (Store.alloc (Store.ODict vkvs)) (Ok (JObj kvs)).
Proof.
  intros Hbelow Hitems. unfold Store.sim, Store.alloc.
  split; [apply ext_alloc|].
  apply (rep_dict_intro X _ (length h) vkvs).
  - apply away_alloc, Hbelow.
  - apply lookup_alloc.
  - apply (rep_items_ext [] X h); [intros l Hl; inversion Hl|apply ext_alloc|exact Hitems].
Qed.

Lemma alloc_list_sim (X : list nat) (h : Store.store) :
  Forall (fun x => (x < length h)%nat) X ->
  Store.sim [] (Store.rep X) h (Store.alloc (Store.OList [])) (Ok (JArr [])).
Proof.
  intros Hbelow. unfold Store.sim, Store.alloc.
  split; [apply ext_alloc|].
  apply (Store.repr_list _ _ (length h) []).
  - apply away_alloc, Hbelow.
  - apply lookup_alloc.
  - constructor.
Qed.

Lemma below_ext (W X : list nat) (h h' : Store.store) :
  Store.ext W h h' ->
  Forall (fun x => (x < length h)%nat) X -> Forall (fun x => (x < length h')%nat) X.
Proof.
  intros [Hlen _] H. eapply Forall_impl; [exact H|]. intros x Hx. simpl in *. lia.
Qed.

Lemma items_sim_ext (X : list nat) (h h' : Store.store)
    (sitems : list (string * Store.M Store.val))
    (titems : list (string * result json)) :
  Store.ext [] h h' ->
  Store.items_sim X h sitems titems -> Store.items_sim X h' sitems titems.
Proof.
  intros Hext H. eapply Forall2_impl; [exact H|]. intros si ti [Hk Hsim].
  split; [exact Hk|]. intros h'' Hext'. apply Hsim.
  eapply ext_trans; eassumption.
Qed.

Lemma display_items_sim (X : list nat)
    (sitems : list (string * Store.M Store.val))
    (titems : list (string * result json)) :
  forall (h : Store.store) (vacc : list (string * Store.val)) (acc : dict),
    Store.items_sim X h sitems titems ->
    Store.rep_items X h vacc acc ->
    Store.sim [] (fun h' vkvs kvs => Store.rep_items X h' vkvs kvs) h
      (Store.display_items vacc sitems) (dict_literal_from acc titems).
Proof.
  revert sitems. induction titems as [|[k' tm] titems IH];
    intros sitems h vacc acc Hitems Hacc;
    inversion Hitems as [|[k sm] ? sitems' ? [Hk Hsim] Hrest];
    subst; simpl in *.
  - split; [apply ext_refl|exact Hacc].
  - subst k'. apply (sim_bind [] (Store.rep X)).
    + apply Hsim, ext_refl.
    + intros h' v j Hext Hv. apply IH.
      * eapply items_sim_ext; eassumption.
      * apply set_rep; [|exact Hv].
        apply (rep_items_ext [] X h); [intros l Hl; inversion Hl|exact Hext|exact Hacc].
Qed.

(** A dict display makes a new dict that is the tree of [dict_literal]. *)
Lemma dict_display_sim (X : list nat) (h : Store.store)
    (sitems : list (string * Store.M Store.val))
    (titems : list (string * result json)) :
  Forall (fun x => (x < length h)%nat) X ->
  Store.items_sim X h sitems titems ->
  Store.sim [] (fun h' v d => Store.rep X h' v (JObj d)) h
    (Store.dict_display sitems) (dict_literal titems).
Proof.
  intros Hbelow Hitems. unfold Store.dict_display, dict_literal.
  rewrite <- (result_bind_Ok (dict_literal_from [] titems)).
  apply (sim_bind [] (fun h' vkvs kvs => Store.rep_items X h' vkvs kvs)).
  - apply display_items_sim; [exact Hitems|constructor].
  - intros h' vkvs kvs Hext Hkvs.
    apply (alloc_dict_sim X h' vkvs kvs); [|exact Hkvs].
    eapply below_ext; eassumption.
Qed.

Lemma rep_pure_ext (X : list nat) (h h' : Store.store) (v : Store.val) (j : json) :
  Store.ext [] h h' -> Store.rep X h v j -> Store.rep X h' v j.
Proof. apply rep_ext. intros l Hl. inversion Hl. Qed.

Lemma nested_totals_sim (X : list nat) (h : Store.store) (field : string)
    (v : Store.val) (j : json) :
  Forall (fun x => (x < length h)%nat) X -> Store.rep X h v j ->
  Store.sim [] (Store.rep X) h (nested_totals field v) (nested_totals field j).
Proof.
  intros Hbelow Hv. unfold nested_totals.
  apply (sim_bind [] (Store.rep X)).
  - apply alloc_list_sim, Hbelow.
  - intros h' d dj Hext Hd. apply get_sim; [|exact Hd].
    eapply rep_pure_ext; eassumption.
Qed.

Lemma get_get_sim (X : list nat) (h : Store.store) (outer inner : string)
    (v : Store.val) (j : json) :
  Forall (fun x => (x < length h)%nat) X -> Store.rep X h v j ->
  Store.sim [] (Store.rep X) h (get_get v outer inner) (get_get j outer inner).
Proof.
  intros Hbelow Hv. unfold get_get.
  apply (sim_bind [] (Store.rep X)).
  - apply (alloc_dict_sim X h [] []); [exact Hbelow|constructor].
  - intros h' d dj Hext Hd. apply (sim_bind [] (Store.rep X)).
    + apply get_sim; [|exact Hd]. eapply rep_pure_ext; eassumption.
    + intros h'' w wj _ Hw. apply get_sim; [exact Hw|constructor].
Qed.

(** One item of a display: a [get] with an immediate default, or a
    second-level read. *)
Ltac display_item Hbelow Hv :=
  cbv beta; split;
  [ reflexivity
  | let h' := fresh "h'" in
    let Hext := fresh "Hext" in
    intros h' Hext; simpl;
    first
      [ apply get_sim; [eapply rep_pure_ext; eassumption|constructor]
      | apply get_get_sim;
        [eapply below_ext; eassumption|eapply rep_pure_ext; eassumption] ] ].

Ltac display_items :=
  let Hbelow := fresh "Hbelow" in
  let Hv := fresh "Hv" in
  intros ? ? ? ? Hbelow Hv;
  cbv beta delta [Store.items_sim main_display user_info_display ide_display
             feature_display lang_feature_display lang_model_display
             model_feature_display];
  repeat (apply Forall2_cons; split; [display_item Hbelow Hv|]);
  constructor.

Lemma main_display_sim : Store.display_sim main_display main_display.
Proof. display_items. Qed.

Lemma user_info_display_sim : Store.display_sim user_info_display user_info_display.
Proof. display_items. Qed.

Lemma ide_display_sim : Store.display_sim ide_display ide_display.
Proof. display_items. Qed.

Lemma feature_display_sim : Store.display_sim feature_display feature_display.
Proof. display_items. Qed.

Lemma lang_feature_display_sim :
  Store.display_sim lang_feature_display lang_feature_display.
Proof. display_items. Qed.

Lemma lang_model_display_sim :
  Store.display_sim lang_model_display lang_model_display.
Proof. display_items. Qed.

Lemma model_feature_display_sim :
  Store.display_sim model_feature_display model_feature_display.
Proof. display_items. Qed.

Lemma holds_rows_pure_ext (ld : nat) (h h' : Store.store) (acc : list dict) :
  Store.ext [] h h' -> Store.holds_rows ld h acc -> Store.holds_rows ld h' acc.
Proof.
  intros Hext (refs & Hld & Hrefs). exists refs. split.
  - destruct Hext as [_ Hsame]. rewrite Hsame; [exact Hld| |intros Hin; inversion Hin].
    eapply lookup_lt_Some, Hld.
  - eapply Forall2_impl; [exact Hrefs|]. intros v j. apply rep_pure_ext, Hext.
Qed.

Lemma for_append_as_extend {A B} (body : A -> result B) (xs : list A) :
  for_append body xs = for_extend (fun x => r ← body x; Ok [r]) xs.
Proof.
  induction xs as [|x xs IH]; simpl; [reflexivity|].
  destruct (body x); simpl; [|reflexivity]. rewrite IH. reflexivity.
Qed.

(** The body of the inner loop of a breakdown builder: it appends to the list
    at [ld] the one row the tree builder makes, and writes nowhere else than
    in that list and in the new row. *)
Lemma row_body_appends (ld : nat) (h : Store.store) (acc : list dict)
    (sdisplay : Store.val -> list (string * Store.M Store.val))
    (tdisplay : json -> list (string * result json))
    (ui e : Store.val) (uiJ : dict) (ej : json) :
  Store.display_sim sdisplay tdisplay ->
  Store.holds_rows ld h acc ->
  Store.rep [ld] h ui (JObj uiJ) ->
  Store.rep [ld] h e ej ->
  Store.appends ld h acc
    (row ← Store.dict_copy ui;
     upd ← Store.dict_display (sdisplay e);
     Store.dict_update row upd;;
     Store.list_append (Store.VRef ld) row)
    (row ← (upd ← dict_literal (tdisplay ej);
            Ok (dict_update (dict_copy uiJ) upd));
     Ok [row]).
Proof.
  intros Hdisp (refs & Hld & Hrefs) Hui He.
  destruct (rep_dict_inv _ _ _ _ Hui) as (lu & vui & -> & Hlu_away & Hlu & Hvui).
  assert (Hldlt : (ld < length h)%nat) by (eapply lookup_lt_Some, Hld).
  set (n := length h). set (h1 := h ++ [Store.ODict vui]).
  assert (Hext1 : Store.ext [] h h1) by apply ext_alloc.
  assert (Hbelow : Forall (fun x => (x < length h1)%nat) [n; ld]).
  { unfold h1. rewrite length_app. simpl. fold n.
    repeat constructor; lia. }
  assert (He1 : Store.rep [n; ld] h1 e ej).
  { apply (rep_pure_ext _ h); [exact Hext1|]. apply rep_fresh; [unfold n; lia|exact He]. }
  pose proof (dict_display_sim [n; ld] h1 _ _ Hbelow (Hdisp _ _ _ _ Hbelow He1))
    as Hupd.
  unfold Store.appends, Store.sim in *.
  cbv beta delta [mbind Store.M_bind result_bind].
  unfold Store.dict_copy. rewrite Hlu. unfold Store.alloc at 1. fold n. fold h1.
  destruct (Store.dict_display (sdisplay e) h1) as [upd h2|exn h2|],
    (dict_literal (tdisplay ej)) as [updJ|exn']; try contradiction;
    cbv beta iota.
  - destruct Hupd as [Hext2 Hupd].
    destruct (rep_dict_inv _ _ _ _ Hupd) as (lp & vupd & -> & _ & Hlp & Hvupd).
    assert (Hn2 : h2 !! n = Some (Store.ODict vui)).
    { destruct Hext2 as [_ Hsame]. rewrite Hsame.
      - apply lookup_alloc.
      - unfold h1. rewrite length_app. simpl. fold n. lia.
      - intros Hin; inversion Hin. }
    assert (Hld2 : h2 !! ld = Some (Store.OList refs)).
    { destruct Hext2 as [_ Hsame]. rewrite Hsame.
      - destruct Hext1 as [_ Hsame1]. rewrite Hsame1; [exact Hld|exact Hldlt|].
        intros Hin; inversion Hin.
      - unfold h1. rewrite length_app. lia.
      - intros Hin; inversion Hin. }
    assert (Hlen2 : (S n <= length h2)%nat).
    { destruct Hext2 as [Hlen _]. unfold h1 in Hlen. rewrite length_app in Hlen.
      simpl in Hlen. fold n in Hlen. lia. }
    unfold Store.dict_update. rewrite Hn2, Hlp.
    set (row := fold_left _ vupd vui).
    set (h3 := <[n := Store.ODict row]> h2).
    unfold Store.list_append.
    assert (Hld3 : h3 !! ld = Some (Store.OList refs)).
    { unfold h3. rewrite list_lookup_insert_ne; [exact Hld2|unfold n; lia]. }
    rewrite Hld3.
    set (h4 := <[ld := Store.OList (refs ++ [Store.VRef n])]> h3).
    assert (Hext4 : Store.ext [ld] h h4).
    { split.
      - unfold h4, h3. rewrite !length_insert. fold n. lia.
      - intros l Hl Hnot. unfold h4, h3.
        rewrite list_lookup_insert_ne by (intros ->; apply Hnot; left).
        rewrite list_lookup_insert_ne by (fold n in Hl; lia).
        destruct Hext2 as [_ Hsame2]. rewrite Hsame2.
        + destruct Hext1 as [_ Hsame1]. apply Hsame1; [exact Hl|].
          intros Hin; inversion Hin.
        + unfold h1. rewrite length_app. lia.
        + intros Hin; inversion Hin. }
    assert (Hext24 : Store.ext [n; ld] h2 h4).
    { eapply ext_trans; apply ext_insert; [left|right; left]. }
    split; [exact Hext4|].
    exists (refs ++ [Store.VRef n]). split.
    + unfold h4. apply list_lookup_insert_eq.
      unfold h3. rewrite length_insert. lia.
    + rewrite map_app. apply Forall2_app.
      * eapply Forall2_impl; [exact Hrefs|]. intros v j.
        apply (rep_ext [ld] [ld]); [auto|exact Hext4].
      * constructor; [|constructor].
        apply (rep_dict_intro [ld] h4 n row).
        -- split; [unfold h4, h3; rewrite !length_insert; lia|].
           intros Hin. apply list_elem_of_singleton in Hin. unfold n in Hin. lia.
        -- unfold h4. rewrite list_lookup_insert_ne by (unfold n; lia).
           unfold h3. apply list_lookup_insert_eq. lia.
        -- unfold row, dict_copy. apply update_rep.
           ++ apply (rep_items_ext [ld] [ld] h); [auto|exact Hext4|exact Hvui].
           ++ apply (rep_items_less [n; ld]).
              { intros l Hl. right. exact Hl. }
              apply (rep_items_ext [n; ld] [n; ld] h2); [auto|exact Hext24|exact Hvupd].
  - destruct Hupd as [-> Hext2]. split; [reflexivity|].
    eapply ext_trans; [eapply ext_weaken; [|exact Hext1]|eapply ext_weaken; [|exact Hext2]];
      intros l Hl; inversion Hl.
Qed.

(** A loop whose body appends the rows of its tree counterpart appends the
    rows of the whole tree loop. *)
Lemma for_each_appends (ld : nat) (body : Store.val -> Store.M unit)
    (tbody : json -> result (list dict)) (vs : list Store.val) (js : list json) :
  forall (h : Store.store) (acc : list dict),
    (forall h' acc' v j,
        Store.ext [ld] h h' -> Store.holds_rows ld h' acc' ->
        Store.rep [ld] h' v j ->
        Store.appends ld h' acc' (body v) (tbody j)) ->
    Forall2 (Store.rep [ld] h) vs js ->
    Store.holds_rows ld h acc ->
    Store.appends ld h acc (Store.for_each vs body) (for_extend tbody js).
Proof.
  revert vs. induction js as [|j js IH]; intros vs h acc Hbody Hvs Hacc;
    inversion Hvs as [|v ? vs' ? Hv Hrest]; subst; simpl.
  - unfold Store.appends, Store.sim. simpl.
    split; [apply ext_refl|]. rewrite app_nil_r. exact Hacc.
  - unfold Store.appends.
    apply (sim_bind [ld] (fun h' _ rows => Store.holds_rows ld h' (acc ++ rows))).
    + apply Hbody; [apply ext_refl|exact Hacc|exact Hv].
    + intros h1 [] rows1 Hext1 Hacc1.
      rewrite <- (result_bind_Ok (for_extend tbody js ≫= _)).
      change (for_extend tbody js ≫= (fun rs => Ok (rows1 ++ rs)))
        with (for_extend tbody js ≫= (fun rs => (fun rs' => Ok (rows1 ++ rs')) rs)).
      assert (Hloop : Store.appends ld h1 (acc ++ rows1)
                        (Store.for_each vs' body) (for_extend tbody js)).
      { apply IH.
        - intros h' acc' v' j' Hext' Hacc' Hv'. apply Hbody; try assumption.
          eapply ext_trans; eassumption.
        - eapply Forall2_impl; [exact Hrest|]. intros v' j'.
          apply (rep_ext [ld] [ld]); [auto|exact Hext1].
        - exact Hacc1. }
      unfold Store.appends, Store.sim in *.
      destruct (Store.for_each vs' body h1) as [[] h2|e h2|],
        (for_extend tbody js) as [rows2|e']; try contradiction; simpl.
      * destruct Hloop as [Hext2 Hacc2]. split; [exact Hext2|].
        rewrite app_assoc. exact Hacc2.
      * exact Hloop.
Qed.

(** The body of the loop of the main-metrics builder. *)
Lemma main_body_appends (ld : nat) (h : Store.store) (acc : list dict)
    (record : Store.val) (j : json) :
  Store.holds_rows ld h acc ->
  Store.rep [ld] h record j ->
  Store.appends ld h acc
    (main_row ← Store.dict_display (main_display record);
     Store.list_append (Store.VRef ld) main_row)
    (row ← main_row j; Ok [row]).
Proof.
  intros Hacc Hrec.
  assert (Hldlt : (ld < length h)%nat).
  { destruct Hacc as (refs & Hld & _). eapply lookup_lt_Some, Hld. }
  assert (Hbelow : Forall (fun x => (x < length h)%nat) [ld])
    by (repeat constructor; exact Hldlt).
  pose proof (dict_display_sim [ld] h _ _ Hbelow
                (main_display_sim _ _ _ _ Hbelow Hrec)) as Hrow.
  unfold Store.appends, Store.sim, main_row in *.
  cbv beta delta [mbind Store.M_bind result_bind].
  destruct (Store.dict_display (main_display record) h) as [row h1|e h1|],
    (dict_literal (main_display j)) as [rowJ|e']; try contradiction.
  - destruct Hrow as [Hext1 Hrow].
    destruct (holds_rows_pure_ext ld h h1 acc Hext1 Hacc) as (refs & Hld1 & Hrefs1).
    unfold Store.list_append. rewrite Hld1.
    assert (Hext2 : Store.ext [ld] h1 (<[ld := Store.OList (refs ++ [row])]> h1))
      by (apply ext_insert; left).
    split.
    + eapply ext_trans; [eapply ext_weaken; [|exact Hext1]|exact Hext2].
      intros l Hl; inversion Hl.
    + exists (refs ++ [row]). split.
      * apply list_lookup_insert_eq. eapply lookup_lt_Some, Hld1.
      * rewrite map_app. apply Forall2_app.
        -- eapply Forall2_impl; [exact Hrefs1|]. intros v' j'.
           apply (rep_ext [ld] [ld]); [auto|exact Hext2].
        -- constructor; [|constructor].
           apply (rep_ext [ld] [ld] h1); [auto|exact Hext2|exact Hrow].
  - destruct Hrow as [-> Hext1]. split; [reflexivity|].
    eapply ext_weaken; [|exact Hext1]. intros l Hl; inversion Hl.
Qed.

(** The body of the outer loop of a breakdown builder. *)
Lemma record_body_appends (ld : nat) (h : Store.store) (acc : list dict)
    (field : string)
    (sdisplay : Store.val -> list (string * Store.M Store.val))
    (tdisplay : json -> list (string * result json))
    (record : Store.val) (j : json) :
  Store.display_sim sdisplay tdisplay ->
  Store.holds_rows ld h acc ->
  Store.rep [ld] h record j ->
  Store.appends ld h acc
    (user_info ← Store.dict_display (user_info_display record);
     totals ← nested_totals field record;
     Store.for_in totals (fun entry =>
       row ← Store.dict_copy user_info;
       upd ← Store.dict_display (sdisplay entry);
       Store.dict_update row upd;;
       Store.list_append (Store.VRef ld) row))
    (user_info ← user_info_of j;
     totals ← nested_totals field j;
     entries ← tree_iter totals;
     for_append (fun entry =>
       upd ← dict_literal (tdisplay entry);
       Ok (dict_update (dict_copy user_info) upd)) entries).
Proof.
  intros Hdisp Hacc Hrec.
  assert (Hldlt : (ld < length h)%nat).
  { destruct Hacc as (refs & Hld & _). eapply lookup_lt_Some, Hld. }
  assert (Hbelow : Forall (fun x => (x < length h)%nat) [ld])
    by (repeat constructor; exact Hldlt).
  assert (Hnil : forall l : nat, l ∈ @nil nat -> l ∈ [ld])
    by (intros l Hl; inversion Hl).
  unfold Store.appends, user_info_of.
  apply (sim_bind_pure [ld] (fun h' v d => Store.rep [ld] h' v (JObj d))).
  { apply dict_display_sim; [exact Hbelow|].
    apply user_info_display_sim; assumption. }
  intros h1 ui uiJ Hext1 Hui.
  apply (sim_bind_pure [ld] (Store.rep [ld])).
  { apply nested_totals_sim; [eapply below_ext; eassumption|].
    apply (rep_pure_ext [ld] h); [exact Hext1|exact Hrec]. }
  intros h2 totals totalsJ Hext2 Htotals.
  unfold Store.for_in.
  apply (sim_bind_pure [ld] (fun h' vs js => Forall2 (Store.rep [ld] h') vs js)).
  { apply iter_sim, Htotals. }
  intros h3 vs js Hext3 Hvs.
  rewrite for_append_as_extend.
  apply for_each_appends.
  - intros h' acc' v' j' Hext' Hacc' Hv'.
    apply (row_body_appends ld h' acc' sdisplay tdisplay ui v' uiJ j');
      try assumption.
    apply (rep_ext [ld] [ld] h3); [auto|exact Hext'|].
    apply (rep_pure_ext [ld] h1); [|exact Hui].
    eapply ext_trans; eassumption.
  - exact Hvs.
  - apply (holds_rows_pure_ext ld h); [|exact Hacc].
    eapply ext_trans; [exact Hext1|]. eapply ext_trans; eassumption.
Qed.

(** A tree is still the same tree when no object of the store changed. *)
Lemma rep_unchanged (h h' : Store.store) (v : Store.val) (j : json) :
  Store.unchanged h h' -> Store.rep [] h v j -> Store.rep [] h' v j.
Proof.
  intros Hkeep. apply rep_move. intros l Hl Hnot.
  destruct (lookup_lt_is_Some_2 h l Hl) as [o Ho].
  pose proof (Hkeep l o Ho) as Ho'.
  repeat split; [eapply lookup_lt_Some, Ho'|exact Hnot|congruence].
Qed.

Lemma read_rows_rep (X : list nat) (h : Store.store) (refs : list Store.val)
    (rows : list dict) :
  Forall2 (Store.rep X h) refs (map JObj rows) ->
  exists dicts,
    Store.read_rows h refs = Some dicts
    /\ Forall2 (Store.rep_items X h) dicts rows.
Proof.
  revert refs. induction rows as [|row rows IH]; intros refs Hrefs;
    inversion Hrefs as [|v ? refs' ? Hv Hrest]; subst; simpl.
  - exists []. split; [reflexivity|constructor].
  - destruct (rep_dict_inv _ _ _ _ Hv) as (l & vkvs & -> & _ & Hl & Hitems).
    destruct (IH _ Hrest) as (dicts & Hread & Hdicts).
    exists (vkvs :: dicts). rewrite Hl, Hread. split; [reflexivity|].
    constructor; assumption.
Qed.

Lemma rep_items_keys (X : list nat) (h : Store.store)
    (vkvs : list (string * Store.val)) (kvs : dict) :
  Store.rep_items X h vkvs kvs -> map fst vkvs = map fst kvs.
Proof.
  induction 1 as [|vkv kv vkvs kvs [Hk _] _ IH]; simpl; [reflexivity|].
  rewrite Hk, IH. reflexivity.
Qed.

Lemma frame_columns_rep (X : list nat) (h : Store.store)
    (dicts : list (list (string * Store.val))) (rows : list dict) :
  Forall2 (Store.rep_items X h) dicts rows ->
  forall cols,
    fold_left (fun acc row => fold_left add_column (map fst row) acc) dicts cols
    = frame_columns rows cols.
Proof.
  unfold frame_columns.
  induction 1 as [|vrow row dicts rows Hrow _ IH]; intros cols; simpl.
  - reflexivity.
  - rewrite (rep_items_keys _ _ _ _ Hrow). apply IH.
Qed.

(** The inference sees of a store value what it sees of its tree. *)
Lemma rep_classify (X : list nat) (h : Store.store) (v : Store.val) (j : json) :
  Store.rep X h v j -> classify v = classify j.
Proof. intros H. inversion H; reflexivity. Qed.

Lemma column_kinds_rep (X : list nat) (h : Store.store)
    (dicts : list (list (string * Store.val))) (rows : list dict) (c : string) :
  Forall2 (Store.rep_items X h) dicts rows ->
  map (fun r => classify <$> Store.lookup r c) dicts = column_kinds rows c.
Proof.
  unfold column_kinds.
  induction 1 as [|vrow row dicts rows Hrow _ IH]; cbn [map]; [reflexivity|].
  rewrite IH. f_equal.
  pose proof (lookup_rep X h vrow row c Hrow) as Hlk.
  inversion Hlk as [v j Hv|]; cbn [fmap option_fmap option_map]; [|reflexivity].
  rewrite (rep_classify _ _ _ _ Hv). reflexivity.
Qed.

(** A column stores a store value as it stores the tree. *)
Lemma convert_rep (X : list nat) (h : Store.store) (d : dtype)
    (a : option Store.val) (b : option json) :
  option_Forall2 (Store.rep X h) a b ->
  option_Forall2 (Store.rep [] h) (convert d a) (convert d b).
Proof.
  intros H. inversion H as [v j Hv|]; subst; [|constructor].
  assert (Hv' : Store.rep [] h v j).
  { eapply rep_less; [|exact Hv]. intros l Hl; inversion Hl. }
  unfold convert. rewrite (rep_classify _ _ _ _ Hv).
  destruct (classify j) as [| |n|bits|]; try (constructor; exact Hv').
  - destruct d; try (constructor; exact Hv').
    constructor. constructor.
  - destruct (float64_nan bits); constructor. exact Hv'.
Qed.

(** The frame read off the row dicts in the store is the frame of the rows. *)
Lemma frame_of_rep (X : list nat) (h : Store.store)
    (dicts : list (list (string * Store.val))) (rows : list dict) :
  Forall2 (Store.rep_items X h) dicts rows ->
  Store.rep_frame h (Store.frame_of dicts) (pd_DataFrame rows).
Proof.
  intros Hrows. unfold Store.rep_frame, Store.frame_of, pd_DataFrame.
  cbn [Store.fcolumns Store.fvalues columns values].
  rewrite (frame_columns_rep X h dicts rows Hrows []).
  split; [reflexivity|].
  apply Forall2_fmap.
  eapply Forall2_impl; [exact Hrows|]. intros vrow row Hrow.
  cbv beta.
  induction (frame_columns rows []) as [|c cols IH]; cbn [map]; constructor.
  - rewrite (column_kinds_rep X h dicts rows c Hrows).
    apply (convert_rep X), (lookup_rep X h vrow row c Hrow).
  - exact IH.
Qed.

(** A builder that makes a new list, fills it in a loop over the records and
    hands it to [pd.DataFrame] agrees with the tree builder and keeps its
    input, when the loop appends the rows of the tree loop. *)
Lemma sheet_pure (body : Store.val -> Store.val -> Store.M unit)
    (tloop : list json -> result (list dict)) :
  (forall ld h vs js,
      Store.holds_rows ld h [] -> Forall2 (Store.rep [ld] h) vs js ->
      Store.appends ld h [] (Store.for_each vs (body (Store.VRef ld))) (tloop js)) ->
  Store.pure_builder
    (fun data => rows ← py_new_list;
                 Store.for_in data (body rows);; Store.pd_DataFrame rows)
    (fun js => rows ← tloop js; Ok (pd_DataFrame rows)).
Proof.
  intros Hloop h data js Hdata.
  destruct (rep_list_inv _ _ _ _ Hdata) as (l0 & vs & -> & [Hl0lt _] & Hl0 & Hvs).
  set (ld := length h). set (h1 := h ++ [Store.OList []]).
  assert (Hrows1 : Store.holds_rows ld h1 []).
  { exists []. split; [apply lookup_alloc|constructor]. }
  assert (Hvs1 : Forall2 (Store.rep [ld] h1) vs js).
  { eapply Forall2_impl; [exact Hvs|]. intros v j Hv.
    apply (rep_pure_ext _ h); [apply ext_alloc|].
    apply rep_fresh; [unfold ld; lia|exact Hv]. }
  specialize (Hloop ld h1 vs js Hrows1 Hvs1).
  assert (Hkeep : forall h2, Store.ext [ld] h1 h2 -> Store.unchanged h h2).
  { intros h2 [_ Hsame] l o Hl.
    assert (Hlt : (l < length h)%nat) by (eapply lookup_lt_Some, Hl).
    rewrite Hsame.
    - unfold h1. rewrite lookup_app_l; assumption.
    - unfold h1. rewrite length_app. lia.
    - intros Hin. apply list_elem_of_singleton in Hin. unfold ld in Hin. lia. }
  unfold Store.appends, Store.sim in Hloop.
  cbv beta iota delta [mbind Store.M_bind result_bind Store.for_in
                       py_new_list Store.store_value Store.alloc].
  fold ld. fold h1. unfold Store.iter.
  assert (Hl01 : h1 !! l0 = Some (Store.OList vs)).
  { unfold h1. rewrite lookup_app_l; assumption. }
  rewrite Hl01.
  destruct (Store.for_each vs (body (Store.VRef ld)) h1) as [[] h2|e h2|],
    (tloop js) as [rows|e']; try contradiction.
  - destruct Hloop as [Hext2 (refs & Hld2 & Hrefs)]. simpl in Hrefs.
    unfold Store.pd_DataFrame. rewrite Hld2.
    destruct (read_rows_rep _ _ _ _ Hrefs) as (dicts & -> & Hdicts).
    split; [apply Hkeep, Hext2|].
    split; [apply (rep_unchanged h), Hdata; apply Hkeep, Hext2|].
    apply (frame_of_rep [ld]), Hdicts.
  - destruct Hloop as [-> Hext2]. split; [reflexivity|].
    split; [apply Hkeep, Hext2|].
    apply (rep_unchanged h), Hdata. apply Hkeep, Hext2.
Qed.

Lemma breakdown_sheet_pure (field : string)
    (sdisplay : Store.val -> list (string * Store.M Store.val))
    (tdisplay : json -> list (string * result json)) :
  Store.display_sim sdisplay tdisplay ->
  Store.pure_builder (Store.breakdown_sheet field sdisplay)
    (fun js => rows ← breakdown_rows field tdisplay js; Ok (pd_DataFrame rows)).
Proof.
  intros Hdisp. unfold Store.breakdown_sheet, breakdown_rows.
  apply (sheet_pure
    (fun rows record =>
       user_info ← Store.dict_display (user_info_display record);
       totals ← nested_totals field record;
       Store.for_in totals (fun entry =>
         row ← Store.dict_copy user_info;
         upd ← Store.dict_display (sdisplay entry);
         Store.dict_update row upd;;
         Store.list_append rows row))).
  intros ld h vs js Hrows Hvs.
  apply for_each_appends; [|exact Hvs|exact Hrows].
  intros h' acc' v j _ Hacc' Hv.
  apply record_body_appends; assumption.
Qed.

Lemma main_sheet_pure :
  Store.pure_builder Store.create_main_metrics_sheet create_main_metrics_sheet.
Proof.
  unfold Store.create_main_metrics_sheet, create_main_metrics_sheet.
  intros h data js Hdata.
  rewrite for_append_as_extend.
  revert h data js Hdata.
  apply (sheet_pure
    (fun rows record =>
       main_row ← Store.dict_display (main_display record);
       Store.list_append rows main_row)).
  intros ld h vs js Hrows Hvs.
  apply for_each_appends; [|exact Hvs|exact Hrows].
  intros h' acc' v j _ Hacc' Hv.
  apply main_body_appends; assumption.
Qed.

(** C8.  Each of the six builders, run on a store of mutable objects,
    returns a frame that reads as the frame the tree builder computes from
    the trees of the records, or raises the same exception: the result is a
    function of the record list alone.  Every object the store held when the
    builder was called, the record list and each record with them, is
    unchanged when it returns or raises. *)
Theorem builders_are_pure :
  Store.pure_builder Store.create_main_metrics_sheet create_main_metrics_sheet
  /\ Store.pure_builder Store.create_ide_totals_sheet create_ide_totals_sheet
  /\ Store.pure_builder Store.create_feature_totals_sheet
       create_feature_totals_sheet
  /\ Store.pure_builder Store.create_language_feature_sheet
       create_language_feature_sheet
  /\ Store.pure_builder Store.create_language_model_sheet
       create_language_model_sheet
  /\ Store.pure_builder Store.create_model_feature_sheet
       create_model_feature_sheet.
Proof.
  split; [apply main_sheet_pure|].
  split; [apply breakdown_sheet_pure, ide_display_sim|].
  split; [apply breakdown_sheet_pure, feature_display_sim|].
  split; [apply breakdown_sheet_pure, lang_feature_display_sim|].
  split; [apply breakdown_sheet_pure, lang_model_display_sim|].
  apply breakdown_sheet_pure, model_feature_display_sim.
Qed.

(** Every tree has its objects: [alloc_tree] makes them in any store, above
    the objects already there. *)
Lemma alloc_tree_rep (j : json) :
  forall h, exists v h',
    Store.alloc_tree j h = Store.Ret v h'
    /\ Store.ext [] h h' /\ Store.rep [] h' v j.
Proof.
  induction j as [| | | | |xs IH|kvs IH] using json_ind'; intros h;
    try (eexists; exists h; split; [reflexivity|split; [apply ext_refl|constructor]]).
  - assert (Hparts : forall h, exists vs h',
              (fix parts (js : list json) : Store.M (list Store.val) :=
                 match js with
                 | [] => mret []
                 | j :: js' =>
                     v ← Store.alloc_tree j; vs ← parts js'; mret (v :: vs)
                 end) xs h = Store.Ret vs h'
              /\ Store.ext [] h h' /\ Forall2 (Store.rep [] h') vs xs).
    { clear h. induction xs as [|x xs IHxs]; intros h.
      - exists [], h. split; [reflexivity|split; [apply ext_refl|constructor]].
      - apply Forall_cons in IH as [Hx Hxs].
        destruct (Hx h) as (v & h1 & Hv & Hext1 & Hrep1).
        destruct (IHxs Hxs h1) as (vs & h2 & Hvs & Hext2 & Hrep2).
        exists (v :: vs), h2.
        cbv beta delta [mbind Store.M_bind]. rewrite Hv.
        cbv beta delta [mbind Store.M_bind] in Hvs. rewrite Hvs.
        split; [reflexivity|]. split; [eapply ext_trans; eassumption|].
        constructor; [|exact Hrep2]. eapply rep_pure_ext; eassumption. }
    destruct (Hparts h) as (vs & h1 & Hvs & Hext1 & Hrep1).
    exists (Store.VRef (length h1)), (h1 ++ [Store.OList vs]).
    simpl. cbv beta delta [mbind Store.M_bind] in *. rewrite Hvs.
    split; [reflexivity|].
    split; [eapply ext_trans; [exact Hext1|apply ext_alloc]|].
    apply (Store.repr_list _ _ (length h1) vs).
    + apply away_alloc. constructor.
    + apply lookup_alloc.
    + eapply Forall2_impl; [exact Hrep1|]. intros v j.
      apply rep_pure_ext, ext_alloc.
  - assert (Hparts : forall h, exists vkvs h',
              (fix parts (kvs : dict) : Store.M (list (string * Store.val)) :=
                 match kvs with
                 | [] => mret []
                 | (k, j) :: kvs' =>
                     v ← Store.alloc_tree j; vkvs ← parts kvs';
                     mret ((k, v) :: vkvs)
                 end) kvs h = Store.Ret vkvs h'
              /\ Store.ext [] h h' /\ Store.rep_items [] h' vkvs kvs).
    { clear h. induction kvs as [|[k x] kvs IHkvs]; intros h.
      - exists [], h. split; [reflexivity|split; [apply ext_refl|constructor]].
      - apply Forall_cons in IH as [Hx Hxs]. simpl in Hx.
        destruct (Hx h) as (v & h1 & Hv & Hext1 & Hrep1).
        destruct (IHkvs Hxs h1) as (vkvs & h2 & Hvs & Hext2 & Hrep2).
        exists ((k, v) :: vkvs), h2.
        cbv beta delta [mbind Store.M_bind]. rewrite Hv.
        cbv beta delta [mbind Store.M_bind] in Hvs. rewrite Hvs.
        split; [reflexivity|]. split; [eapply ext_trans; eassumption|].
        constructor; [|exact Hrep2].
        split; [reflexivity|]. simpl. eapply rep_pure_ext; eassumption. }
    destruct (Hparts h) as (vkvs & h1 & Hvs & Hext1 & Hrep1).
    exists (Store.VRef (length h1)), (h1 ++ [Store.ODict vkvs]).
    simpl. cbv beta delta [mbind Store.M_bind] in *. rewrite Hvs.
    split; [reflexivity|].
    split; [eapply ext_trans; [exact Hext1|apply ext_alloc]|].
    apply (rep_dict_intro [] _ (length h1) vkvs).
    + apply away_alloc. constructor.
    + apply lookup_alloc.
    + apply (rep_items_ext [] [] h1); [auto|apply ext_alloc|exact Hrep1].
Qed.

(** ** The theorems at the examples *)



Lemma loader_single_document_witness :
  example_files "alice.json" = Content example_text
  /\ Decoder.loads (strip example_text) = Ok (JArr example_data)
  /\ load_json_data example_files Decoder.loads "alice.json" = example_data.
Proof.
  split; [reflexivity|]. split; [reflexivity|].
  apply (proj1 (loader_single_document example_files Decoder.loads "alice.json"
                  example_text (JArr example_data) eq_refl (or_introl eq_refl))).
  reflexivity.
Defined.

(** The reference decoder raises nothing but [JSONDecodeError] on the lines
    of the JSONL example. *)
Lemma example_jsonl_rejects_only :
  rejects_only Decoder.loads (split_lines (strip example_jsonl)).
Proof. apply rejects_only_decide. vm_compute. reflexivity. Qed.

Lemma loader_jsonl_witness :
  (example_files "week.jsonl" = Content example_jsonl
   /\ Decoder.loads (strip example_jsonl) = Raise JSONDecodeError
   /\ rejects_only Decoder.loads (split_lines (strip example_jsonl))
   /\ load_json_data example_files Decoder.loads "week.jsonl"
      = [ JObj [("user_login", JStr "alice")]; JObj [("user_login", JStr "bob")] ])
  /\ (Decoder.loads example_long_integer = Raise ValueError
      /\ load_json_data example_stray_files Decoder.loads "long.jsonl" = []).
Proof.
  split.
  - split; [reflexivity|]. split; [reflexivity|].
    split; [exact example_jsonl_rejects_only|].
    destruct (proj1 (loader_jsonl example_files Decoder.loads "week.jsonl"
                       example_jsonl eq_refl eq_refl) example_jsonl_rejects_only)
      as (Hdata & _).
    rewrite Hdata. reflexivity.
  - split; [vm_compute; reflexivity|].
    apply (proj2 (loader_jsonl example_stray_files Decoder.loads "long.jsonl"
                    (String.concat line_feed
                       [ Decoder.dq "{'user_login':'alice'}"; example_long_integer ])
                    eq_refl ltac:(vm_compute; reflexivity))
             1%nat example_long_integer ValueError);
      [vm_compute; reflexivity..|discriminate].
Defined.

Lemma loader_failures_abort_witness :
  (example_files "missing.json" = FileNotFound
   /\ load_json_data example_files Decoder.loads "missing.json" = []
   /\ convert_json_to_xlsx example_files Decoder.loads example_default_output
        example_saves "missing.json" None = Aborted)
  /\ (example_files "blank.json" = Content example_blank
      /\ all_space example_blank = true
      /\ is_ok (Decoder.loads EmptyString) = false
      /\ load_json_data example_files Decoder.loads "blank.json" = []
      /\ convert_json_to_xlsx example_files Decoder.loads example_default_output
           example_saves "blank.json" (Some "out.xlsx") = Aborted).
Proof.
  split.
  - split; [reflexivity|].
    apply (proj1 (loader_failures_abort example_files Decoder.loads
                    example_default_output example_saves "missing.json" None)).
    reflexivity.
  - do 3 (split; [reflexivity|]).
    apply (proj1 (proj2 (proj2 (proj2
             (loader_failures_abort example_files Decoder.loads
                example_default_output example_saves "blank.json"
                (Some "out.xlsx")))))
             example_blank); reflexivity.
Defined.

Lemma writer_tabs_witness :
  load_json_data example_files Decoder.loads "alice.json" = example_data
  /\ exists book,
       convert_json_to_xlsx example_files Decoder.loads example_default_output
         example_saves "alice.json" None
       = Written "alice.json.xlsx" book
       /\ map tab_name book = ["Main_Metrics"; "IDE_Totals"].
Proof.
  split; [reflexivity|].
  destruct (writer_tabs_are_nonempty_sheets example_files Decoder.loads
              example_default_output example_saves "alice.json" None example_data
              (ok_or (pd_DataFrame []) (create_main_metrics_sheet example_data))
              (ok_or (pd_DataFrame []) (create_ide_totals_sheet example_data))
              (pd_DataFrame []) (pd_DataFrame []) (pd_DataFrame []) (pd_DataFrame [])
              eq_refl ltac:(discriminate) eq_refl eq_refl eq_refl eq_refl eq_refl
              eq_refl eq_refl) as (Hrun & _).
  eexists. split; [exact Hrun|reflexivity].
Defined.

Lemma builders_are_pure_witness :
  Store.rep [] Store.example_store (Store.VRef 3) (JArr example_data)
  /\ match Store.create_ide_totals_sheet (Store.VRef 3) Store.example_store,
           create_ide_totals_sheet example_data with
     | Store.Ret f h', Ok df =>
         Store.unchanged Store.example_store h'
         /\ Store.rep [] h' (Store.VRef 3) (JArr example_data)
         /\ Store.rep_frame h' f df
     | Store.Exn e h', Raise e' =>
         e = e' /\ Store.unchanged Store.example_store h'
         /\ Store.rep [] h' (Store.VRef 3) (JArr example_data)
     | _, _ => False
     end.
Proof.
  assert (Hrep : Store.rep [] Store.example_store (Store.VRef 3) (JArr example_data)).
  { destruct (alloc_tree_rep (JArr example_data) []) as (v & h' & Hrun & _ & Hrep).
    vm_compute in Hrun. inversion Hrun; subst. exact Hrep. }
  split; [exact Hrep|].
  apply (proj1 (proj2 builders_are_pure) Store.example_store (Store.VRef 3)
           example_data Hrep).
Defined.




(** ** What the builders do on any input *)

Lemma for_append_Ok {A B} (body : A -> result B) (xs : list A) (rs : list B) :
  for_append body xs = Ok rs -> Forall2 (fun x r => body x = Ok r) xs rs.
Proof.
  revert rs. induction xs as [|x xs IH]; intros rs H; simpl in H.
  - inversion H. constructor.
  - destruct (body x) as [r|] eqn:Hx; simpl in H; [|discriminate].
    destruct (for_append body xs) as [rs'|] eqn:Hxs; simpl in H; [|discriminate].
    inversion H; subst. constructor; [exact Hx|apply IH; reflexivity].
Qed.

Lemma for_extend_Ok {A B} (body : A -> result (list B)) (xs : list A)
    (rows : list B) :
  for_extend body xs = Ok rows ->
  exists rss, Forall2 (fun x rs => body x = Ok rs) xs rss /\ rows = concat rss.
Proof.
  revert rows. induction xs as [|x xs IH]; intros rows H; simpl in H.
  - inversion H. exists []. split; [constructor|reflexivity].
  - destruct (body x) as [r|] eqn:Hx; simpl in H; [|discriminate].
    destruct (for_extend body xs) as [rs'|] eqn:Hxs; simpl in H; [|discriminate].
    inversion H; subst. destruct (IH rs' eq_refl) as (rss & Hall & ->).
    exists (r :: rss). split; [constructor; assumption|reflexivity].
Qed.

Lemma chars_objects (s : string) :
  forallb is_object (chars s) = true -> s = EmptyString.
Proof. destruct s; [reflexivity|discriminate]. Qed.

(** The entries a loop that got through has visited are the nested list. *)
Lemma iterated_nested_list (field : string) (kvs : dict) (es : list json) :
  tree_iter (dict_get kvs field (JArr [])) = Ok es ->
  forallb is_object es = true ->
  es = nested_list field (JObj kvs).
Proof.
  unfold dict_get, nested_list.
  destruct (dict_lookup kvs field) as [[| | | |s|xs|kvs']|]; simpl;
    intros H Hobj; inversion H; subst; try reflexivity.
  - destruct s; [reflexivity|discriminate].
  - destruct kvs'; [reflexivity|discriminate].
Qed.

(** When the loop nest of a breakdown builder returns, for a display that
    accepts dicts only, the records are dicts, the display accepted every
    entry of the nested lists, and the rows are those of the (record, entry)
    pairs. *)
Lemma breakdown_rows_returns (field : string)
    (display : json -> list (string * result json)) (data : list json)
    (rows : list dict) :
  (forall e, is_ok (dict_literal (display e)) = true -> is_object e = true) ->
  breakdown_rows field display data = Ok rows ->
  rows = map (breakdown_row display) (entries field data)
  /\ forallb is_object data = true
  /\ Forall (fun re => is_ok (dict_literal (display (snd re))) = true)
       (entries field data).
Proof.
  intros Hdisp. unfold breakdown_rows, entries.
  revert rows. induction data as [|record data IH]; intros rows H; simpl in H.
  - inversion H. repeat split. constructor.
  - match type of H with (?b ≫= _) = _ => destruct b as [r|] eqn:Hr end;
      simpl in H; [|discriminate].
    match type of H with (?b ≫= _) = _ => destruct b as [rs|] eqn:Hrs end;
      simpl in H; [|discriminate].
    inversion H; subst. destruct (IH rs eq_refl) as (-> & Hobj & Hok).
    destruct record as [| | | | | |kvs]; try discriminate.
    rewrite user_info_of_obj in Hr. simpl in Hr.
    destruct (tree_iter (dict_get kvs field (JArr []))) as [es|] eqn:Hes;
      simpl in Hr; [|discriminate].
    apply for_append_Ok in Hr.
    assert (Hall : Forall (fun e => is_ok (dict_literal (display e)) = true) es
                   /\ r = map (fun e => breakdown_row display (JObj kvs, e)) es).
    { clear -Hr. induction Hr as [|e row es r He _ [IH1 IH2]]; simpl.
      - split; [constructor|reflexivity].
      - destruct (dict_literal (display e)) as [upd|] eqn:Hupd; simpl in He;
          [|discriminate].
        inversion He; subst.
        split; [constructor; [rewrite Hupd; reflexivity|exact IH1]|].
        unfold breakdown_row. simpl. rewrite Hupd. reflexivity. }
    destruct Hall as [Hes_ok ->].
    assert (Hes_obj : forallb is_object es = true).
    { apply forallb_forall. intros e He. apply Hdisp.
      rewrite Forall_forall in Hes_ok. apply Hes_ok, list_elem_of_In, He. }
    cbn [flat_map forallb is_object andb].
    rewrite <- (iterated_nested_list field kvs es Hes Hes_obj).
    rewrite map_app, map_map. split; [reflexivity|].
    split; [exact Hobj|].
    apply Forall_app. split; [|exact Hok].
    apply Forall_fmap. eapply Forall_impl; [exact Hes_ok|]. auto.
Qed.

Lemma plain_display_dicts_only (display : json -> list (string * result json)) :
  (forall e, is_ok (dict_literal (display e)) = is_object e) ->
  forall e, is_ok (dict_literal (display e)) = true -> is_object e = true.
Proof. intros H e. rewrite H. auto. Qed.

(** The per-IDE display returns exactly on the entries whose version fields
    are absent or dicts. *)
Lemma is_ok_ide_display (e : json) :
  is_ok (dict_literal (ide_display e)) = ide_entry_ready e.
Proof.
  destruct e as [| | | | | |kvs]; try reflexivity.
  unfold ide_entry_ready, absent_or, ide_display, get_get, dict_literal.
  simpl. unfold dict_get.
  destruct (dict_lookup kvs "last_known_plugin_version") as [[| | | | | |o1]|];
    destruct (dict_lookup kvs "last_known_ide_version") as [[| | | | | |o2]|];
    reflexivity.
Qed.

Lemma ide_display_dicts_only (e : json) :
  is_ok (dict_literal (ide_display e)) = true -> is_object e = true.
Proof.
  rewrite is_ok_ide_display. unfold ide_entry_ready, absent_or.
  destruct e; try discriminate. reflexivity.
Qed.

Lemma returned_rows_flatten (field : string)
    (display : json -> list (string * result json)) (K : list string)
    (data : list json) :
  (forall e, is_ok (dict_literal (display e)) = true -> is_object e = true) ->
  (forall e upd, dict_literal (display e) = Ok upd -> map fst upd = K) ->
  "User Login" ∉ K -> "Day" ∉ K ->
  is_ok (rows ← breakdown_rows field display data; Ok (pd_DataFrame rows)) = true ->
  flattens (fun data => rows ← breakdown_rows field display data;
                        Ok (pd_DataFrame rows)) field data.
Proof.
  intros Hdicts Hkeys Hlogin Hday Hok.
  destruct (breakdown_rows field display data) as [rows|] eqn:Hrows;
    [|discriminate].
  destruct (breakdown_rows_returns field display data rows Hdicts Hrows)
    as (-> & _ & _).
  apply (rows_flatten field display K); assumption.
Qed.

(** Whenever a breakdown builder returns, on any list of values the loader
    can hand it, its frame has one row per entry of the nested lists, the
    sum of their lengths in all, and row [i] holds what pandas holds for the
    user login and the day of the record of entry [i]: the login and the day
    themselves when they are strings.  A nested field bound to an empty dict
    or an empty string counts as no entries. *)
Theorem returning_builders_flatten (data : list json) :
  (is_ok (create_ide_totals_sheet data) = true ->
     flattens create_ide_totals_sheet "totals_by_ide" data)
  /\ (is_ok (create_feature_totals_sheet data) = true ->
        flattens create_feature_totals_sheet "totals_by_feature" data)
  /\ (is_ok (create_language_feature_sheet data) = true ->
        flattens create_language_feature_sheet "totals_by_language_feature" data)
  /\ (is_ok (create_language_model_sheet data) = true ->
        flattens create_language_model_sheet "totals_by_language_model" data)
  /\ (is_ok (create_model_feature_sheet data) = true ->
        flattens create_model_feature_sheet "totals_by_model_feature" data).
Proof.
  split; [|split; [|split; [|split]]].
  - apply (returned_rows_flatten _ ide_display ide_columns);
      [apply ide_display_dicts_only|apply ide_display_columns
      |all_different|all_different].
  - apply (returned_rows_flatten _ feature_display feature_columns);
      [apply plain_display_dicts_only, is_ok_feature_display
      |apply feature_display_columns|all_different|all_different].
  - apply (returned_rows_flatten _ lang_feature_display lang_feature_columns);
      [apply plain_display_dicts_only, is_ok_lang_feature_display
      |apply lang_feature_display_columns|all_different|all_different].
  - apply (returned_rows_flatten _ lang_model_display lang_model_columns);
      [apply plain_display_dicts_only, is_ok_lang_model_display
      |apply lang_model_display_columns|all_different|all_different].
  - apply (returned_rows_flatten _ model_feature_display model_feature_columns);
      [apply plain_display_dicts_only, is_ok_model_feature_display
      |apply model_feature_display_columns|all_different|all_different].
Qed.

Lemma returning_builders_flatten_witness :
  forallb record_ready example_odd = false
  /\ is_ok (create_feature_totals_sheet example_odd) = true
  /\ exists df,
       create_feature_totals_sheet example_odd = Ok df
       /\ df_len df = 1%nat
       /\ cell df 0 "User Login" = Some (JStr "carol").
Proof.
  split; [reflexivity|]. split; [reflexivity|].
  destruct (proj1 (proj2 (returning_builders_flatten example_odd)) eq_refl)
    as (df & Hdf & Hlen & _ & Hrows).
  exists df. split; [exact Hdf|]. split; [exact Hlen|].
  destruct (Hrows 0%nat _ _ eq_refl) as (_ & _ & Hlogin & _).
  exact (Hlogin eq_refl).
Defined.




(** ** The headers and the missing cells of the frames *)

Lemma pd_DataFrame_rectangular (rows : list dict) : rectangular (pd_DataFrame rows).
Proof.
  unfold rectangular, pd_DataFrame. cbn [columns values].
  apply Forall_fmap, Forall_forall. intros row _. apply length_map.
Qed.

Lemma uniform_rows_columns (rows : list dict) (K : list string) :
  NoDup K -> Forall (fun row => map fst row = K) rows ->
  rows <> [] -> columns (pd_DataFrame rows) = K.
Proof.
  intros Hnd Hrows Hne. destruct rows as [|row rows]; [congruence|].
  apply columns_uniform; assumption.
Qed.

Lemma breakdown_row_keys (display : json -> list (string * result json))
    (K : list string) (re : json * json) :
  (forall e upd, dict_literal (display e) = Ok upd -> map fst upd = K) ->
  NoDup ("User Login" :: "Day" :: K) ->
  is_ok (dict_literal (display (snd re))) = true ->
  map fst (breakdown_row display re) = "User Login" :: "Day" :: K.
Proof.
  intros Hkeys Hnd Hok. unfold breakdown_row.
  destruct (dict_literal (display (snd re))) as [upd|] eqn:Hupd; [|discriminate].
  rewrite map_fst_dict_update, map_fst_project. simpl ok_or.
  rewrite (Hkeys _ _ Hupd).
  exact (add_columns_fresh K ["User Login"; "Day"] Hnd).
Qed.

Lemma returned_rows_uniform (field : string)
    (display : json -> list (string * result json)) (K : list string)
    (data : list json) (rows : list dict) :
  (forall e, is_ok (dict_literal (display e)) = true -> is_object e = true) ->
  (forall e upd, dict_literal (display e) = Ok upd -> map fst upd = K) ->
  NoDup ("User Login" :: "Day" :: K) ->
  breakdown_rows field display data = Ok rows ->
  Forall (fun row => map fst row = "User Login" :: "Day" :: K) rows.
Proof.
  intros Hdicts Hkeys Hnd Hrows.
  destruct (breakdown_rows_returns field display data rows Hdicts Hrows)
    as (-> & _ & Hoks).
  apply Forall_fmap. eapply Forall_impl; [exact Hoks|].
  intros re Hre. simpl. apply (breakdown_row_keys display K); assumption.
Qed.

Lemma carry_out_of_display (K : list string) :
  NoDup ("User Login" :: "Day" :: K) -> ("User Login" ∉ K) /\ ("Day" ∉ K).
Proof.
  intros Hnd. apply NoDup_cons in Hnd as [Hlogin Hnd].
  apply NoDup_cons in Hnd as [Hday _]. split; [|exact Hday].
  intros Hin. apply Hlogin. right. exact Hin.
Qed.

Lemma returned_rows_shape (field : string)
    (display : json -> list (string * result json)) (K : list string)
    (data : list json) (df : DataFrame) :
  (forall e, is_ok (dict_literal (display e)) = true -> is_object e = true) ->
  (forall e upd, dict_literal (display e) = Ok upd -> map fst upd = K) ->
  NoDup ("User Login" :: "Day" :: K) ->
  (rows ← breakdown_rows field display data; Ok (pd_DataFrame rows)) = Ok df ->
  rectangular df
  /\ (df_len df <> 0%nat -> columns df = "User Login" :: "Day" :: K)
  /\ carry_gaps df field data.
Proof.
  intros Hdicts Hkeys Hnd Hdf.
  destruct (carry_out_of_display K Hnd) as [Hlogin Hday].
  destruct (returned_rows_flatten field display K data Hdicts Hkeys Hlogin Hday)
    as (df' & Hdf' & _ & _ & Hcarry).
  { rewrite Hdf. reflexivity. }
  assert (df' = df) as -> by congruence. clear Hdf'.
  destruct (breakdown_rows field display data) as [rows|] eqn:Hrows;
    [|discriminate].
  simpl in Hdf. injection Hdf as <-.
  split; [apply pd_DataFrame_rectangular|]. split.
  - intros Hlen.
    apply (uniform_rows_columns rows ("User Login" :: "Day" :: K) Hnd).
    + exact (returned_rows_uniform _ _ _ _ _ Hdicts Hkeys Hnd Hrows).
    + intros ->. apply Hlen. reflexivity.
  - intros i record e Hi.
    destruct (Hcarry i record e Hi) as (Hl & Hd & _).
    rewrite Hl, Hd. split; apply held_None.
Qed.

Lemma main_frame_shape (data : list json) (df : DataFrame) :
  create_main_metrics_sheet data = Ok df ->
  rectangular df
  /\ df_len df = length data
  /\ (data <> [] -> columns df = map fst main_fields)
  /\ (forall i record c key default,
        data !! i = Some record -> (c, (key, default)) ∈ main_fields ->
        (cell df i c = None <-> isna (field_or record key default) = true)).
Proof.
  intros Hdf.
  assert (Hobj : forallb is_object data = true).
  { rewrite <- is_ok_create_main_metrics_sheet, Hdf. reflexivity. }
  rewrite (create_main_metrics_sheet_objects data Hobj) in Hdf.
  assert (Heq : df = pd_DataFrame (map (fun record =>
                  project main_fields
                    (match record with JObj kvs => kvs | _ => [] end)) data))
    by congruence.
  subst df. clear Hdf.
  split; [apply pd_DataFrame_rectangular|].
  split; [rewrite df_len_pd; apply length_map|]. split.
  - apply main_frame_columns.
  - intros i record c key default Hi Hin.
    rewrite (main_frame_cell data i record c key default Hobj Hi Hin).
    apply held_None.
Qed.

Ltac no_duplicates := apply (bool_decide_unpack _); vm_compute; reflexivity.

(** Whatever the records hold, a frame a builder returns has every row as wide
    as its header.  The main frame of a non-empty record list has the fifteen
    main columns in the order of the dict display, and a breakdown frame with
    a row has the user login and the day followed by the columns of its
    display.  No cell is missing for want of a key: a cell of the main frame,
    and a carry-over cell of a breakdown frame, is missing exactly where the
    record holds a JSON null or a NaN, which pandas keeps as a missing
    value. *)
Theorem returned_frames_shape (data : list json) :
  (forall df, create_main_metrics_sheet data = Ok df ->
     rectangular df
     /\ (data <> [] -> columns df = map fst main_fields)
     /\ (forall i record c key default,
           data !! i = Some record -> (c, (key, default)) ∈ main_fields ->
           (cell df i c = None <-> isna (field_or record key default) = true)))
  /\ (forall df, create_ide_totals_sheet data = Ok df ->
        rectangular df
        /\ (df_len df <> 0%nat -> columns df = "User Login" :: "Day" :: ide_columns)
        /\ carry_gaps df "totals_by_ide" data)
  /\ (forall df, create_feature_totals_sheet data = Ok df ->
        rectangular df
        /\ (df_len df <> 0%nat
            -> columns df = "User Login" :: "Day" :: feature_columns)
        /\ carry_gaps df "totals_by_feature" data)
  /\ (forall df, create_language_feature_sheet data = Ok df ->
        rectangular df
        /\ (df_len df <> 0%nat
            -> columns df = "User Login" :: "Day" :: lang_feature_columns)
        /\ carry_gaps df "totals_by_language_feature" data)
  /\ (forall df, create_language_model_sheet data = Ok df ->
        rectangular df
        /\ (df_len df <> 0%nat
            -> columns df = "User Login" :: "Day" :: lang_model_columns)
        /\ carry_gaps df "totals_by_language_model" data)
  /\ (forall df, create_model_feature_sheet data = Ok df ->
        rectangular df
        /\ (df_len df <> 0%nat
            -> columns df = "User Login" :: "Day" :: model_feature_columns)
        /\ carry_gaps df "totals_by_model_feature" data).
Proof.
  split; [|split; [|split; [|split; [|split]]]].
  - intros df Hdf.
    destruct (main_frame_shape data df Hdf) as (Hr & _ & Hcols & Hgaps).
    split; [exact Hr|]. split; assumption.
  - intros df. apply (returned_rows_shape _ ide_display ide_columns);
      [apply ide_display_dicts_only|apply ide_display_columns|no_duplicates].
  - intros df. apply (returned_rows_shape _ feature_display feature_columns);
      [apply plain_display_dicts_only, is_ok_feature_display
      |apply feature_display_columns|no_duplicates].
  - intros df.
    apply (returned_rows_shape _ lang_feature_display lang_feature_columns);
      [apply plain_display_dicts_only, is_ok_lang_feature_display
      |apply lang_feature_display_columns|no_duplicates].
  - intros df.
    apply (returned_rows_shape _ lang_model_display lang_model_columns);
      [apply plain_display_dicts_only, is_ok_lang_model_display
      |apply lang_model_display_columns|no_duplicates].
  - intros df.
    apply (returned_rows_shape _ model_feature_display model_feature_columns);
      [apply plain_display_dicts_only, is_ok_model_feature_display
      |apply model_feature_display_columns|no_duplicates].
Qed.

(** ** The breakdown sheets against the main sheet *)

Lemma returned_rows_join (field : string)
    (display : json -> list (string * result json)) (K : list string)
    (data : list json) (df : DataFrame) :
  (forall e, is_ok (dict_literal (display e)) = true -> is_object e = true) ->
  (forall e upd, dict_literal (display e) = Ok upd -> map fst upd = K) ->
  "User Login" ∉ K -> "Day" ∉ K ->
  forallb keyed data = true ->
  (rows ← breakdown_rows field display data; Ok (pd_DataFrame rows)) = Ok df ->
  joins (pd_DataFrame (map (fun record =>
           project main_fields (match record with JObj kvs => kvs | _ => [] end))
         data)) df.
Proof.
  intros Hdicts Hkeys Hlogin Hday Hkeyed Hdf.
  destruct (breakdown_rows field display data) as [rows|] eqn:Hrows;
    [|discriminate].
  assert (df = pd_DataFrame rows) as -> by (simpl in Hdf; congruence).
  clear Hdf.
  destruct (breakdown_rows_returns field display data rows Hdicts Hrows)
    as (-> & Hobj & _).
  intros i Hi. rewrite df_len_pd, length_map in Hi.
  destruct (lookup_lt_is_Some_2 _ _ Hi) as [[record e] Hre].
  destruct (entries_lookup _ _ _ _ _ Hre) as [Hrec _].
  apply list_elem_of_lookup in Hrec as [k Hk].
  pose proof (forallb_lookup _ _ _ _ Hkeyed Hk) as Hkey.
  unfold keyed in Hkey. apply andb_true_iff in Hkey as [Hl Hd].
  exists k, (field_or record "user_login" (JStr "")),
    (field_or record "day" (JStr "")).
  split; [|split; [|split; [|split]]].
  - rewrite df_len_pd, length_map. exact (lookup_lt_Some _ _ _ Hk).
  - rewrite (breakdown_frame_carry display K _ i record e "User Login"
               "user_login" (JStr "") Hkeys Hlogin);
      [apply held_str, Hl|left|apply entries_objects|exact Hre].
  - rewrite (main_frame_cell data k record "User Login" "user_login" (JStr "")
               Hobj Hk); [apply held_str, Hl|]. do 5 right. left.
  - rewrite (breakdown_frame_carry display K _ i record e "Day" "day" (JStr "")
               Hkeys Hday);
      [apply held_str, Hd|right; left|apply entries_objects|exact Hre].
  - rewrite (main_frame_cell data k record "Day" "day" (JStr "") Hobj Hk);
      [apply held_str, Hd|]. do 2 right. left.
Qed.

(** Every row of a breakdown sheet can be looked up in the main sheet by its
    two carry-over columns, when the user login and the day of every record
    are strings: when the main builder and a breakdown builder both return,
    each row of the breakdown frame has the user login and the day of some
    row of the main frame.  (A login or day that is a number can be stored
    as a float in one sheet and as an integer in the other.) *)
Theorem breakdown_rows_join_main (data : list json) (main : DataFrame) :
  create_main_metrics_sheet data = Ok main ->
  forallb keyed data = true ->
  (forall df, create_ide_totals_sheet data = Ok df -> joins main df)
  /\ (forall df, create_feature_totals_sheet data = Ok df -> joins main df)
  /\ (forall df, create_language_feature_sheet data = Ok df -> joins main df)
  /\ (forall df, create_language_model_sheet data = Ok df -> joins main df)
  /\ (forall df, create_model_feature_sheet data = Ok df -> joins main df).
Proof.
  intros Hmain Hkeyed.
  assert (Hobj : forallb is_object data = true).
  { rewrite <- is_ok_create_main_metrics_sheet, Hmain. reflexivity. }
  rewrite (create_main_metrics_sheet_objects data Hobj) in Hmain.
  assert (main = pd_DataFrame (map (fun record =>
                   project main_fields
                     (match record with JObj kvs => kvs | _ => [] end)) data))
    as -> by congruence.
  clear Hmain.
  split; [|split; [|split; [|split]]]; intros df.
  - apply (returned_rows_join _ ide_display ide_columns);
      [apply ide_display_dicts_only|apply ide_display_columns
      |all_different|all_different|exact Hkeyed].
  - apply (returned_rows_join _ feature_display feature_columns);
      [apply plain_display_dicts_only, is_ok_feature_display
      |apply feature_display_columns|all_different|all_different|exact Hkeyed].
  - apply (returned_rows_join _ lang_feature_display lang_feature_columns);
      [apply plain_display_dicts_only, is_ok_lang_feature_display
      |apply lang_feature_display_columns|all_different|all_different
      |exact Hkeyed].
  - apply (returned_rows_join _ lang_model_display lang_model_columns);
      [apply plain_display_dicts_only, is_ok_lang_model_display
      |apply lang_model_display_columns|all_different|all_different
      |exact Hkeyed].
  - apply (returned_rows_join _ model_feature_display model_feature_columns);
      [apply plain_display_dicts_only, is_ok_model_feature_display
      |apply model_feature_display_columns|all_different|all_different
      |exact Hkeyed].
Qed.

(** ** Exceptions that leave the conversion *)

Lemma for_append_main_row_raises (data : list json) :
  forallb is_object data = false ->
  for_append main_row data = Raise AttributeError.
Proof.
  induction data as [|record data IH]; simpl; [discriminate|].
  destruct (is_object record) eqn:Hrec; simpl.
  - intros Hrest. rewrite (IH Hrest).
    destruct record; try discriminate. rewrite main_row_obj. reflexivity.
  - intros _. rewrite (main_row_not_obj record Hrec). reflexivity.
Qed.

Lemma build_sheets_raises (data : list json) :
  forallb is_object data = false -> build_sheets data = Raise AttributeError.
Proof.
  intros H. unfold build_sheets, create_main_metrics_sheet.
  rewrite (for_append_main_row_raises data H). reflexivity.
Qed.

Lemma forallb_false_not_nil {A} (p : A -> bool) (xs : list A) :
  forallb p xs = false -> xs <> [].
Proof. intros H ->. discriminate. Qed.

Lemma forallb_elem_false {A} (p : A -> bool) (xs : list A) (x : A) :
  x ∈ xs -> p x = false -> forallb p xs = false.
Proof.
  intros Hin Hx. destruct (forallb p xs) eqn:Hall; [|reflexivity].
  rewrite forallb_forall in Hall.
  rewrite (Hall x) in Hx; [discriminate|]. apply list_elem_of_In, Hin.
Qed.

Section ConversionFacts.

Variable read_text : string -> read_result.
Variable json_loads : string -> result json.
Variable default_output_path : string -> string.
Variable excel_saves : string -> workbook -> bool.

Lemma convert_raises (path : string) (out : option string) (e : exn) :
  build_sheets (load_json_data read_text json_loads path) = Raise e ->
  load_json_data read_text json_loads path <> [] ->
  convert_json_to_xlsx read_text json_loads default_output_path excel_saves
    path out = Uncaught e.
Proof.
  intros Hsheets Hdata. unfold convert_json_to_xlsx.
  destruct (load_json_data read_text json_loads path) as [|record data];
    [contradiction Hdata; reflexivity|].
  rewrite Hsheets. reflexivity.
Qed.

Lemma convert_non_object (path : string) (out : option string) :
  forallb is_object (load_json_data read_text json_loads path) = false ->
  convert_json_to_xlsx read_text json_loads default_output_path excel_saves
    path out = Uncaught AttributeError.
Proof.
  intros H. apply convert_raises.
  - apply build_sheets_raises, H.
  - exact (forallb_false_not_nil _ _ H).
Qed.

End ConversionFacts.

(** An [AttributeError] leaves the conversion, past both of its [try]
    blocks, whenever the loader returns a value that is not a dict: the
    sheets are built outside the [try] around the writer, and the main
    builder calls [get] on every record.  That is so of a file holding one
    document that is neither an array nor an object, a number or a string
    say, which the loader wraps in a list; and of a JSONL file with a line
    that decodes to anything but an object, when the decoder raises nothing
    but [JSONDecodeError] on its lines. *)
Theorem non_object_record_raises (read_text : string -> read_result)
    (json_loads : string -> result json)
    (default_output_path : string -> string)
    (excel_saves : string -> workbook -> bool)
    (path : string) (out : option string) :
  let data := load_json_data read_text json_loads path in
  let run := convert_json_to_xlsx read_text json_loads default_output_path
               excel_saves path out in
  (forallb is_object data = false -> run = Uncaught AttributeError)
  /\ (forall raw v,
        read_text path = Content raw ->
        json_loads (strip raw) = Ok v ->
        is_object v = false -> (forall xs, v <> JArr xs) ->
        run = Uncaught AttributeError)
  /\ (forall raw i line v,
        read_text path = Content raw ->
        json_loads (strip raw) = Raise JSONDecodeError ->
        rejects_only json_loads (split_lines (strip raw)) ->
        split_lines (strip raw) !! i = Some line ->
        all_space line = false ->
        json_loads line = Ok v -> is_object v = false ->
        run = Uncaught AttributeError).
Proof.
  intros data run. split; [|split].
  - apply convert_non_object.
  - intros raw v Hread Hdoc Hv Hne. apply convert_non_object.
    rewrite (loader_wraps_non_array _ _ _ _ _ Hread Hdoc Hne).
    simpl. rewrite Hv. reflexivity.
  - intros raw i line v Hread Hdoc Hlines Hi Hblank Hline Hv.
    apply convert_non_object. apply (forallb_elem_false _ _ v); [|exact Hv].
    rewrite (load_content_returns read_text json_loads path raw
               (decoded_lines json_loads (split_lines (strip raw))) Hread).
    + unfold decoded_lines. apply list_elem_of_omap. exists line. split.
      * apply list_elem_of_lookup. eauto.
      * rewrite Hblank, Hline. reflexivity.
    + unfold load_content. rewrite Hdoc. apply load_lines_decoded, Hlines.
Qed.









(** ** Facts about the derived output path *)

Lemma append_cons (c : ascii) (a b : string) :
  String.append (String c a) b = String c (String.append a b).
Proof. reflexivity. Qed.

Lemma append_empty_l (b : string) : String.append EmptyString b = b.
Proof. reflexivity. Qed.

Lemma append_empty_r (a : string) : String.append a EmptyString = a.
Proof.
  induction a as [|x a IH]; [reflexivity|]. rewrite append_cons, IH. reflexivity.
Qed.

Lemma append_assoc (a b c : string) :
  String.append (String.append a b) c = String.append a (String.append b c).
Proof.
  induction a as [|x a IH]; [reflexivity|]. rewrite !append_cons, IH. reflexivity.
Qed.

Lemma append_cancel_l (a b c : string) :
  String.append a b = String.append a c -> b = c.
Proof.
  induction a as [|x a IH]; [exact id|].
  rewrite !append_cons. intros H. injection H as H. exact (IH H).
Qed.

Lemma no_sep_append (a b : string) :
  no_sep (String.append a b) = no_sep a && no_sep b.
Proof.
  induction a as [|x a IH]; [reflexivity|].
  rewrite append_cons. simpl. rewrite IH. apply andb_assoc.
Qed.

Lemma split_last_sep_no_sep (t : string) :
  no_sep t = true -> split_last_sep t = (EmptyString, t).
Proof.
  induction t as [|c t IH]; simpl; [reflexivity|].
  intros H. apply andb_true_iff in H as [Hc Ht]. rewrite (IH Ht).
  destruct (is_sep c); [discriminate|reflexivity].
Qed.

Lemma split_last_sep_append (a t : string) :
  no_sep t = true ->
  split_last_sep (String.append a (String "/" t))
  = (String.append a (String "/" EmptyString), t).
Proof.
  intros Ht. induction a as [|c a IH].
  - rewrite !append_empty_l. simpl. rewrite (split_last_sep_no_sep t Ht).
    reflexivity.
  - rewrite !append_cons. simpl. rewrite IH. destruct a; reflexivity.
Qed.

Lemma basename_no_sep (p : string) : no_sep (basename p) = true.
Proof.
  unfold basename. induction p as [|c p IH]; simpl; [reflexivity|].
  destruct (split_last_sep p) as [head tail]. simpl in IH.
  destruct head; simpl; [|exact IH].
  destruct (is_sep c) eqn:Hc; simpl; [exact IH|].
  rewrite Hc, IH. reflexivity.
Qed.

Lemma split_last_dot_Some (b root ext : string) :
  split_last_dot b = Some (root, ext) ->
  b = String.append root ext /\ exists e, ext = String "." e.
Proof.
  revert root. induction b as [|c b IH]; simpl; intros root H; [discriminate|].
  destruct (split_last_dot b) as [[root' ext']|].
  - injection H as <- <-. destruct (IH root' eq_refl) as [-> He].
    split; [reflexivity|exact He].
  - destruct (is_dot c) eqn:Hc; [|discriminate].
    injection H as <- <-. split; [reflexivity|].
    exists b. f_equal. apply Ascii.eqb_eq. exact Hc.
Qed.

(** [splitext] cuts a name without a slash in two: a root without a slash and
    an extension that is empty or starts with the dot. *)
Lemma splitext_name (b : string) :
  no_sep b = true ->
  b = String.append (fst (splitext b)) (snd (splitext b))
  /\ no_sep (fst (splitext b)) = true
  /\ (snd (splitext b) = EmptyString \/ exists e, snd (splitext b) = String "." e).
Proof.
  intros Hb. unfold splitext. rewrite (split_last_sep_no_sep b Hb).
  destruct (split_last_dot b) as [[root ext]|] eqn:Hdot.
  - destruct (split_last_dot_Some _ _ _ Hdot) as [Hsplit He].
    destruct (all_dots root); simpl.
    + rewrite append_empty_r. split; [reflexivity|]. split; [exact Hb|].
      left. reflexivity.
    + rewrite append_empty_l. split; [exact Hsplit|]. split; [|right; exact He].
      rewrite Hsplit, no_sep_append in Hb. apply andb_true_iff in Hb as [H _].
      exact H.
  - simpl. rewrite append_empty_r. split; [reflexivity|]. split; [exact Hb|].
    left. reflexivity.
Qed.

Lemma ends_with_sep_append (a : string) :
  ends_with_sep a = true ->
  exists a0, a = String.append a0 (String "/" EmptyString).
Proof.
  induction a as [|c a IH]; simpl; [discriminate|].
  destruct a as [|c' a'].
  - intros Hc. exists EmptyString. rewrite append_empty_l. f_equal.
    apply Ascii.eqb_eq. exact Hc.
  - intros H. destruct (IH H) as [a0 Ha0]. exists (String c a0).
    rewrite append_cons, <- Ha0. reflexivity.
Qed.

Lemma rstrip_sep_append_sep (s : string) :
  rstrip_sep (String.append s (String "/" EmptyString)) = rstrip_sep s.
Proof.
  induction s as [|c s IH]; [reflexivity|].
  rewrite append_cons. simpl. rewrite IH. reflexivity.
Qed.

Lemma rstrip_sep_fixed (s : string) :
  ends_with_sep s = false -> rstrip_sep s = s.
Proof.
  induction s as [|c s IH]; [reflexivity|].
  destruct s as [|c' s'].
  - simpl. intros ->. reflexivity.
  - intros H. change (ends_with_sep (String c' s') = false) in H.
    change (rstrip_sep (String c (String c' s')))
      with (match rstrip_sep (String c' s') with
            | EmptyString => if is_sep c then EmptyString else String c EmptyString
            | String x r => String c (String x r)
            end).
    rewrite (IH H). reflexivity.
Qed.

Lemma ends_with_sep_rstrip_sep (s : string) :
  ends_with_sep (rstrip_sep s) = false.
Proof.
  induction s as [|c s IH]; simpl; [reflexivity|].
  destruct (rstrip_sep s) as [|c' r] eqn:Hr.
  - destruct (is_sep c) eqn:Hc; simpl; [reflexivity|exact Hc].
  - exact IH.
Qed.

Lemma rstrip_sep_empty (s : string) :
  rstrip_sep s = EmptyString -> all_sep s = true.
Proof.
  induction s as [|c s IH]; simpl; [reflexivity|].
  destruct (rstrip_sep s); [|discriminate].
  destruct (is_sep c); [|discriminate]. intros _. apply IH. reflexivity.
Qed.

Lemma all_sep_append (a b : string) :
  all_sep (String.append a b) = all_sep a && all_sep b.
Proof.
  induction a as [|x a IH]; [reflexivity|].
  rewrite append_cons. simpl. rewrite IH. apply andb_assoc.
Qed.

Lemma all_sep_not_ending (s : string) :
  ends_with_sep s = false -> s <> EmptyString -> all_sep s = false.
Proof.
  induction s as [|c s IH]; [congruence|].
  destruct s as [|c' s'].
  - simpl. intros -> _. reflexivity.
  - intros H _. change (ends_with_sep (String c' s') = false) in H.
    change (all_sep (String c (String c' s')))
      with (is_sep c && all_sep (String c' s')).
    rewrite (IH H) by discriminate. apply andb_false_r.
Qed.

(** The three shapes of a [dirname]: empty, slashes only, or ending in a
    character that is no slash. *)
Lemma dirname_shape (p : string) :
  dirname p = EmptyString
  \/ (ends_with_sep (dirname p) = true /\ all_sep (dirname p) = true)
  \/ (dirname p <> EmptyString /\ ends_with_sep (dirname p) = false).
Proof.
  unfold dirname. destruct (fst (split_last_sep p)) as [|c head] eqn:Hhead.
  - left. reflexivity.
  - change (str_truthy (String c head)) with true.
    destruct (all_sep (String c head)) eqn:Hall.
    + right. left. change (true && negb true) with false. cbv iota.
      split; [|exact Hall]. clear Hhead. revert c Hall.
      induction head as [|c' head IH]; intros c Hall.
      * simpl in *. rewrite andb_true_r in Hall. exact Hall.
      * change (ends_with_sep (String c' head) = true). apply IH.
        simpl in Hall. apply andb_true_iff in Hall as [_ Hall]. exact Hall.
    + right. right. change (true && negb false) with true. cbv iota.
      split; [|apply ends_with_sep_rstrip_sep].
      intros Hempty. rewrite (rstrip_sep_empty _ Hempty) in Hall. discriminate.
Qed.

Lemma split_last_dot_xlsx (s : string) :
  split_last_dot (String.append s ".xlsx") = Some (s, ".xlsx").
Proof.
  induction s as [|c s IH]; [reflexivity|].
  rewrite append_cons. cbn [split_last_dot]. rewrite IH. reflexivity.
Qed.

Lemma all_dots_append (a b : string) :
  all_dots (String.append a b) = all_dots a && all_dots b.
Proof.
  induction a as [|x a IH]; [reflexivity|].
  rewrite append_cons. simpl. rewrite IH. apply andb_assoc.
Qed.

Lemma no_sep_head (s : string) :
  no_sep s = true -> s <> EmptyString ->
  exists c s', s = String c s' /\ is_sep c = false.
Proof.
  destruct s as [|c s']; [congruence|]. simpl. intros H _.
  apply andb_true_iff in H as [Hc _]. exists c, s'.
  split; [reflexivity|]. destruct (is_sep c); [discriminate|reflexivity].
Qed.

(** Where [os.path.join] of a directory and a file name is split again. *)
Lemma split_last_sep_path_join (d name : string) :
  no_sep name = true -> name <> EmptyString ->
  split_last_sep (path_join d name)
  = (if negb (str_truthy d) || ends_with_sep d then d
     else String.append d (String "/" EmptyString), name).
Proof.
  intros Hname Hne.
  destruct (no_sep_head name Hname Hne) as (c & s' & -> & Hc).
  unfold path_join. rewrite Hc.
  destruct d as [|x d].
  - simpl negb. simpl orb. cbv iota. rewrite append_empty_l.
    apply split_last_sep_no_sep, Hname.
  - change (negb (str_truthy (String x d))) with false. rewrite orb_false_l.
    destruct (ends_with_sep (String x d)) eqn:Hend.
    + destruct (ends_with_sep_append _ Hend) as [a0 Ha0].
      rewrite Ha0 at 1. rewrite append_assoc, append_cons, append_empty_l.
      rewrite (split_last_sep_append a0 _ Hname), <- Ha0. reflexivity.
    + apply split_last_sep_append, Hname.
Qed.

(** The derived output path lies in the directory of the input file: its
    [dirname] is that of the input path.  Its [basename] is the input's
    base name without the extension, followed by [_converted_], the
    timestamp and [.xlsx], so its extension is [.xlsx]; and it is never the
    input path itself.  The timestamp, digits and an underscore, holds no
    slash. *)
Theorem derived_output_beside_input (timestamp json_file_path : string) :
  no_sep timestamp = true ->
  let out := derived_output_path timestamp json_file_path in
  dirname out = dirname json_file_path
  /\ basename out
     = String.append (fst (splitext (basename json_file_path)))
         (String.append "_converted_" (String.append timestamp ".xlsx"))
  /\ snd (splitext out) = ".xlsx"
  /\ out <> json_file_path.
Proof.
  intros Hts out.
  destruct (splitext_name (basename json_file_path)
              (basename_no_sep json_file_path)) as (Hsplit & Hbase & Hext).
  set (base := fst (splitext (basename json_file_path))) in *.
  set (name := String.append base
                 (String.append "_converted_" (String.append timestamp ".xlsx"))).
  assert (Hname : no_sep name = true).
  { unfold name. rewrite !no_sep_append, Hbase, Hts. reflexivity. }
  assert (Hne : name <> EmptyString).
  { unfold name. destruct base; discriminate. }
  pose proof (split_last_sep_path_join (dirname json_file_path) name Hname Hne)
    as Hout.
  fold name in out. change (path_join (dirname json_file_path) name) with out in Hout.
  assert (Hbasename : basename out = name).
  { unfold basename. rewrite Hout. reflexivity. }
  split; [|split; [exact Hbasename|split]].
  - unfold dirname at 1. rewrite Hout. cbn [fst].
    destruct (dirname_shape json_file_path) as [Hd|[[Hend Hall]|[Hd Hend]]].
    + rewrite Hd. reflexivity.
    + rewrite Hend, orb_true_r, Hall, andb_false_r. reflexivity.
    + rewrite Hend, orb_false_r.
      destruct (dirname json_file_path) as [|x d] eqn:Hdir; [congruence|].
      change (negb (str_truthy (String x d))) with false. cbv iota.
      rewrite append_cons. change (str_truthy (String x _)) with true.
      rewrite <- append_cons, all_sep_append.
      rewrite (all_sep_not_ending _ Hend) by discriminate.
      simpl andb. cbv iota.
      rewrite rstrip_sep_append_sep. apply rstrip_sep_fixed, Hend.
  - unfold splitext. rewrite Hout.
    assert (Hdot : split_last_dot name
                   = Some (String.append base (String.append "_converted_" timestamp),
                           ".xlsx")).
    { unfold name. rewrite <- (append_assoc "_converted_"), <- append_assoc.
      apply split_last_dot_xlsx. }
    rewrite Hdot, all_dots_append.
    change (all_dots (String.append "_converted_" timestamp)) with false.
    rewrite andb_false_r. reflexivity.
  - intros Heq. rewrite Heq in Hbasename.
    destruct Hext as [Hext|[e Hext]]; rewrite Hext, Hbasename in Hsplit;
      unfold name in Hsplit; apply append_cancel_l in Hsplit; discriminate.
Qed.

(** ** What a written workbook holds *)

Lemma build_sheets_Ok (data : list json) (sheets : list (string * DataFrame)) :
  build_sheets data = Ok sheets ->
  exists main ide feature lang_feature lang_model model_feature,
    create_main_metrics_sheet data = Ok main
    /\ create_ide_totals_sheet data = Ok ide
    /\ create_feature_totals_sheet data = Ok feature
    /\ create_language_feature_sheet data = Ok lang_feature
    /\ create_language_model_sheet data = Ok lang_model
    /\ create_model_feature_sheet data = Ok model_feature
    /\ sheets
       = [ ("Main_Metrics", main); ("IDE_Totals", ide);
           ("Feature_Totals", feature); ("Language_Feature", lang_feature);
           ("Language_Model", lang_model); ("Model_Feature", model_feature) ].
Proof.
  unfold build_sheets.
  destruct (create_main_metrics_sheet data) as [main|]; [|discriminate].
  destruct (create_ide_totals_sheet data) as [ide|]; [|discriminate].
  destruct (create_feature_totals_sheet data) as [feature|]; [|discriminate].
  destruct (create_language_feature_sheet data) as [lang_feature|];
    [|discriminate].
  destruct (create_language_model_sheet data) as [lang_model|]; [|discriminate].
  destruct (create_model_feature_sheet data) as [model_feature|];
    [|discriminate].
  intros H. injection H as <-.
  exists main, ide, feature, lang_feature, lang_model, model_feature.
  repeat (split; [reflexivity|]). reflexivity.
Qed.

Lemma nonempty_tabs_names (sheets : list (string * DataFrame)) :
  sublist (map tab_name (nonempty_tabs sheets)) (map fst sheets).
Proof.
  unfold nonempty_tabs. induction sheets as [|[name df] sheets IH]; simpl.
  - constructor.
  - destruct (df_empty df); simpl.
    + apply sublist_cons, IH.
    + apply sublist_skip, IH.
Qed.

Lemma nonempty_tabs_filled (sheets : list (string * DataFrame)) :
  Forall (fun sheet => rectangular (snd sheet)) sheets ->
  Forall filled (nonempty_tabs sheets).
Proof.
  unfold nonempty_tabs. induction 1 as [|[name df] sheets Hdf _ IH]; simpl.
  - constructor.
  - destruct (df_empty df) eqn:Hempty; simpl; [exact IH|].
    constructor; [|exact IH]. split; [|exact Hdf].
    simpl. unfold df_empty in Hempty.
    destruct (columns df), (values df); discriminate.
Qed.

Section WrittenFacts.

Variable read_text : string -> read_result.
Variable json_loads : string -> result json.
Variable default_output_path : string -> string.
Variable excel_saves : string -> workbook -> bool.

Lemma convert_some_data (path : string) (out : option string) :
  load_json_data read_text json_loads path <> [] ->
  convert_json_to_xlsx read_text json_loads default_output_path excel_saves
    path out
  = match build_sheets (load_json_data read_text json_loads path) with
    | Ok sheets =>
        if excel_saves (default (default_output_path path) out)
             (write_sheets [] sheets)
        then Written (default (default_output_path path) out)
               (write_sheets [] sheets)
        else WriteError
    | Raise e => Uncaught e
    end.
Proof.
  intros Hne. unfold convert_json_to_xlsx.
  destruct (load_json_data read_text json_loads path);
    [contradiction Hne|]; reflexivity.
Qed.

Lemma convert_written (path : string) (out : option string)
    (target : string) (book : workbook) :
  convert_json_to_xlsx read_text json_loads default_output_path excel_saves
    path out = Written target book ->
  target = default (default_output_path path) out
  /\ excel_saves target book = true
  /\ (exists main_tab rest,
        book = main_tab :: rest
        /\ tab_name main_tab = "Main_Metrics"
        /\ header main_tab = map fst main_fields
        /\ length (body main_tab)
           = length (load_json_data read_text json_loads path))
  /\ sublist (map tab_name book) sheet_names
  /\ Forall filled book.
Proof.
  intros H.
  assert (Hne : load_json_data read_text json_loads path <> []).
  { intros Hnil. rewrite (convert_no_data _ _ _ _ _ _ Hnil) in H. discriminate. }
  rewrite (convert_some_data path out Hne) in H.
  set (data := load_json_data read_text json_loads path) in *.
  revert H.
  destruct (build_sheets data) as [sheets|e] eqn:Hsheets; [|discriminate].
  destruct (excel_saves _ _) eqn:Hsaves; [|discriminate].
  intros H. injection H as <- <-.
  split; [reflexivity|]. split; [exact Hsaves|].
  rewrite write_sheets_nonempty_tabs, app_nil_l.
  destruct (build_sheets_Ok data sheets Hsheets)
    as (main & ide & feature & lang_feature & lang_model & model_feature
        & Hmain & Hide & Hfeature & Hlf & Hlm & Hmf & ->).
  destruct (main_frame_shape data main Hmain) as (Hcmain & Hlen & Hcols & _).
  split; [|split].
  - unfold nonempty_tabs. cbn [omap list_omap snd].
    rewrite (main_frame_not_empty data main Hne Hmain).
    eexists _, _. split; [reflexivity|]. split; [reflexivity|].
    split; [exact (Hcols Hne)|exact Hlen].
  - apply (nonempty_tabs_names
             [ ("Main_Metrics", main); ("IDE_Totals", ide);
               ("Feature_Totals", feature); ("Language_Feature", lang_feature);
               ("Language_Model", lang_model); ("Model_Feature", model_feature) ]).
  - apply nonempty_tabs_filled.
    repeat (apply Forall_cons; split); [exact Hcmain|..|constructor].
    + refine (proj1 (returned_rows_shape _ ide_display ide_columns data ide
                       _ _ _ Hide));
        [apply ide_display_dicts_only|apply ide_display_columns|no_duplicates].
    + refine (proj1 (returned_rows_shape _ feature_display feature_columns
                       data feature _ _ _ Hfeature));
        [apply plain_display_dicts_only, is_ok_feature_display
        |apply feature_display_columns|no_duplicates].
    + refine (proj1 (returned_rows_shape _ lang_feature_display
                       lang_feature_columns data lang_feature _ _ _ Hlf));
        [apply plain_display_dicts_only, is_ok_lang_feature_display
        |apply lang_feature_display_columns|no_duplicates].
    + refine (proj1 (returned_rows_shape _ lang_model_display
                       lang_model_columns data lang_model _ _ _ Hlm));
        [apply plain_display_dicts_only, is_ok_lang_model_display
        |apply lang_model_display_columns|no_duplicates].
    + refine (proj1 (returned_rows_shape _ model_feature_display
                       model_feature_columns data model_feature _ _ _ Hmf));
        [apply plain_display_dicts_only, is_ok_model_feature_display
        |apply model_feature_display_columns|no_duplicates].
Qed.

End WrittenFacts.

(** [main] shows the usage text, and reads and writes nothing, exactly when
    the input path does not exist: the first argument, or [json_file.json]
    beside the script when there is none.  A workbook it writes goes to the
    second argument, or to the path derived from the input path when there
    is none, arguments after the second being ignored; its first tab is
    [Main_Metrics] with the fifteen main columns as header and one row per
    loaded record; its tabs are sheets of the six in sheet order, each one
    once; and every tab has a row, every row as wide as the header. *)
Theorem main_writes_one_workbook (read_text : string -> read_result)
    (json_loads : string -> result json) (timestamp : string)
    (excel_saves : string -> workbook -> bool) (script_dir : string)
    (path_exists : string -> bool) (argv : list string) :
  let run := main read_text json_loads timestamp excel_saves script_dir
               path_exists argv in
  let input := default (path_join script_dir "json_file.json") (argv !! 1%nat) in
  (run = UsageShown <-> path_exists input = false)
  /\ (forall target book,
        run = Converted (Written target book) ->
        target = default (derived_output_path timestamp input) (argv !! 2%nat)
        /\ excel_saves target book = true
        /\ (exists main_tab rest,
              book = main_tab :: rest
              /\ tab_name main_tab = "Main_Metrics"
              /\ header main_tab = map fst main_fields
              /\ length (body main_tab)
                 = length (load_json_data read_text json_loads input))
        /\ sublist (map tab_name book) sheet_names
        /\ Forall filled book).
Proof.
  intros run input.
  assert (Hrun :
    run = if negb (path_exists input) then UsageShown
          else Converted (convert_json_to_xlsx read_text json_loads
                            (derived_output_path timestamp) excel_saves
                            input (argv !! 2%nat))).
  { unfold run, input, main.
    destruct argv as [|a0 [|a1 [|a2 rest]]]; reflexivity. }
  rewrite Hrun. split.
  - destruct (path_exists input); simpl; split; intros H;
      first [reflexivity|discriminate].
  - intros target book.
    destruct (path_exists input); simpl; [|discriminate].
    intros H. injection H as H. exact (convert_written _ _ _ _ _ _ _ _ H).
Qed.

(** ** Records are converted one by one *)
















(** The integer [2 ^ 53 + 1] is kept in the main frame of its record alone,
    and is the float [2 ^ 53] in the frame of the record followed by one
    whose LOC Added is 0.5. *)
Lemma number_depends_on_the_column :
  exists df1 df,
    create_main_metrics_sheet (take 1 example_numbers) = Ok df1
    /\ create_main_metrics_sheet example_numbers = Ok df
    /\ cell df1 0 "LOC Added" = Some (JInt (2 ^ 53 + 1))
    /\ cell df 0 "LOC Added" = Some (JFloat 4845873199050653696).
Proof.
  eexists _, _. split; [reflexivity|]. split; [reflexivity|].
  split; vm_compute; reflexivity.
Qed.

(** ** The further theorems at the examples *)

Lemma returned_frames_shape_witness :
  exists df,
    create_ide_totals_sheet example_week = Ok df
    /\ df_len df <> 0%nat
    /\ rectangular df
    /\ columns df = "User Login" :: "Day" :: ide_columns
    /\ carry_gaps df "totals_by_ide" example_week.
Proof.
  eexists. split; [reflexivity|]. split; [discriminate|].
  destruct (proj1 (proj2 (returned_frames_shape example_week)) _ eq_refl)
    as (Hr & Hcols & Hgaps).
  split; [exact Hr|]. split; [|exact Hgaps]. apply Hcols. discriminate.
Defined.

Lemma breakdown_rows_join_main_witness :
  exists main ide,
    create_main_metrics_sheet example_week = Ok main
    /\ create_ide_totals_sheet example_week = Ok ide
    /\ forallb keyed example_week = true
    /\ joins main ide.
Proof.
  eexists _, _. split; [reflexivity|]. split; [reflexivity|].
  split; [reflexivity|].
  apply (proj1 (breakdown_rows_join_main example_week _ eq_refl eq_refl)).
  reflexivity.
Defined.

Lemma non_object_record_raises_witness :
  (example_stray_files "number.json" = Content "42"
   /\ Decoder.loads (strip "42") = Ok (JInt 42)
   /\ convert_json_to_xlsx example_stray_files Decoder.loads
        example_default_output example_saves "number.json" None
      = Uncaught AttributeError)
  /\ (Decoder.loads "[1, 2]" = Ok (JArr [JInt 1; JInt 2])
      /\ convert_json_to_xlsx example_stray_files Decoder.loads
           example_default_output example_saves "pairs.jsonl" (Some "out.xlsx")
         = Uncaught AttributeError).
Proof.
  split.
  - split; [reflexivity|]. split; [reflexivity|].
    apply (proj1 (proj2 (non_object_record_raises example_stray_files
                           Decoder.loads example_default_output example_saves
                           "number.json" None))
             "42" (JInt 42)); [reflexivity..|].
    intros xs. discriminate.
  - split; [reflexivity|].
    apply (proj2 (proj2 (non_object_record_raises example_stray_files
                           Decoder.loads example_default_output example_saves
                           "pairs.jsonl" (Some "out.xlsx")))
             (String.concat line_feed
                [ Decoder.dq "{'user_login':'alice'}"; "[1, 2]" ])
             1%nat "[1, 2]" (JArr [JInt 1; JInt 2]));
      [reflexivity|reflexivity
      |apply rejects_only_decide; vm_compute; reflexivity
      |reflexivity..].
Defined.


Lemma derived_output_beside_input_witness :
  no_sep "20240101_120000" = true
  /\ dirname (derived_output_path "20240101_120000" "/data/in/week.jsonl")
     = "/data/in"
  /\ basename (derived_output_path "20240101_120000" "/data/in/week.jsonl")
     = "week_converted_20240101_120000.xlsx".
Proof.
  split; [reflexivity|].
  destruct (derived_output_beside_input "20240101_120000" "/data/in/week.jsonl"
              eq_refl) as (Hdir & Hbase & _).
  split; [rewrite Hdir|rewrite Hbase]; reflexivity.
Defined.

Lemma main_writes_one_workbook_witness :
  example_exists "alice.json" = true
  /\ exists book,
       main example_files Decoder.loads "20240101_120000" example_saves
         "/opt/tool" example_exists ["json_to_xlsx.py"; "alice.json"]
       = Converted (Written "alice_converted_20240101_120000.xlsx" book)
       /\ map tab_name book = ["Main_Metrics"; "IDE_Totals"]
       /\ Forall filled book.
Proof.
  split; [reflexivity|]. eexists. split; [vm_compute; reflexivity|].
  split; [reflexivity|].
  exact (proj2 (proj2 (proj2 (proj2
           (proj2 (main_writes_one_workbook example_files Decoder.loads
                     "20240101_120000" example_saves "/opt/tool" example_exists
                     ["json_to_xlsx.py"; "alice.json"])
              _ _ eq_refl))))).
Defined.

